(** * Entity-relationship extractor: a shallow embedding of the pipeline

    The development follows the Python sources
    [smart_entity_extractor.py], [entity_extractor.py],
    [wikidata_client.py], [enhanced_relationship_extractor.py],
    [graph_visualizer.py] and [app.py].  Python [str] values are
    [string]s whose characters are read as the code points 0..255; Python
    [int]s are [Z]; a [dict] with a fixed set of keys is a record; the
    decoded JSON payloads of the knowledge base keep their dynamic shape
    (type [json]); exceptions are explicit (type [res]). *)

From Stdlib Require Import ZArith String Ascii List Bool Lia.
From stdpp Require Import base gmap strings list sorting.

Local Open Scope string_scope.
Local Open Scope list_scope.
Set Warnings "-register-all,-clear-no-such-hyp".

(** ** Python strings *)

Module PyStr.

Definition ord (c : ascii) : N := N_of_ascii c.

(** [str.isspace] on one character (also the class [\s] of [re] on
    [str] patterns), restricted to the code points below 256. *)
Definition isspace (c : ascii) : bool :=
  let n := ord c in
  ((9 <=? n) && (n <=? 13) || (28 <=? n) && (n <=? 32)
   || (n =? 133) || (n =? 160))%N.

Definition isupper (c : ascii) : bool :=
  let n := ord c in
  ((65 <=? n) && (n <=? 90)
   || (192 <=? n) && (n <=? 222) && negb (n =? 215))%N.

Definition lower_char (c : ascii) : ascii :=
  if isupper c then ascii_of_N (ord c + 32) else c.

(** [s.lower()] *)
Fixpoint lower (s : string) : string :=
  match s with
  | EmptyString => EmptyString
  | String c s' => String (lower_char c) (lower s')
  end.

Fixpoint lstrip (s : string) : string :=
  match s with
  | EmptyString => EmptyString
  | String c s' => if isspace c then lstrip s' else s
  end.

Definition rstrip (s : string) : string :=
  String.rev (lstrip (String.rev s)).

(** [s.strip()] *)
Definition strip (s : string) : string := rstrip (lstrip s).

(** [drop_prefix p s] is the rest of [s] after the literal [p]. *)
Fixpoint drop_prefix (p s : string) : option string :=
  match p, s with
  | EmptyString, _ => Some s
  | String a p', String b s' =>
      if Ascii.eqb a b then drop_prefix p' s' else None
  | String _ _, EmptyString => None
  end.

(** [sub in s] for two strings *)
Fixpoint contains (sub s : string) : bool :=
  match drop_prefix sub s with
  | Some _ => true
  | None =>
      match s with
      | EmptyString => false
      | String _ s' => contains sub s'
      end
  end.

(** [s[i]] for a non-negative index, as a one-character string *)
Fixpoint char_at (s : string) (i : nat) : option string :=
  match s, i with
  | EmptyString, _ => None
  | String c _, O => Some (String c EmptyString)
  | String _ s', S i' => char_at s' i'
  end.

(** The characters of [s], each as a one-character string
    (iteration over a [str]). *)
Fixpoint chars (s : string) : list string :=
  match s with
  | EmptyString => []
  | String c s' => String c EmptyString :: chars s'
  end.

(** [\s+]: at least one white-space character, then as many as there
    are.  What follows [\s+] in the pattern below is a character that
    is not white space, so the greedy choice is the only one that can
    match. *)
Definition spaces1 (s : string) : option string :=
  match s with
  | EmptyString => None
  | String c s' => if isspace c then Some (lstrip s') else None
  end.

Definition dquote : ascii := "034"%char.

(** The pattern [Charles Dillon\s+"Casey"\s+Stengel] matched at the
    head of [s]; the result is what is left of [s] after the match. *)
Definition casey_stengel_at (s : string) : option string :=
  s1 ← drop_prefix "Charles Dillon" s;
  s2 ← spaces1 s1;
  s3 ← drop_prefix (String dquote ("Casey" ++ String dquote "")) s2;
  s4 ← spaces1 s3;
  drop_prefix "Stengel" s4.

(** [re.search(pattern, text)]: the leftmost match, as [match.span()]. *)
Fixpoint casey_stengel_from (pos : nat) (s : string) : option (nat * nat) :=
  match casey_stengel_at s with
  | Some rest => Some (pos, pos + (String.length s - String.length rest))
  | None =>
      match s with
      | EmptyString => None
      | String _ s' => casey_stengel_from (S pos) s'
      end
  end.

Definition re_search_casey_stengel (text : string) : option (nat * nat) :=
  casey_stengel_from 0 text.

End PyStr.

(** ** Data model *)

(** An entity dict of [extract_entities]:
    [{'text', 'label', 'start', 'end'}]. *)
Record Entity := mkEntity {
  text : string;
  label : string;
  start : Z;
  end_ : Z
}.

(** A relationship dict of [get_relationships]:
    [{'predicate', 'predicate_pid'}]. *)
Record Relationship := mkRelationship {
  predicate : string;
  predicate_pid : string
}.

(** An entity dict of [process_entities]: a copy of the entity dict with
    the two keys ['qid'] and ['wikidata_label'] added. *)
Record ProcessedEntity := mkProcessed {
  entity : Entity;
  qid : string;
  wikidata_label : string
}.

(** A relationship dict of [extract_relationships], before the degrees
    are added. *)
Record Triplet := mkTriplet {
  subject : string;
  subject_qid : string;
  triplet_predicate : string;
  triplet_predicate_pid : string;
  object : string;
  object_qid : string
}.

(** A relationship dict of [_add_in_degree_info]: a copy of the triplet
    with its two degrees.  A degree is [None] when [in_degree] is asked
    about something that is not a node of the graph (networkx then hands
    back a view, not a number). *)
Record DegreeTriplet := mkDegreeTriplet {
  triplet : Triplet;
  subject_in_degree : option nat;
  object_in_degree : option nat
}.

(** ** smart_entity_extractor.py *)

Module SmartEntityExtractor.

(** The condition under which [_apply_smart_corrections] removes an
    entity: [start <= entity['start'] < end or
    start < entity['end'] <= end]. *)
Definition overlapping (s e : Z) (entity : Entity) : bool :=
  ((s <=? start entity) && (start entity <? e)
   || (s <? end_ entity) && (end_ entity <=? e))%Z.

Definition _fix_brooklyn_dodgers (entities : list Entity) : list Entity :=
  map (fun entity =>
         if PyStr.contains "Brooklyn Dodgers" (text entity)
         then mkEntity "Los Angeles Dodgers" (label entity)
                       (start entity) (end_ entity)
         else entity) entities.

Definition _fix_baseball_hall_of_fame (entities : list Entity) : list Entity :=
  map (fun entity =>
         if PyStr.contains "Baseball Hall of Fame" (text entity)
         then mkEntity (text entity) "FAC" (start entity) (end_ entity)
         else entity) entities.

Definition casey_stengel (s e : Z) : Entity :=
  mkEntity "Casey Stengel" "PERSON" s e.

Definition _apply_smart_corrections (txt : string) (entities : list Entity)
  : list Entity :=
  let corrected_entities :=
    match PyStr.re_search_casey_stengel txt with
    | Some (s, e) =>
        casey_stengel (Z.of_nat s) (Z.of_nat e)
        :: filter (fun entity =>
                     negb (overlapping (Z.of_nat s) (Z.of_nat e) entity))
                  entities
    | None => entities
    end in
  _fix_baseball_hall_of_fame (_fix_brooklyn_dodgers corrected_entities).

Definition text_key (entity : Entity) : string :=
  PyStr.strip (PyStr.lower (text entity)).

(** One turn of the loop of [_remove_duplicates]; the state is the
    pair of [seen] and [unique_entities]. *)
Definition dedup_step (st : gset string * list Entity) (entity : Entity)
  : gset string * list Entity :=
  let '(seen, unique_entities) := st in
  if decide (text_key entity ∈ seen) then st
  else ({[text_key entity]} ∪ seen, unique_entities ++ [entity]).

Definition _remove_duplicates (entities : list Entity) : list Entity :=
  snd (fold_left dedup_step entities (∅, [])).

(** [entities.sort(key=lambda x: x['start'])]: a stable ascending
    sort.  [insert_by_start] puts an element in front of the first one
    whose key is not smaller, so that elements of equal key keep their
    order. *)
Fixpoint insert_by_start (x : Entity) (l : list Entity) : list Entity :=
  match l with
  | [] => [x]
  | y :: l' =>
      if (start x <=? start y)%Z then x :: y :: l'
      else y :: insert_by_start x l'
  end.

Definition sort_by_start (l : list Entity) : list Entity :=
  fold_right insert_by_start [] l.

(** [not text or not text.strip()] *)
Definition blank (txt : string) : bool :=
  match txt with
  | EmptyString => true
  | _ => match PyStr.strip txt with EmptyString => true | _ => false end
  end.

Section WithModel.
(** The spaCy pipeline: the entities of [doc.ents], in order, each as
    the dict the first pass builds from it. *)
Variable nlp : string → list Entity.

Definition extract_entities (txt : string) : list Entity :=
  if blank txt then []
  else
    let entities := nlp txt in
    let entities := _apply_smart_corrections txt entities in
    let entities := _remove_duplicates entities in
    sort_by_start entities.
End WithModel.

End SmartEntityExtractor.

(** ** Python exceptions and decoded JSON values *)

Inductive request_failure :=
  | Timeout | ConnectionError | HTTPError | JSONDecodeError.

(** The exceptions the modelled code can meet.  [RequestException] stands
    for [requests.RequestException] and its subclasses. *)
Inductive exn :=
  | RequestException (f : request_failure)
  | KeyError
  | IndexError
  | TypeError
  | AttributeError.

(** The outcome of a call.  [Unmodelled] marks the one place where the
    embedding stops following a run: a payload puts a value that is not a
    string where the client's signature promises [str] (an entity id or
    a label), and the value would travel on as an identifier. *)
Inductive res (A : Type) :=
  | Ok (a : A)
  | Raise (e : exn)
  | Unmodelled.
Arguments Ok {A} a.
Arguments Raise {A} e.
Arguments Unmodelled {A}.

Global Instance res_ret : MRet res := fun A a => Ok a.
Global Instance res_bind : MBind res := fun A B f m =>
  match m with
  | Ok a => f a
  | Raise e => Raise e
  | Unmodelled => Unmodelled
  end.

(** A [for] loop whose body can raise: the first exception ends it. *)
Fixpoint foldM {A B : Type} (f : A → B → res A) (a : A) (l : list B) : res A :=
  match l with
  | [] => Ok a
  | x :: l' => a' ← f a x; foldM f a' l'
  end.

(** [try: body  except requests.RequestException: return miss] *)
Definition except_RequestException {A : Type} (body : res A) (miss : A) : res A :=
  match body with
  | Raise (RequestException _) => Ok miss
  | other => other
  end.

(** What [json.loads] returns.  [JObj] holds the [items()] of the decoded
    [dict] in insertion order (its keys are pairwise distinct); numbers
    are the integers. *)
Inductive json :=
  | JNull
  | JBool (b : bool)
  | JNum (n : Z)
  | JStr (s : string)
  | JArr (l : list json)
  | JObj (items : list (string * json)).

Module Py.

Fixpoint lookup_key (k : string) (items : list (string * json)) : option json :=
  match items with
  | [] => None
  | (k', v) :: items' => if String.eqb k k' then Some v else lookup_key k items'
  end.

(** [v == s] for a string [s] *)
Definition eq_str (v : json) (s : string) : bool :=
  match v with
  | JStr s' => String.eqb s' s
  | _ => false
  end.

(** [k in v] for a string [k] *)
Definition contains (k : string) (v : json) : res bool :=
  match v with
  | JObj items => Ok (match lookup_key k items with Some _ => true | None => false end)
  | JArr l => Ok (existsb (fun x => eq_str x k) l)
  | JStr s => Ok (PyStr.contains k s)
  | JNull | JBool _ | JNum _ => Raise TypeError
  end.

(** [v[k]] for a string [k] *)
Definition getitem (v : json) (k : string) : res json :=
  match v with
  | JObj items =>
      match lookup_key k items with
      | Some x => Ok x
      | None => Raise KeyError
      end
  | _ => Raise TypeError
  end.

(** [v[0]] *)
Definition getitem0 (v : json) : res json :=
  match v with
  | JArr l => match l with x :: _ => Ok x | [] => Raise IndexError end
  | JStr s =>
      match PyStr.char_at s 0 with
      | Some c => Ok (JStr c)
      | None => Raise IndexError
      end
  | JObj _ => Raise KeyError
  | JNull | JBool _ | JNum _ => Raise TypeError
  end.

(** [bool(v)] *)
Definition truthy (v : json) : bool :=
  match v with
  | JNull => false
  | JBool b => b
  | JNum n => negb (n =? 0)%Z
  | JStr s => negb (String.eqb s "")
  | JArr l => match l with [] => false | _ => true end
  | JObj items => match items with [] => false | _ => true end
  end.

(** [v.get(k, default)] *)
Definition get (v : json) (k : string) (default : json) : res json :=
  match v with
  | JObj items =>
      Ok (match lookup_key k items with Some x => x | None => default end)
  | _ => Raise AttributeError
  end.

(** [v.items()] *)
Definition items (v : json) : res (list (string * json)) :=
  match v with
  | JObj its => Ok its
  | _ => Raise AttributeError
  end.

(** [iter(v)], as the list a [for] loop runs through *)
Definition iter (v : json) : res (list json) :=
  match v with
  | JArr l => Ok l
  | JObj its => Ok (map (fun kv => JStr (fst kv)) its)
  | JStr s => Ok (map JStr (PyStr.chars s))
  | JNull | JBool _ | JNum _ => Raise TypeError
  end.

(** [a and b] on conditions that can raise *)
Definition and_ (a b : res bool) : res bool :=
  x ← a; if (x : bool) then b else Ok false.

(** A value that leaves the payload as a [str]. *)
Definition as_str (v : json) : res string :=
  match v with
  | JStr s => Ok s
  | _ => Unmodelled
  end.

(** [bool(o)] for [o : Optional[str]] *)
Definition truthy_str (o : option string) : bool :=
  match o with
  | Some s => negb (String.eqb s "")
  | None => false
  end.

End Py.

(** ** wikidata_client.py *)

(** The query parameters of the two API actions the client uses.
    [wbsearchentities] always goes with [language=en, limit=1];
    [wbgetentities] with [props=labels] goes with [languages=en]. *)
Inductive Request :=
  | wbsearchentities (search : string)
  | wbgetentities (ids : string) (props : string).

(** What [session.get(..., timeout=10)] does: it raises, or it returns a
    response with a status code and a body; the body is [None] when it
    does not decode as JSON. *)
Inductive Response :=
  | TimedOut
  | ConnectionFailed
  | HttpResponse (status_code : Z) (body : option json).

Definition Session := Request → Response.

Module WikidataClient.

(** [response = session.get(...); response.raise_for_status();
    data = response.json()].  [response.json()] raises
    [requests.exceptions.JSONDecodeError], a [RequestException]. *)
Definition get_json (session : Session) (params : Request) : res json :=
  match session params with
  | TimedOut => Raise (RequestException Timeout)
  | ConnectionFailed => Raise (RequestException ConnectionError)
  | HttpResponse status_code body =>
      if ((400 <=? status_code) && (status_code <? 600))%Z
      then Raise (RequestException HTTPError)
      else match body with
           | Some data => Ok data
           | None => Raise (RequestException JSONDecodeError)
           end
  end.

Definition search_entity (session : Session) (entity_text : string)
  : res (option string) :=
  except_RequestException
    (data ← get_json session (wbsearchentities entity_text);
     c ← Py.and_ (Py.contains "search" data)
                 (s ← Py.getitem data "search"; Ok (Py.truthy s));
     if (c : bool) then
       s ← Py.getitem data "search";
       hit ← Py.getitem0 s;
       v ← Py.getitem hit "id";
       q ← Py.as_str v;
       Ok (Some q)
     else Ok None)
    None.

(** The part of [get_entity_label] and [get_property_label] after
    [data = response.json()]; the two bodies are the same text. *)
Definition label_in (data : json) (id : string) : res (option string) :=
  c ← Py.and_ (Py.contains "entities" data)
              (es ← Py.getitem data "entities"; Py.contains id es);
  if (c : bool) then
    es ← Py.getitem data "entities";
    entity ← Py.getitem es id;
    c' ← Py.and_ (Py.contains "labels" entity)
                 (ls ← Py.getitem entity "labels"; Py.contains "en" ls);
    if (c' : bool) then
      ls ← Py.getitem entity "labels";
      en ← Py.getitem ls "en";
      v ← Py.getitem en "value";
      l ← Py.as_str v;
      Ok (Some l)
    else Ok None
  else Ok None.

Definition get_entity_label (session : Session) (qid : string)
  : res (option string) :=
  except_RequestException
    (data ← get_json session (wbgetentities qid "labels");
     label_in data qid)
    None.

Definition get_property_label (session : Session) (pid : string)
  : res (option string) :=
  except_RequestException
    (data ← get_json session (wbgetentities pid "labels");
     label_in data pid)
    None.

(** The body of [for claim in claims:] *)
Definition claim_step (session : Session) (object_qid pid : string)
    (relationships : list Relationship) (claim : json)
  : res (list Relationship) :=
  c ← Py.and_ (Py.contains "mainsnak" claim)
              (m ← Py.getitem claim "mainsnak"; Py.contains "datavalue" m);
  if (c : bool) then
    m ← Py.getitem claim "mainsnak";
    datavalue ← Py.getitem m "datavalue";
    ty ← Py.get datavalue "type" JNull;
    if Py.eq_str ty "wikibase-entityid" then
      v ← Py.getitem datavalue "value";
      target_qid ← Py.getitem v "id";
      if Py.eq_str target_qid object_qid then
        predicate_label ← get_property_label session pid;
        if Py.truthy_str predicate_label then
          Ok (relationships
                ++ [mkRelationship (default "" predicate_label) pid])
        else Ok relationships
      else Ok relationships
    else Ok relationships
  else Ok relationships.

(** The body of [for pid, claims in subject_claims.items():] *)
Definition property_step (session : Session) (object_qid : string)
    (relationships : list Relationship) (item : string * json)
  : res (list Relationship) :=
  claims ← Py.iter (snd item);
  foldM (claim_step session object_qid (fst item)) relationships claims.

Definition get_relationships (session : Session)
    (subject_qid object_qid : string) : res (list Relationship) :=
  except_RequestException
    (data ← get_json session
              (wbgetentities (subject_qid ++ "|" ++ object_qid) "claims");
     c ← Py.and_ (Py.contains "entities" data)
                 (es ← Py.getitem data "entities";
                  Py.contains subject_qid es);
     if (c : bool) then
       es ← Py.getitem data "entities";
       subject ← Py.getitem es subject_qid;
       subject_claims ← Py.get subject "claims" (JObj []);
       its ← Py.items subject_claims;
       foldM (property_step session object_qid) [] its
     else Ok [])
    [].

(** [min(iterable, key=key)] on a non-empty iterable whose first
    element is [best]: a later element replaces the current one only
    when its key is strictly smaller. *)
Fixpoint py_min {A : Type} (key : A → nat) (best : A) (l : list A) : A :=
  match l with
  | [] => best
  | x :: l' => py_min key (if (key x <? key best)%nat then x else best) l'
  end.

Definition get_shortest_relationship (relationships : list Relationship)
  : option Relationship :=
  match relationships with
  | [] => None
  | r :: rs => Some (py_min (fun x => String.length (predicate x)) r rs)
  end.

(** The body of [for entity in entities:] in [process_entities] *)
Definition process_step (session : Session)
    (processed_entities : list ProcessedEntity) (ent : Entity)
  : res (list ProcessedEntity) :=
  q ← search_entity session (text ent);
  if Py.truthy_str q then
    l ← get_entity_label session (default "" q);
    if Py.truthy_str l then
      Ok (processed_entities
            ++ [mkProcessed ent (default "" q) (default "" l)])
    else Ok processed_entities
  else Ok processed_entities.

Definition process_entities (session : Session) (entities : list Entity)
  : res (list ProcessedEntity) :=
  foldM (process_step session) [] entities.

End WikidataClient.

(** ** networkx.DiGraph *)

(** The part of [networkx.DiGraph] that [_add_in_degree_info] uses.  A
    [DiGraph] keeps, for every node, the dict of its successors and the
    dict of its predecessors; the keys of such a dict are nodes, so that
    an edge is there or not: adding it again changes nothing. *)
Module nx.

Record DiGraph := mkDiGraph {
  _succ : gmap string (gset string);
  _pred : gmap string (gset string)
}.

Definition empty : DiGraph := mkDiGraph ∅ ∅.

Definition has_node (g : DiGraph) (n : string) : bool :=
  match _succ g !! n with Some _ => true | None => false end.

Definition add_node (n : string) (g : DiGraph) : DiGraph :=
  if has_node g n then g
  else mkDiGraph (<[n:=∅]> (_succ g)) (<[n:=∅]> (_pred g)).

Definition add_edge (u v : string) (g : DiGraph) : DiGraph :=
  let g := add_node u g in
  let g := add_node v g in
  mkDiGraph (alter (fun vs => {[v]} ∪ vs) u (_succ g))
            (alter (fun us => {[u]} ∪ us) v (_pred g)).

(** [g.in_degree(n)]: the number of predecessors of the node [n]. *)
Definition in_degree (g : DiGraph) (n : string) : option nat :=
  if has_node g n then size <$> (_pred g !! n) else None.

End nx.

(** ** enhanced_relationship_extractor.py *)

Module EnhancedRelationshipExtractor.

Import SmartEntityExtractor WikidataClient.

(** [if rels: shortest_rel = get_shortest_relationship(rels);
    if shortest_rel: relationships.append({...})] *)
Definition append_shortest (rels : list Relationship)
    (subj obj : ProcessedEntity) (relationships : list Triplet)
  : list Triplet :=
  match rels with
  | [] => relationships
  | _ :: _ =>
      match get_shortest_relationship rels with
      | Some shortest_rel =>
          relationships
            ++ [mkTriplet (wikidata_label subj) (qid subj)
                          (predicate shortest_rel)
                          (predicate_pid shortest_rel)
                          (wikidata_label obj) (qid obj)]
      | None => relationships
      end
  end.

(** The body of the inner loop of step 3, for
    [subject = processed_entities[i]] and
    [object_entity = processed_entities[j]]. *)
Definition pair_step (session : Session)
    (subj object_entity : ProcessedEntity) (relationships : list Triplet)
  : res (list Triplet) :=
  rels_forward ← get_relationships session (qid subj) (qid object_entity);
  rels_backward ← get_relationships session (qid object_entity) (qid subj);
  let relationships :=
    append_shortest rels_forward subj object_entity relationships in
  let relationships :=
    append_shortest rels_backward object_entity subj relationships in
  Ok relationships.

(** [processed_entities[i]] *)
Definition index (processed_entities : list ProcessedEntity) (i : nat)
  : res ProcessedEntity :=
  match processed_entities !! i with
  | Some e => Ok e
  | None => Raise IndexError
  end.

(** Step 3: [for i in range(n): for j in range(i + 1, n): ...] *)
Definition find_relationships (session : Session)
    (processed_entities : list ProcessedEntity) : res (list Triplet) :=
  let n := length processed_entities in
  foldM (fun relationships i =>
           foldM (fun relationships j =>
                    subj ← index processed_entities i;
                    object_entity ← index processed_entities j;
                    pair_step session subj object_entity relationships)
                 relationships (seq (i + 1) (n - (i + 1))))
        [] (seq 0 n).

Definition temp_graph (relationships : list Triplet)
    (entities : list ProcessedEntity) : nx.DiGraph :=
  let g := fold_left (fun g e => nx.add_node (qid e) g) entities nx.empty in
  fold_left (fun g rel => nx.add_edge (subject_qid rel) (object_qid rel) g)
            relationships g.

Definition _add_in_degree_info (relationships : list Triplet)
    (entities : list ProcessedEntity) : list DegreeTriplet :=
  let g := temp_graph relationships entities in
  map (fun rel =>
         mkDegreeTriplet rel
           (nx.in_degree g (subject_qid rel))
           (nx.in_degree g (object_qid rel)))
      relationships.

Section WithCollaborators.
Variable nlp : string → list Entity.
Variable session : Session.

Definition extract_relationships (txt : string) : res (list DegreeTriplet) :=
  let entities := extract_entities nlp txt in
  if (length entities <? 2)%nat then Ok []
  else
    processed_entities ← process_entities session entities;
    if (length processed_entities <? 2)%nat then Ok []
    else
      relationships ← find_relationships session processed_entities;
      Ok (_add_in_degree_info relationships processed_entities).
End WithCollaborators.

End EnhancedRelationshipExtractor.

(** ** The entity and triplet dicts as objects in a store

    [process_entities] and [_add_in_degree_info] receive lists of
    references to dicts that their callers still hold.  This second model
    of the two functions keeps the dicts in a store, so that a write
    through one reference is seen through every other one. *)

Module Store.

Import WikidataClient.

Inductive value :=
  | VStr (s : string)
  | VInt (n : Z)
  | VDegreeView.

(** A reference is an index into the store; a dict maps its keys to
    values. *)
Abbreviation ref := nat (only parsing).
Abbreviation heap := (list (gmap string value)) (only parsing).

(** A computation reads and writes the store and ends as a [res]. *)
Definition M (A : Type) : Type := heap → res A * heap.

Definition ret {A : Type} (a : A) : M A := fun h => (Ok a, h).

Definition bind {A B : Type} (m : M A) (f : A → M B) : M B :=
  fun h =>
    match m h with
    | (Ok a, h') => f a h'
    | (Raise e, h') => (Raise e, h')
    | (Unmodelled, h') => (Unmodelled, h')
    end.

Definition lift {A : Type} (r : res A) : M A := fun h => (r, h).

Notation "'do' x <- m ; k" := (bind m (fun x => k))
  (at level 10, x name, m at level 100, k at level 200).

(** [d[k]] *)
Definition getitem (r : ref) (k : string) : M value :=
  fun h =>
    match h !! r with
    | Some d =>
        match d !! k with
        | Some v => (Ok v, h)
        | None => (Raise KeyError, h)
        end
    | None => (Unmodelled, h)
    end.

(** [d[k] = v] *)
Definition setitem (r : ref) (k : string) (v : value) : M unit :=
  fun h => (Ok tt, alter (fun d => <[k:=v]> d) r h).

(** [d.copy()]: a new dict with the same items. *)
Definition copy (r : ref) : M ref :=
  fun h =>
    match h !! r with
    | Some d => (Ok (length h), h ++ [d])
    | None => (Unmodelled, h)
    end.

Definition as_str (v : value) : M string :=
  match v with
  | VStr s => ret s
  | _ => lift Unmodelled
  end.

Fixpoint for_ {A B : Type} (l : list B) (a : A) (body : A → B → M A) : M A :=
  match l with
  | [] => ret a
  | x :: l' => do a' <- body a x; for_ l' a' body
  end.

Definition process_step (session : Session)
    (processed_entities : list ref) (ent : ref) : M (list ref) :=
  do v <- getitem ent "text";
  do entity_text <- as_str v;
  do q <- lift (search_entity session entity_text);
  if Py.truthy_str q then
    do l <- lift (get_entity_label session (default "" q));
    if Py.truthy_str l then
      do processed_entity <- copy ent;
      do _ <- setitem processed_entity "qid" (VStr (default "" q));
      do _ <- setitem processed_entity "wikidata_label" (VStr (default "" l));
      ret (processed_entities ++ [processed_entity])
    else ret processed_entities
  else ret processed_entities.

Definition process_entities (session : Session) (entities : list ref)
  : M (list ref) :=
  for_ entities [] (process_step session).

Definition degree_value (d : option nat) : value :=
  match d with
  | Some n => VInt (Z.of_nat n)
  | None => VDegreeView
  end.

(** The bodies of the three loops of [_add_in_degree_info]. *)
Definition add_node_step (g : nx.DiGraph) (ent : ref) : M nx.DiGraph :=
  do v <- getitem ent "qid";
  do q <- as_str v;
  ret (nx.add_node q g).

Definition add_edge_step (g : nx.DiGraph) (rel : ref) : M nx.DiGraph :=
  do v <- getitem rel "subject_qid";
  do s <- as_str v;
  do v' <- getitem rel "object_qid";
  do o <- as_str v';
  ret (nx.add_edge s o g).

Definition copy_step (g : nx.DiGraph)
    (relationships_with_degrees : list ref) (rel : ref) : M (list ref) :=
  do rel_copy <- copy rel;
  do v <- getitem rel "subject_qid";
  do s <- as_str v;
  do _ <- setitem rel_copy "subject_in_degree"
            (degree_value (nx.in_degree g s));
  do v' <- getitem rel "object_qid";
  do o <- as_str v';
  do _ <- setitem rel_copy "object_in_degree"
            (degree_value (nx.in_degree g o));
  ret (relationships_with_degrees ++ [rel_copy]).

Definition _add_in_degree_info (relationships entities : list ref)
  : M (list ref) :=
  do g <- for_ entities nx.empty add_node_step;
  do g <- for_ relationships g add_edge_step;
  for_ relationships [] (copy_step g).

(** How the records of the first model lie in the store. *)
Definition entity_dict (e : Entity) : gmap string value :=
  <["text" := VStr (text e)]>
    (<["label" := VStr (label e)]>
       (<["start" := VInt (start e)]>
          (<["end" := VInt (end_ e)]> ∅))).

Definition processed_dict (p : ProcessedEntity) : gmap string value :=
  <["wikidata_label" := VStr (wikidata_label p)]>
    (<["qid" := VStr (qid p)]> (entity_dict (entity p))).

Definition triplet_dict (t : Triplet) : gmap string value :=
  <["subject" := VStr (subject t)]>
    (<["subject_qid" := VStr (subject_qid t)]>
       (<["predicate" := VStr (triplet_predicate t)]>
          (<["predicate_pid" := VStr (triplet_predicate_pid t)]>
             (<["object" := VStr (object t)]>
                (<["object_qid" := VStr (object_qid t)]> ∅))))).

Definition degree_triplet_dict (t : DegreeTriplet) : gmap string value :=
  <["object_in_degree" := degree_value (object_in_degree t)]>
    (<["subject_in_degree" := degree_value (subject_in_degree t)]>
       (triplet_dict (triplet t))).

End Store.

(** ** Concrete texts and collaborators for the examples *)

Module Examples.

Definition quoted (s : string) : string :=
  String PyStr.dquote (s ++ String PyStr.dquote "").

Definition casey_text : string :=
  "Charles Dillon " ++ quoted "Casey" ++ " Stengel managed the Yankees".

(** Three fragments of the name and one more entity. *)
Definition casey_nlp (txt : string) : list Entity :=
  [mkEntity "Charles Dillon" "PERSON" 0 14;
   mkEntity "Casey" "PERSON" 16 21;
   mkEntity "Stengel" "PERSON" 23 30;
   mkEntity "Yankees" "ORG" 43 50].

Definition turing_text : string :=
  "Alan Turing was British; Turing was born in the UK".

Definition turing_nlp (txt : string) : list Entity :=
  [mkEntity "Alan Turing" "PERSON" 0 11;
   mkEntity "Turing" "PERSON" 25 31;
   mkEntity "UK" "GPE" 48 50].

Definition search_payload (id : string) : json :=
  JObj [("search", JArr [JObj [("id", JStr id)]])].

Definition label_payload (id l : string) : json :=
  JObj [("entities",
         JObj [(id, JObj [("labels",
                           JObj [("en", JObj [("value", JStr l)])])])])].

(** A claim whose value is the entity [q]. *)
Definition claim_to (q : string) : json :=
  JObj [("mainsnak",
         JObj [("datavalue",
                JObj [("type", JStr "wikibase-entityid");
                      ("value", JObj [("id", JStr q)])])])].

Definition claims_payload (subject_qid : string)
    (claims : list (string * json)) : json :=
  JObj [("entities", JObj [(subject_qid, JObj [("claims", JObj claims)])])].

(** Two mentions resolve to Q7251, one to Q145; Q7251 has one claim
    (P27) whose value is Q145; every other claims request times out. *)
Definition turing_session : Session := fun params =>
  match params with
  | wbsearchentities s =>
      if String.eqb s "Alan Turing" || String.eqb s "Turing"
      then HttpResponse 200 (Some (search_payload "Q7251"))
      else if String.eqb s "UK"
      then HttpResponse 200 (Some (search_payload "Q145"))
      else HttpResponse 200 (Some (JObj [("search", JArr [])]))
  | wbgetentities ids props =>
      if String.eqb props "labels" then
        if String.eqb ids "Q7251"
        then HttpResponse 200 (Some (label_payload "Q7251" "Alan Turing"))
        else if String.eqb ids "Q145"
        then HttpResponse 200 (Some (label_payload "Q145" "United Kingdom"))
        else if String.eqb ids "P27"
        then HttpResponse 200
               (Some (label_payload "P27" "country of citizenship"))
        else HttpResponse 404 None
      else if String.eqb ids "Q7251|Q145"
      then HttpResponse 200
             (Some (claims_payload "Q7251" [("P27", JArr [claim_to "Q145"])]))
      else TimedOut
  end.

Definition turing_processed : list ProcessedEntity :=
  [mkProcessed (mkEntity "Alan Turing" "PERSON" 0 11) "Q7251" "Alan Turing";
   mkProcessed (mkEntity "Turing" "PERSON" 25 31) "Q7251" "Alan Turing";
   mkProcessed (mkEntity "UK" "GPE" 48 50) "Q145" "United Kingdom"].

Definition turing_discover (a b : string) : list Relationship :=
  if String.eqb a "Q7251" && String.eqb b "Q145"
  then [mkRelationship "country of citizenship" "P27"]
  else [].

Definition timeout_session : Session := fun _ => TimedOut.

(** Claims of Q7251 of every kind: without main snak, without data
    value, with a string value, with the entity Q30 and with the entity
    Q145 as value (twice, for two properties). *)
Definition mixed_claims : list (string * json) :=
  [("P27", JArr [JObj [];
                 JObj [("mainsnak", JObj [("snaktype", JStr "somevalue")])];
                 claim_to "Q30";
                 claim_to "Q145"]);
   ("P213", JArr [JObj [("mainsnak",
                         JObj [("datavalue", JObj [("type", JStr "string");
                                                   ("value", JStr "0000")])])]]);
   ("P19", JArr [claim_to "Q145"])].

Definition mixed_plabel (pid : string) : option string :=
  if String.eqb pid "P27" then Some "country of citizenship"
  else if String.eqb pid "P19" then Some "place of birth"
  else None.

Definition mixed_session : Session := fun params =>
  match params with
  | wbsearchentities s => HttpResponse 200 (Some (JObj [("search", JArr [])]))
  | wbgetentities ids props =>
      if String.eqb props "labels" then
        if String.eqb ids "P27"
        then HttpResponse 200
               (Some (label_payload "P27" "country of citizenship"))
        else if String.eqb ids "P19"
        then HttpResponse 200 (Some (label_payload "P19" "place of birth"))
        else HttpResponse 200 (Some (JObj [("entities", JObj [])]))
      else HttpResponse 200 (Some (claims_payload "Q7251" mixed_claims))
  end.

(** The search answers with a hit that has no ['id']. *)
Definition hit_without_id_session : Session := fun params =>
  HttpResponse 200 (Some (JObj [("search", JArr [JObj []])])).

(** The name, and the family name once more after it. *)
Definition stengel_text : string := casey_text ++ "; Stengel won".

(** The family name twice: inside the matched name and after it. *)
Definition stengel_nlp (txt : string) : list Entity :=
  [mkEntity "Stengel" "PERSON" 23 30;
   mkEntity "Stengel" "PERSON" 52 59].

Definition dodgers_text : string :=
  "He played for the Brooklyn Dodgers, now the Los Angeles Dodgers".

Definition dodgers_nlp (txt : string) : list Entity :=
  [mkEntity "Brooklyn Dodgers" "ORG" 18 34;
   mkEntity "Los Angeles Dodgers" "ORG" 44 63].

(** A claim whose data value is [null], and an entity reference whose
    value has no ['id']. *)
Definition null_datavalue_claim : json :=
  JObj [("mainsnak", JObj [("datavalue", JNull)])].

Definition no_id_claim : json :=
  JObj [("mainsnak",
         JObj [("datavalue",
                JObj [("type", JStr "wikibase-entityid");
                      ("value", JObj [])])])].

(** The claims request is answered with the one claim [claim] of P27
    for Q7251; a label request is answered with the label of P27. *)
Definition one_claim_session (claim : json) : Session := fun params =>
  match params with
  | wbsearchentities s => HttpResponse 200 (Some (JObj [("search", JArr [])]))
  | wbgetentities ids props =>
      if String.eqb props "labels"
      then HttpResponse 200
             (Some (label_payload "P27" "country of citizenship"))
      else HttpResponse 200
             (Some (claims_payload "Q7251" [("P27", JArr [claim])]))
  end.

(** The claims of Q7251 are a list, not an object. *)
Definition claims_list_session : Session := fun params =>
  HttpResponse 200
    (Some (JObj [("entities", JObj [("Q7251", JObj [("claims", JArr [])])])])).

(** Q7251 has a claim whose value is Q145; the label request is
    answered with an English label that has no ['value']. *)
Definition label_without_value_session : Session := fun params =>
  match params with
  | wbsearchentities s => HttpResponse 200 (Some (JObj [("search", JArr [])]))
  | wbgetentities ids props =>
      if String.eqb props "labels"
      then HttpResponse 200
             (Some (JObj [("entities",
                           JObj [("P27",
                                  JObj [("labels",
                                         JObj [("en", JObj [])])])])]))
      else HttpResponse 200
             (Some (claims_payload "Q7251" [("P27", JArr [claim_to "Q145"])]))
  end.

End Examples.

(** ** Auxiliary definitions used in the statements *)

Module Aux.
Import SmartEntityExtractor.

(** The loop of [_remove_duplicates] as a recursive function of the
    set of keys seen so far. *)
Fixpoint firsts (seen : gset string) (l : list Entity) : list Entity :=
  match l with
  | [] => []
  | x :: l' =>
      if decide (text_key x ∈ seen) then firsts seen l'
      else x :: firsts ({[text_key x]} ∪ seen) l'
  end.

Definition by_start (a b : Entity) : Prop := (start a ≤ start b)%Z.

(** "The first occurrence in input order is the one kept", read on the
    spans of the input: an entry of the output whose key is the key of
    a span of the input is the first span of the input with that key. *)
Definition first_occurrence_kept (input out : list Entity) : Prop :=
  Forall (fun e =>
            Exists (fun x => text_key x = text_key e) input →
            ∃ before after,
              input = before ++ e :: after
              ∧ Forall (fun x => text_key x ≠ text_key e) before)
         out.

(** The subjects of the triplets whose object is [n], one entry per
    triplet. *)
Definition incoming (relationships : list Triplet) (n : string) : list string :=
  map subject_qid
      (filter (fun rel => object_qid rel = n) relationships).

(** The number of distinct subjects among the triplets whose object is
    [n]. *)
Definition distinct_incoming (relationships : list Triplet) (n : string) : nat :=
  length (remove_dups (incoming relationships n)).

Definition endpoints (relationships : list Triplet) : gset string :=
  list_to_set (map subject_qid relationships)
  ∪ list_to_set (map object_qid relationships).

(** The pairs of positions [(i, j)] with [i < j < n], by increasing
    [i] and, for the same [i], by increasing [j]. *)
Definition index_pairs (n : nat) : list (nat * nat) :=
  flat_map (fun i => map (pair i) (seq (S i) (n - S i))) (seq 0 n).

Definition lex_lt (p q : nat * nat) : Prop :=
  (fst p < fst q)%nat ∨ (fst p = fst q ∧ (snd p < snd q)%nat).

(** The triplet of one direction, if there is one: what
    [append_shortest] adds to the list. *)
Definition direction (rels : list Relationship) (subj obj : ProcessedEntity)
  : list Triplet :=
  EnhancedRelationshipExtractor.append_shortest rels subj obj [].

(** A call that fails at the transport level: no response, a status
    of the 4xx or 5xx class, or a body that does not decode. *)
Definition transport_failure (r : Response) : bool :=
  match r with
  | TimedOut | ConnectionFailed => true
  | HttpResponse status_code body =>
      ((400 <=? status_code) && (status_code <? 600))%Z
      || match body with None => true | Some _ => false end
  end.

(** The triplets of the pair at the positions [(i, j)]: the forward
    direction, then the backward one. *)
Definition pair_triplets (discover : string → string → list Relationship)
    (processed_entities : list ProcessedEntity) (ij : nat * nat)
  : list Triplet :=
  match processed_entities !! fst ij, processed_entities !! snd ij with
  | Some subj, Some obj =>
      direction (discover (qid subj) (qid obj)) subj obj
      ++ direction (discover (qid obj) (qid subj)) obj subj
  | _, _ => []
  end.
(** [s] has a character that is not white space. *)
Fixpoint has_nonspace (s : string) : bool :=
  match s with
  | EmptyString => false
  | String c s' => negb (PyStr.isspace c) || has_nonspace s'
  end.

(** [g] has the nodes [V] and, into every node, the edges of [E]. *)
Record graph_is (V : gset string) (E : list Triplet) (g : nx.DiGraph) : Prop := {
  graph_endpoints : endpoints E ⊆ V;
  graph_nodes : ∀ n, nx.has_node g n = true ↔ n ∈ V;
  graph_pred : ∀ n,
    nx._pred g !! n
    = if decide (n ∈ V) then Some (list_to_set (incoming E n)) else None
}.

(** What a claim of a claims payload can be. *)
Inductive claim_kind :=
  | NoMainsnak
  | NoDatavalue
  | NotEntityValued
  | EntityValued (target : json).

(** The kind of a claim: an object without ['mainsnak'], an object whose
    main snak is an object without ['datavalue'], one whose data value is
    an object of another type than ['wikibase-entityid'], or one whose
    data value has that type and a ['value'] object with an ['id'].
    Anything else has no kind. *)
Definition classify (claim : json) : option claim_kind :=
  match claim with
  | JObj c =>
      match Py.lookup_key "mainsnak" c with
      | None => Some NoMainsnak
      | Some (JObj m) =>
          match Py.lookup_key "datavalue" m with
          | None => Some NoDatavalue
          | Some (JObj dv) =>
              if Py.eq_str (default JNull (Py.lookup_key "type" dv))
                           "wikibase-entityid"
              then match Py.lookup_key "value" dv with
                   | Some (JObj v) => EntityValued <$> Py.lookup_key "id" v
                   | _ => None
                   end
              else Some NotEntityValued
          | Some _ => None
          end
      | Some _ => None
      end
  | _ => None
  end.

(** The fact a claim of the property [pid] contributes to the discovery
    of the relationships towards [object_qid], when the label of the
    property is [plabel pid]. *)
Definition claim_facts (plabel : string → option string)
    (object_qid pid : string) (claim : json) : list Relationship :=
  match classify claim with
  | Some (EntityValued target) =>
      if Py.eq_str target object_qid && Py.truthy_str (plabel pid)
      then [mkRelationship (default "" (plabel pid)) pid]
      else []
  | _ => []
  end.

(** The claim is an entity reference whose target is [object_qid]. *)
Definition wanted (object_qid : string) (claim : json) : bool :=
  match classify claim with
  | Some (EntityValued target) => Py.eq_str target object_qid
  | _ => false
  end.

(** The items of a claims mapping whose values are all arrays. *)
Fixpoint arrays (items : list (string * json))
  : option (list (string * list json)) :=
  match items with
  | [] => Some []
  | (pid, JArr claims) :: rest =>
      match arrays rest with
      | Some r => Some ((pid, claims) :: r)
      | None => None
      end
  | _ => None
  end.

(** The claims of [subject_qid] in a payload of [wbgetentities]: the
    payload is an object; its ['entities'], if there, is an object; the
    entry of the subject, if there, is an object; its ['claims'], if
    there, is an object whose values are arrays. *)
Definition payload_claims (data : json) (subject_qid : string)
  : option (list (string * list json)) :=
  match data with
  | JObj top =>
      match Py.lookup_key "entities" top with
      | None => Some []
      | Some (JObj es) =>
          match Py.lookup_key subject_qid es with
          | None => Some []
          | Some (JObj subj) =>
              match Py.lookup_key "claims" subj with
              | None => Some []
              | Some (JObj cl) => arrays cl
              | Some _ => None
              end
          | Some _ => None
          end
      | Some _ => None
      end
  | _ => None
  end.
(** Run from a store that extends [h0], the computation [m] leaves the
    objects of [h0] as they are, and a result it returns satisfies [Q]. *)
Definition keeps (h0 : Store.heap) {A : Type} (m : Store.M A) (Q : A → Prop)
  : Prop :=
  ∀ h, h0 `prefix_of` h →
       h0 `prefix_of` snd (m h) ∧ ∀ a, fst (m h) = Ok a → Q a.

(** The references of [refs] point to objects allocated after [h0]. *)
Definition fresh_for (h0 : Store.heap) (refs : list Store.ref) : Prop :=
  Forall (fun r => (length h0 ≤ r)%nat) refs.
(** The references [refs] point, in the store [h], to the dicts of the
    records [xs]. *)
Definition stored {X : Type} (dict_of : X → gmap string Store.value)
    (h : Store.heap) (refs : list Store.ref) (xs : list X) : Prop :=
  Forall2 (fun r x => h !! r = Some (dict_of x)) refs xs.

(** The two models end in the same way; when they return, the
    references of the one point to the dicts of the records of the
    other. *)
Definition same_outcome {X : Type} (dict_of : X → gmap string Store.value)
    (run : res (list Store.ref) * Store.heap) (r : res (list X)) : Prop :=
  match r with
  | Ok xs => ∃ refs, fst run = Ok refs ∧ stored dict_of (snd run) refs xs
  | Raise e => fst run = Raise e
  | Unmodelled => fst run = Unmodelled
  end.
End Aux.

(** ** entity_extractor.py *)

Module EntityExtractor.
Section WithModel.
(** The spaCy pipeline, as for [SmartEntityExtractor]. *)
Variable nlp : string → list Entity.

Definition extract_entities (txt : string) : list Entity :=
  if SmartEntityExtractor.blank txt then []
  else nlp txt.
End WithModel.
End EntityExtractor.

(** ** Auxiliary definitions for the further properties *)

Module More.
Import WikidataClient.

(** The resolved form of an entity: the identifier is what the search
    returns for the text, the label is what the lookup returns for the
    identifier, and neither is empty. *)
Definition resolved_by (session : Session) (p : ProcessedEntity) : Prop :=
  search_entity session (text (entity p)) = Ok (Some (qid p))
  ∧ get_entity_label session (qid p) = Ok (Some (wikidata_label p))
  ∧ qid p ≠ "" ∧ wikidata_label p ≠ "".

(** A fact as the knowledge base gives it: its predicate is the label
    the lookup returns for its property, and it is not empty. *)
Definition labelled_by (session : Session) (r : Relationship) : Prop :=
  get_property_label session (predicate_pid r) = Ok (Some (predicate r))
  ∧ predicate r ≠ "".

(** The triplet [t] states a fact the knowledge base returns for the
    direction from its subject to its object. *)
Definition backed_by (session : Session) (t : Triplet) : Prop :=
  ∃ facts,
    get_relationships session (subject_qid t) (object_qid t) = Ok facts
    ∧ mkRelationship (triplet_predicate t) (triplet_predicate_pid t) ∈ facts.

(** The subject and the object of [t] are two of the resolved entities
    [ps], with their identifiers and labels. *)
Definition between (ps : list ProcessedEntity) (t : Triplet) : Prop :=
  ∃ a b, a ∈ ps ∧ b ∈ ps
         ∧ subject t = wikidata_label a ∧ subject_qid t = qid a
         ∧ object t = wikidata_label b ∧ object_qid t = qid b.

(** Every field of the triplet is filled: the labels and identifiers of
    the two entities and the predicate are not empty, and the two
    degrees are numbers. *)
Definition populated (d : DegreeTriplet) : Prop :=
  subject (triplet d) ≠ "" ∧ subject_qid (triplet d) ≠ ""
  ∧ triplet_predicate (triplet d) ≠ ""
  ∧ object (triplet d) ≠ "" ∧ object_qid (triplet d) ≠ ""
  ∧ is_Some (subject_in_degree d) ∧ is_Some (object_in_degree d).

(** The entity [e] of the output comes from the entity [x] of the input:
    the same offsets, the text of [x] or the alias put in its place, the
    type of [x] or the corrected type. *)
Definition comes_from (x e : Entity) : Prop :=
  start e = start x ∧ end_ e = end_ x
  ∧ (text e = text x ∨ text e = "Los Angeles Dodgers")
  ∧ (label e = label x ∨ label e = "FAC").

(** Neither of the two texts that the corrections look for occurs in
    the text of [e]. *)
Definition no_alias (e : Entity) : Prop :=
  PyStr.contains "Brooklyn Dodgers" (text e) = false
  ∧ PyStr.contains "Baseball Hall of Fame" (text e) = false.

(** What the resolver makes of one entity when its two lookups
    return: the entity with the identifier found for its text and the
    label found for the identifier, or nothing when one of the two is
    missing or empty. *)
Definition resolve (session : Session) (e : Entity) : option ProcessedEntity :=
  match search_entity session (text e) with
  | Ok (Some q) =>
      if String.eqb q "" then None
      else match get_entity_label session q with
           | Ok (Some l) =>
               if String.eqb l "" then None else Some (mkProcessed e q l)
           | _ => None
           end
  | _ => None
  end.

(** The entity resolves to an identity of the knowledge base. *)
Definition resolves (session : Session) (e : Entity) : bool :=
  match resolve session e with Some _ => true | None => false end.

(** The lookups made for the entity raise nothing: the search returns,
    and when it finds an identifier, the lookup of its label returns. *)
Definition answered (session : Session) (e : Entity) : Prop :=
  ∃ q, search_entity session (text e) = Ok q
       ∧ (Py.truthy_str q = true →
          ∃ l, get_entity_label session (default "" q) = Ok l).
End More.

(** ** networkx: a [DiGraph] with its attribute dicts

    [nx] above keeps the adjacency of a graph, which is all that
    [in_degree] reads.  The visualizer also stores attributes; here a
    graph is what [G.nodes(data=True)] and [G.edges(data=True)] show:
    the attribute dict of every node and of every edge.  The order of
    the two views is not kept. *)

Module nx_attrs.

Record DiGraph := mkDiGraph {
  nodes : gmap string (gmap string string);
  edges : gmap (string * string) (gmap string string)
}.

Definition empty : DiGraph := mkDiGraph ∅ ∅.

(** [d.update(attr)] *)
Definition update (d attr : gmap string string) : gmap string string :=
  attr ∪ d.

(** [G.add_node(n, **attr)]: a new node gets the attributes, a node of
    the graph has its dict updated with them. *)
Definition add_node (n : string) (attr : gmap string string) (g : DiGraph)
  : DiGraph :=
  mkDiGraph (<[n := update (default ∅ (nodes g !! n)) attr]> (nodes g))
            (edges g).

(** [G.add_edge(u, v, **attr)]: the two ends are added, with no
    attribute, when they are not nodes of the graph; the edge is added,
    or its dict is updated when the graph has it. *)
Definition add_edge (u v : string) (attr : gmap string string) (g : DiGraph)
  : DiGraph :=
  let g := match nodes g !! u with
           | Some _ => g
           | None => mkDiGraph (<[u := ∅]> (nodes g)) (edges g)
           end in
  let g := match nodes g !! v with
           | Some _ => g
           | None => mkDiGraph (<[v := ∅]> (nodes g)) (edges g)
           end in
  mkDiGraph (nodes g)
            (<[(u, v) := update (default ∅ (edges g !! (u, v))) attr]>
               (edges g)).

Definition number_of_nodes (g : DiGraph) : nat := size (nodes g).

Definition number_of_edges (g : DiGraph) : nat := size (edges g).

(** [G.clear()] *)
Definition clear (g : DiGraph) : DiGraph := empty.

End nx_attrs.

(** ** graph_visualizer.py *)

Module GraphVisualizer.

(** The three attributes of a visualizer that its methods write. *)
Record Visualizer := mkVisualizer {
  graph : nx_attrs.DiGraph;
  node_colors : gmap string string;
  edge_colors : gmap (string * string) string
}.

Definition __init__ : Visualizer := mkVisualizer nx_attrs.empty ∅ ∅.

Definition entity_type_colors : gmap string string :=
  list_to_map
    [("PERSON", "#FF6B6B"); ("GPE", "#4ECDC4"); ("ORG", "#45B7D1");
     ("FAC", "#96CEB4"); ("LOC", "#FFEAA7"); ("EVENT", "#DDA0DD");
     ("PRODUCT", "#98D8C8"); ("WORK_OF_ART", "#F7DC6F"); ("LAW", "#BB8FCE");
     ("LANGUAGE", "#85C1E9"); ("MONEY", "#F8C471"); ("CARDINAL", "#F1948A");
     ("DATE", "#82E0AA"); ("TIME", "#D7BDE2"); ("PERCENT", "#F9E79F");
     ("ORDINAL", "#AED6F1"); ("QUANTITY", "#A9DFBF"); ("NORP", "#FADBD8")].

(** The keyword arguments of [add_node] in [add_entities]. *)
Definition node_attrs (node_label entity_type node_id : string)
  : gmap string string :=
  list_to_map [("label", node_label); ("entity_type", entity_type);
               ("qid", node_id)].

(** The body of the loop of [add_entities]. *)
Definition add_entity (self : Visualizer) (e : ProcessedEntity) : Visualizer :=
  let node_id := qid e in
  let node_label := wikidata_label e in
  let entity_type := label (entity e) in
  mkVisualizer
    (nx_attrs.add_node node_id (node_attrs node_label entity_type node_id)
                       (graph self))
    (<[node_id := default "#CCCCCC" (entity_type_colors !! entity_type)]>
       (node_colors self))
    (edge_colors self).

Definition add_entities (self : Visualizer) (entities : list ProcessedEntity)
  : Visualizer :=
  fold_left add_entity entities self.

(** The keyword arguments of [add_edge] in [add_relationships]. *)
Definition edge_attrs (predicate predicate_pid : string) : gmap string string :=
  list_to_map [("predicate", predicate); ("predicate_pid", predicate_pid);
               ("label", predicate)].

(** The body of the loop of [add_relationships].  It reads four keys of
    the relationship dict; a dict with the two degrees has them too. *)
Definition add_relationship (self : Visualizer) (rel : Triplet) : Visualizer :=
  let subject_qid := subject_qid rel in
  let object_qid := object_qid rel in
  let predicate := triplet_predicate rel in
  let predicate_pid := triplet_predicate_pid rel in
  mkVisualizer
    (nx_attrs.add_edge subject_qid object_qid
                       (edge_attrs predicate predicate_pid) (graph self))
    (node_colors self)
    (<[(subject_qid, object_qid) := "#333333"]> (edge_colors self)).

Definition add_relationships (self : Visualizer) (relationships : list Triplet)
  : Visualizer :=
  fold_left add_relationship relationships self.

(** [{k: data['label'] for k, data in view}]: a [KeyError] when a dict
    of the view has no label. *)
Definition labels_of {K : Type} `{Countable K}
    (view : gmap K (gmap string string)) : res (gmap K string) :=
  map_fold (fun k data acc =>
              labels ← acc;
              match data !! "label" with
              | Some l => Ok (<[k := l]> labels)
              | None => Raise KeyError
              end)
           (Ok ∅) view.

(** What [visualize] hands to the drawing functions.  The two lists of
    colours, which follow the order of the nodes and of the edges of
    the graph, are kept as maps from the nodes and from the edges. *)
Record Drawing := mkDrawing {
  node_colors_list : gmap string string;
  edge_colors_list : gmap (string * string) string;
  node_labels : gmap string string;
  edge_labels : gmap (string * string) string;
  drawing_title : string
}.

(** [visualize]: [None] stands for the return without a drawing.  The
    layout and the calls of the drawing library are taken to return. *)
Definition visualize (self : Visualizer) (title : string)
  : res (option Drawing) :=
  if (nx_attrs.number_of_nodes (graph self) =? 0)%nat then Ok None
  else
    let node_colors_list :=
      map_imap (fun node _ => Some (default "#CCCCCC" (node_colors self !! node)))
               (nx_attrs.nodes (graph self)) in
    let edge_colors_list :=
      map_imap (fun edge _ => Some (default "#333333" (edge_colors self !! edge)))
               (nx_attrs.edges (graph self)) in
    node_labels ← labels_of (nx_attrs.nodes (graph self));
    edge_labels ← labels_of (nx_attrs.edges (graph self));
    Ok (Some (mkDrawing node_colors_list edge_colors_list
                        node_labels edge_labels title)).

(** The dict of [get_graph_info]; the graph is a [DiGraph], so
    [is_directed] is [True]. *)
Record GraphInfo := mkGraphInfo {
  num_nodes : nat;
  num_edges : nat;
  info_nodes : gmap string (gmap string string);
  info_edges : gmap (string * string) (gmap string string);
  is_directed : bool
}.

Definition get_graph_info (self : Visualizer) : GraphInfo :=
  mkGraphInfo (nx_attrs.number_of_nodes (graph self))
              (nx_attrs.number_of_edges (graph self))
              (nx_attrs.nodes (graph self))
              (nx_attrs.edges (graph self))
              true.

Definition clear (self : Visualizer) : Visualizer :=
  mkVisualizer (nx_attrs.clear (graph self)) ∅ ∅.

End GraphVisualizer.

(** ** enhanced_relationship_extractor.py: the visualization *)

Module Visualization.

Import SmartEntityExtractor WikidataClient EnhancedRelationshipExtractor.

(** [f"Entity Relationship Graph: {text[:50]}{'...' if len(text) > 50 else ''}"] *)
Definition title (txt : string) : string :=
  ("Entity Relationship Graph: " ++ String.substring 0 50 txt
   ++ (if (50 <? String.length txt)%nat then "..." else ""))%string.

Section WithCollaborators.
Variable nlp : string → list Entity.
(** [create_visualization] resolves the entities twice, with requests
    of their own each time: [first_pass] is the knowledge base as it
    answers during the call of [process_entities], [second_pass] as it
    answers during the call of [extract_relationships]. *)
Variable first_pass second_pass : Session.

(** [create_visualization] on the visualizer [viz] of the extractor: the
    visualizer as the call leaves it, and the drawing, if there is
    one. *)
Definition create_visualization (viz : GraphVisualizer.Visualizer)
    (txt : string)
  : res (GraphVisualizer.Visualizer * option GraphVisualizer.Drawing) :=
  let entities := extract_entities nlp txt in
  processed_entities ← process_entities first_pass entities;
  relationships ← extract_relationships nlp second_pass txt;
  match processed_entities with
  | [] => Ok (viz, None)
  | _ :: _ =>
      let viz := GraphVisualizer.clear viz in
      let viz := GraphVisualizer.add_entities viz processed_entities in
      let viz := GraphVisualizer.add_relationships viz (map triplet relationships) in
      drawing ← GraphVisualizer.visualize viz (title txt);
      Ok (viz, drawing)
  end.
End WithCollaborators.

(** The knowledge base of [Examples.turing_session] at a moment when
    the search for "UK" times out. *)
Definition uk_timeout_session : Session := fun params =>
  match params with
  | wbsearchentities s =>
      if String.eqb s "UK" then TimedOut
      else Examples.turing_session params
  | wbgetentities _ _ => Examples.turing_session params
  end.

End Visualization.

(** ** Auxiliary definitions for the visualizer *)

Module VizAux.

(** The last entity of [ps] with the identifier [q]. *)
Definition last_entity (q : string) (ps : list ProcessedEntity)
  : option ProcessedEntity :=
  last (filter (fun p => qid p = q) ps).

(** The last triplet of [rels] from [u] to [v]. *)
Definition last_triplet (u v : string) (rels : list Triplet) : option Triplet :=
  last (filter (fun t => subject_qid t = u ∧ object_qid t = v) rels).

(** The attribute dict and the colour of the node of an entity. *)
Definition attrs_of (p : ProcessedEntity) : gmap string string :=
  GraphVisualizer.node_attrs (wikidata_label p) (label (entity p)) (qid p).

Definition colour_of (p : ProcessedEntity) : string :=
  default "#CCCCCC" (GraphVisualizer.entity_type_colors !! label (entity p)).

(** The two ends of a triplet, and the attribute dict of its edge. *)
Definition ends (t : Triplet) : string * string :=
  (subject_qid t, object_qid t).

Definition edge_attrs_of (t : Triplet) : gmap string string :=
  GraphVisualizer.edge_attrs (triplet_predicate t) (triplet_predicate_pid t).

(** The subject and the object of [t] are identifiers of entities of
    [ps]. *)
Definition known (ps : list ProcessedEntity) (t : Triplet) : Prop :=
  subject_qid t ∈ map qid ps ∧ object_qid t ∈ map qid ps.

(** The visualizer after [clear], [add_entities] and
    [add_relationships]. *)
Definition built (self : GraphVisualizer.Visualizer)
    (ps : list ProcessedEntity) (rels : list Triplet)
  : GraphVisualizer.Visualizer :=
  GraphVisualizer.add_relationships
    (GraphVisualizer.add_entities (GraphVisualizer.clear self) ps) rels.

End VizAux.

(** ** Auxiliary definitions for the degrees in the drawn graph *)

Module DegAux.

(** The number of edges of [g] that point to the node [n]. *)
Definition edges_into (g : nx_attrs.DiGraph) (n : string) : nat :=
  size (filter (fun e => e.2 = n)
               (dom (nx_attrs.edges g) : gset (string * string))).

End DegAux.

(** ** app.py *)

Module App.

Import EnhancedRelationshipExtractor.

(** What [request.get_json()] does: it returns the decoded body of the
    request ([None] is [JNull]), or it raises one of the HTTP
    exceptions of the framework, for a body that is not JSON. *)
Inductive get_json_outcome :=
  | Returns (data : json)
  | Aborts.

(** What [except Exception as e] catches in the handler. *)
Inductive caught :=
  | Exception (e : exn)
  | HTTPException.

(** The value of the key ['error'] of a reply: one of the fixed
    messages, or [f'Analysis failed: {str(e)}'], which is kept as the
    exception [e]. *)
Inductive error :=
  | Message (s : string)
  | AnalysisFailed (e : caught).

(** The JSON object of a reply: [{'error': ...}] or
    [{'success': True, 'text', 'relationships', 'count'}]. *)
Inductive payload :=
  | Error (err : error)
  | Success (text : string) (relationships : list DegreeTriplet) (count : nat).

(** A reply and its status code; [jsonify(...)] alone is a 200. *)
Record reply := mkReply {
  reply_payload : payload;
  reply_status : Z
}.

(** [v.strip()] on what [data.get('text', '')] returns *)
Definition strip (v : json) : res string :=
  match v with
  | JStr s => Ok (PyStr.strip s)
  | _ => Raise AttributeError
  end.

(** [try: body  except Exception as e: return jsonify({'error':
    f'Analysis failed: {str(e)}'}), 500] *)
Definition except_Exception (body : res reply) : res reply :=
  match body with
  | Raise e => Ok (mkReply (Error (AnalysisFailed (Exception e))) 500)
  | other => other
  end.

(** The handler of [POST /api/analyze].  [relationship_extractor] is
    the module's extractor ([None] when it could not be made), given by
    its two collaborators; [request] is what [request.get_json()]
    does. *)
Definition analyze_text
    (relationship_extractor : option ((string → list Entity) * Session))
    (request : get_json_outcome) : res reply :=
  match relationship_extractor with
  | None =>
      Ok (mkReply (Error (Message "Relationship extractor not available")) 500)
  | Some (nlp, session) =>
      match request with
      | Aborts => Ok (mkReply (Error (AnalysisFailed HTTPException)) 500)
      | Returns data =>
          except_Exception
            (if negb (Py.truthy data)
             then Ok (mkReply (Error (Message "No JSON data provided")) 400)
             else
               v ← Py.get data "text" (JStr "");
               text ← strip v;
               if String.eqb text ""
               then Ok (mkReply (Error (Message "No text provided")) 400)
               else if (10000 <? Z.of_nat (String.length text))%Z
               then Ok (mkReply
                          (Error (Message
                                    "Text too long (maximum 10,000 characters)"))
                          400)
               else
                 relationships ← extract_relationships nlp session text;
                 Ok (mkReply
                       (Success text relationships (length relationships))
                       200))
      end
  end.

End App.

(** * Properties *)

(** ** The definitions on concrete inputs *)

Example strip_lower :
  PyStr.strip (PyStr.lower "  Alan TURING ") = "alan turing".
Proof. reflexivity. Qed.

Example contains_substring :
  PyStr.contains "Brooklyn Dodgers" "the Brooklyn Dodgers of 1912" = true
  ∧ PyStr.contains "Brooklyn Dodgers" "brooklyn dodgers" = false.
Proof. split; reflexivity. Qed.

(** The white space between the parts of the name may be any run of
    white-space characters; without the quoted nickname there is no
    match. *)
Example re_search_runs_of_spaces :
  PyStr.re_search_casey_stengel
    ("In 1949 Charles Dillon  " ++ Examples.quoted "Casey"
       ++ String "010" "Stengel won")%string
  = Some (8, 39)%nat
  ∧ PyStr.re_search_casey_stengel "Charles Dillon Stengel" = None.
Proof. split; reflexivity. Qed.

Example remove_duplicates_first_wins :
  SmartEntityExtractor._remove_duplicates
    [mkEntity "UK" "GPE" 48 50; mkEntity " uk" "ORG" 3 5;
     mkEntity "Turing" "PERSON" 25 31]
  = [mkEntity "UK" "GPE" 48 50; mkEntity "Turing" "PERSON" 25 31].
Proof. reflexivity. Qed.

Example sort_is_stable :
  SmartEntityExtractor.sort_by_start
    [mkEntity "c" "X" 5 6; mkEntity "a" "X" 1 2; mkEntity "b" "X" 1 3]
  = [mkEntity "a" "X" 1 2; mkEntity "b" "X" 1 3; mkEntity "c" "X" 5 6].
Proof. reflexivity. Qed.

Example shortest_first_of_ties :
  WikidataClient.get_shortest_relationship
    [mkRelationship "country of citizenship" "P27";
     mkRelationship "place of birth" "P19";
     mkRelationship "place of death" "P20"]
  = Some (mkRelationship "place of birth" "P19").
Proof. reflexivity. Qed.

(** A span that begins before the match and ends after it passes the
    test of [_apply_smart_corrections] and stays in the output. *)
Example span_around_the_match_stays :
  SmartEntityExtractor.extract_entities
    (fun _ => [mkEntity "x" "WORK_OF_ART" 0 44])
    ("In 1949 Charles Dillon " ++ Examples.quoted "Casey"
       ++ " Stengel won")%string
  = [mkEntity "x" "WORK_OF_ART" 0 44; mkEntity "Casey Stengel" "PERSON" 8 38].
Proof. reflexivity. Qed.

Example turing_run :
  EnhancedRelationshipExtractor.extract_relationships
    Examples.turing_nlp Examples.turing_session Examples.turing_text
  = Ok [mkDegreeTriplet
          (mkTriplet "Alan Turing" "Q7251" "country of citizenship" "P27"
                     "United Kingdom" "Q145") (Some 0%nat) (Some 1%nat);
        mkDegreeTriplet
          (mkTriplet "Alan Turing" "Q7251" "country of citizenship" "P27"
                     "United Kingdom" "Q145") (Some 0%nat) (Some 1%nat)].
Proof. vm_compute. reflexivity. Qed.

(** The resolver on three dicts of a store: the dicts stay, two copies
    with the two new keys are added. *)
Example store_process_entities :
  let h := map Store.entity_dict (Examples.turing_nlp "") in
  fst (Store.process_entities Examples.turing_session [0; 2]%nat h)
  = Ok [3; 4]%nat
  ∧ snd (Store.process_entities Examples.turing_session [0; 2]%nat h)
    = h ++ [Store.processed_dict
              (mkProcessed (mkEntity "Alan Turing" "PERSON" 0 11)
                           "Q7251" "Alan Turing");
            Store.processed_dict
              (mkProcessed (mkEntity "UK" "GPE" 48 50)
                           "Q145" "United Kingdom")].
Proof. split; vm_compute; reflexivity. Qed.

(** ** get_shortest_relationship *)

Section ShortestRelationship.
Import WikidataClient.
Context {A : Type} (key : A → nat).

Lemma py_min_first_minimum (best : A) (l : list A) :
  ∃ before after,
    best :: l = before ++ py_min key best l :: after
    ∧ Forall (fun x => (key (py_min key best l) < key x)%nat) before
    ∧ Forall (fun x => (key (py_min key best l) ≤ key x)%nat) after.
Proof.
  revert best. induction l as [|x l IH]; intros best; simpl.
  - exists [], []. repeat split; constructor.
  - destruct (Nat.ltb_spec (key x) (key best)) as [Hlt|Hge].
    + destruct (IH x) as (before & after & Heq & Hb & Ha).
      exists (best :: before), after. repeat split.
      * simpl. by rewrite <- Heq.
      * constructor; [|done].
        assert (key (py_min key x l) ≤ key x)%nat; [|lia].
        destruct before as [|y before]; simpl in Heq.
        -- injection Heq as Hx _. rewrite <- Hx. lia.
        -- injection Heq as Hx _. subst y.
           inversion Hb; subst. lia.
      * done.
    + destruct (IH best) as (before & after & Heq & Hb & Ha).
      destruct before as [|y before]; simpl in Heq.
      * injection Heq as Hm Hl. exists [], (x :: after). repeat split.
        -- simpl. congruence.
        -- constructor.
        -- constructor; [rewrite <- Hm; lia | done].
      * injection Heq as Hy Hl. subst y.
        exists (best :: x :: before), after. repeat split.
        -- simpl. congruence.
        -- inversion Hb; subst. constructor; [done|].
           constructor; [lia | done].
        -- done.
Qed.
End ShortestRelationship.

(** C2.  [get_shortest_relationship] returns [None] on the empty list; on
    a non-empty list it returns an element of the list whose predicate is
    at most as long as every predicate of the list, and every element in
    front of the returned one has a strictly longer predicate: the first
    fact of minimal length wins. *)
Theorem get_shortest_relationship_first_shortest :
  WikidataClient.get_shortest_relationship [] = None
  ∧ ∀ (r : Relationship) (rs : list Relationship),
      ∃ best before after,
        WikidataClient.get_shortest_relationship (r :: rs) = Some best
        ∧ r :: rs = before ++ best :: after
        ∧ Forall (fun x => (String.length (predicate best)
                            ≤ String.length (predicate x))%nat) (r :: rs)
        ∧ Forall (fun x => (String.length (predicate best)
                            < String.length (predicate x))%nat) before.
Proof.
  split; [reflexivity|]. intros r rs.
  destruct (py_min_first_minimum (fun x => String.length (predicate x)) r rs)
    as (before & after & Heq & Hb & Ha).
  eexists _, before, after. split; [reflexivity|].
  split; [exact Heq|]. split; [|exact Hb].
  rewrite Heq. apply Forall_app. split.
  - eapply Forall_impl; [exact Hb|]. simpl. intros; lia.
  - constructor; [lia | exact Ha].
Qed.

(** ** The span corrector: duplicates and order *)

Section RemoveDuplicates.
Import SmartEntityExtractor Aux.

Lemma dedup_loop (l : list Entity) (seen : gset string) (acc : list Entity) :
  snd (fold_left dedup_step l (seen, acc)) = acc ++ firsts seen l.
Proof.
  revert seen acc. induction l as [|x l IH]; intros seen acc; simpl.
  - by rewrite app_nil_r.
  - destruct (decide (text_key x ∈ seen)); [apply IH|].
    rewrite IH, <- app_assoc. done.
Qed.

Lemma _remove_duplicates_firsts (l : list Entity) :
  _remove_duplicates l = firsts ∅ l.
Proof. unfold _remove_duplicates. by rewrite dedup_loop. Qed.

Lemma firsts_key_not_seen (l : list Entity) (seen : gset string) :
  Forall (fun e => text_key e ∉ seen) (firsts seen l).
Proof.
  revert seen. induction l as [|x l IH]; intros seen; simpl; [constructor|].
  destruct (decide (text_key x ∈ seen)); [apply IH|].
  constructor; [done|].
  eapply Forall_impl; [apply IH|]. simpl. set_solver.
Qed.

Lemma firsts_NoDup (l : list Entity) (seen : gset string) :
  NoDup (map text_key (firsts seen l)).
Proof.
  revert seen. induction l as [|x l IH]; intros seen; simpl; [constructor|].
  destruct (decide (text_key x ∈ seen)); [apply IH|].
  simpl. constructor; [|apply IH].
  intros Hin. apply list_elem_of_In, in_map_iff in Hin.
  destruct Hin as (e & Hk & He). apply list_elem_of_In in He.
  pose proof (firsts_key_not_seen l ({[text_key x]} ∪ seen)) as Hns.
  rewrite Forall_forall in Hns. apply Hns in He. set_solver.
Qed.

(** Every element that is kept stands in the input with no element of
    the same key in front of it. *)
Lemma firsts_first_occurrence (l : list Entity) (seen : gset string) :
  Forall (fun e => ∃ before after,
              l = before ++ e :: after
              ∧ Forall (fun x => text_key x ≠ text_key e) before)
         (firsts seen l).
Proof.
  revert seen. induction l as [|x l IH]; intros seen; simpl; [constructor|].
  assert (Hstep : ∀ seen',
    text_key x ∈ seen' →
    Forall (fun e => ∃ before after,
                x :: l = before ++ e :: after
                ∧ Forall (fun y => text_key y ≠ text_key e) before)
           (firsts seen' l)).
  { intros seen' Hx.
    pose proof (firsts_key_not_seen l seen') as Hns.
    rewrite Forall_forall in Hns |- *. intros e He.
    specialize (IH seen'). rewrite Forall_forall in IH.
    destruct (IH e He) as (before & after & Heq & Hb).
    exists (x :: before), after. split; [simpl; by rewrite <- Heq|].
    constructor; [|done]. intros Hk. apply (Hns e He). by rewrite <- Hk. }
  destruct (decide (text_key x ∈ seen)); [by apply Hstep|].
  constructor.
  - exists [], l. split; [done | constructor].
  - apply Hstep. set_solver.
Qed.

(** Every key of the input that has not been seen is the key of an
    element that is kept. *)
Lemma firsts_complete (l : list Entity) (seen : gset string) :
  Forall (fun x => text_key x ∈ seen
                   ∨ Exists (fun e => text_key e = text_key x) (firsts seen l))
         l.
Proof.
  revert seen. induction l as [|x l IH]; intros seen; simpl; [constructor|].
  destruct (decide (text_key x ∈ seen)) as [Hx|Hx].
  - constructor; [by left | apply IH].
  - constructor; [right; by constructor|].
    specialize (IH ({[text_key x]} ∪ seen)).
    eapply Forall_impl; [exact IH|]. simpl. intros y [Hy|Hy].
    + apply elem_of_union in Hy as [Hy|Hy]; [|by left].
      apply elem_of_singleton in Hy. right. constructor. done.
    + right. by apply Exists_cons_tl.
Qed.
End RemoveDuplicates.

Section SortByStart.
Import SmartEntityExtractor Aux.

Lemma insert_by_start_Permutation (x : Entity) (l : list Entity) :
  insert_by_start x l ≡ₚ x :: l.
Proof.
  induction l as [|y l IH]; simpl; [done|].
  destruct (start x <=? start y)%Z; [done|].
  rewrite IH. apply Permutation_swap.
Qed.

Lemma sort_by_start_Permutation (l : list Entity) : sort_by_start l ≡ₚ l.
Proof.
  induction l as [|x l IH]; simpl; [done|].
  rewrite insert_by_start_Permutation. by rewrite IH.
Qed.

Lemma insert_by_start_sorted (x : Entity) (l : list Entity) :
  StronglySorted by_start l → StronglySorted by_start (insert_by_start x l).
Proof.
  induction 1 as [|y l Hs IH Hy]; simpl.
  - repeat constructor.
  - destruct (Z.leb_spec (start x) (start y)) as [Hle|Hgt].
    + constructor; [by constructor|].
      constructor; [done|].
      eapply Forall_impl; [exact Hy|]. unfold by_start. simpl. lia.
    + constructor; [done|].
      rewrite insert_by_start_Permutation.
      constructor; [unfold by_start; lia | done].
Qed.

Lemma sort_by_start_sorted (l : list Entity) :
  StronglySorted by_start (sort_by_start l).
Proof.
  induction l as [|x l IH]; simpl; [constructor|].
  by apply insert_by_start_sorted.
Qed.
End SortByStart.

(** C5 (as amended).  Whatever the text and whatever spans the NLP collaborator
    returns for it, the output of [extract_entities] is sorted ascending
    by [start] and no two of its entries have the same lowercased,
    trimmed text; each entry stands in the sequence that enters
    [_remove_duplicates] with no entry of the same key in front of it
    (the first occurrence is the one kept), and, when the text is not
    blank, every key of that sequence is the key of an entry of the
    output. *)
Theorem extract_entities_sorted_first_occurrences
    (nlp : string → list Entity) (txt : string) :
  let out := SmartEntityExtractor.extract_entities nlp txt in
  let corrected := SmartEntityExtractor._apply_smart_corrections txt (nlp txt) in
  StronglySorted Aux.by_start out
  ∧ NoDup (map SmartEntityExtractor.text_key out)
  ∧ Forall (fun e => ∃ before after,
                corrected = before ++ e :: after
                ∧ Forall (fun x => SmartEntityExtractor.text_key x
                                   ≠ SmartEntityExtractor.text_key e) before)
           out
  ∧ (SmartEntityExtractor.blank txt = true
     ∨ Forall (fun x => Exists (fun e => SmartEntityExtractor.text_key e
                                         = SmartEntityExtractor.text_key x) out)
              corrected).
Proof.
  intros out corrected. subst out. unfold SmartEntityExtractor.extract_entities.
  destruct (SmartEntityExtractor.blank txt).
  { split; [constructor|]. split; [constructor|]. split; [constructor|].
    by left. }
  fold corrected. rewrite _remove_duplicates_firsts.
  pose proof (sort_by_start_Permutation (Aux.firsts ∅ corrected)) as Hp.
  split; [apply sort_by_start_sorted|].
  split; [|split].
  - rewrite Hp. apply firsts_NoDup.
  - rewrite Hp. apply firsts_first_occurrence.
  - right. pose proof (firsts_complete corrected ∅) as Hc.
    eapply Forall_impl; [exact Hc|]. simpl. intros x [Hx|Hx]; [set_solver|].
    rewrite Exists_exists in Hx |- *. destruct Hx as (e & He & Hk).
    exists e. split; [|done]. by rewrite Hp.
Qed.

(** C5, counterexample.  The model returns the family name twice, once
    inside the matched name and once after it: the first of the two is
    dropped with the spans that overlap the match and the second one is
    kept.  And the alias is replaced before the duplicates are removed:
    the span of the old team name is kept under the new team name, and
    the span of the input that has the new name as its text is
    dropped. *)
Lemma first_occurrence_counterexample :
  SmartEntityExtractor.extract_entities Examples.stengel_nlp Examples.stengel_text
  = [mkEntity "Casey Stengel" "PERSON" 0 30; mkEntity "Stengel" "PERSON" 52 59]
  ∧ ¬ Aux.first_occurrence_kept
        (Examples.stengel_nlp Examples.stengel_text)
        (SmartEntityExtractor.extract_entities Examples.stengel_nlp
                                               Examples.stengel_text)
  ∧ SmartEntityExtractor.extract_entities Examples.dodgers_nlp
                                          Examples.dodgers_text
    = [mkEntity "Los Angeles Dodgers" "ORG" 18 34]
  ∧ ¬ Aux.first_occurrence_kept
        (Examples.dodgers_nlp Examples.dodgers_text)
        (SmartEntityExtractor.extract_entities Examples.dodgers_nlp
                                               Examples.dodgers_text).
Proof.
  assert (SmartEntityExtractor.extract_entities Examples.stengel_nlp
                                                Examples.stengel_text
          = [mkEntity "Casey Stengel" "PERSON" 0 30;
             mkEntity "Stengel" "PERSON" 52 59]) as Hs
    by (vm_compute; reflexivity).
  assert (SmartEntityExtractor.extract_entities Examples.dodgers_nlp
                                                Examples.dodgers_text
          = [mkEntity "Los Angeles Dodgers" "ORG" 18 34]) as Hd
    by (vm_compute; reflexivity).
  split; [exact Hs|]. split; [|split; [exact Hd|]].
  - rewrite Hs. unfold Aux.first_occurrence_kept, Examples.stengel_nlp.
    intros H. apply Forall_cons in H as [_ H]. apply Forall_cons in H as [H _].
    destruct H as (before & after & Heq & Hb).
    { apply Exists_cons_hd. reflexivity. }
    destruct before as [|b1 [|b2 [|b3 before]]]; try discriminate Heq.
    injection Heq as <- _.
    apply Forall_cons in Hb as [Hb _]. by apply Hb.
  - rewrite Hd. unfold Aux.first_occurrence_kept, Examples.dodgers_nlp.
    intros H. apply Forall_cons in H as [H _].
    destruct H as (before & after & Heq & Hb).
    { apply Exists_cons_tl, Exists_cons_hd. reflexivity. }
    destruct before as [|b1 [|b2 [|b3 before]]]; discriminate Heq.
Qed.

(** ** The span corrector: the personal-name pattern *)

Section Pattern.
Import PyStr Aux.

Lemma drop_prefix_length (p s r : string) :
  drop_prefix p s = Some r →
  String.length s = (String.length p + String.length r)%nat.
Proof.
  revert s. induction p as [|a p IH]; intros s; simpl.
  - by intros [= ->].
  - destruct s as [|b s]; [done|]. destruct (Ascii.eqb a b); [|done].
    intros H. simpl. by rewrite (IH _ H).
Qed.

Lemma lstrip_length (s : string) :
  (String.length (lstrip s) ≤ String.length s)%nat.
Proof.
  induction s as [|c s IH]; simpl; [done|].
  destruct (isspace c); simpl; lia.
Qed.

Lemma spaces1_length (s r : string) :
  spaces1 s = Some r → (String.length r < String.length s)%nat.
Proof.
  destruct s as [|c s]; simpl; [done|].
  destruct (isspace c); [|done]. intros [= <-].
  pose proof (lstrip_length s). lia.
Qed.

Lemma casey_stengel_at_length (s r : string) :
  casey_stengel_at s = Some r → (String.length r < String.length s)%nat.
Proof.
  unfold casey_stengel_at. intros H.
  apply bind_Some in H as (s1 & H1 & H).
  apply bind_Some in H as (s2 & H2 & H).
  apply bind_Some in H as (s3 & H3 & H).
  apply bind_Some in H as (s4 & H4 & H).
  apply drop_prefix_length in H1, H3, H.
  apply spaces1_length in H2, H4. lia.
Qed.

Lemma casey_stengel_from_span (s : string) (pos a b : nat) :
  casey_stengel_from pos s = Some (a, b) → (a < b)%nat.
Proof.
  revert pos. induction s as [|c s IH]; intros pos; simpl.
  - destruct (casey_stengel_at "") as [r|] eqn:Hr; [|done].
    apply casey_stengel_at_length in Hr. simpl in Hr. lia.
  - destruct (casey_stengel_at (String c s)) as [r|] eqn:Hr.
    + apply casey_stengel_at_length in Hr. simpl in Hr.
      intros [= <- <-]. lia.
    + apply IH.
Qed.

Lemma has_nonspace_lstrip (s : string) :
  has_nonspace (lstrip s) = has_nonspace s.
Proof.
  induction s as [|c s IH]; simpl; [done|].
  destruct (isspace c) eqn:Hc; simpl; [done|]. by rewrite Hc.
Qed.

Lemma has_nonspace_rev_app (s1 s2 : string) :
  has_nonspace (String.rev_app s1 s2) = has_nonspace s1 || has_nonspace s2.
Proof.
  revert s2. induction s1 as [|c s1 IH]; intros s2; simpl; [done|].
  rewrite IH. simpl. destruct (isspace c), (has_nonspace s1); done.
Qed.

Lemma has_nonspace_strip (s : string) :
  has_nonspace (strip s) = has_nonspace s.
Proof.
  unfold strip, rstrip, String.rev.
  rewrite has_nonspace_rev_app, has_nonspace_lstrip, has_nonspace_rev_app,
    has_nonspace_lstrip.
  simpl. by rewrite !orb_false_r.
Qed.

Lemma casey_stengel_at_nonspace (s r : string) :
  casey_stengel_at s = Some r → has_nonspace s = true.
Proof.
  unfold casey_stengel_at. intros H.
  apply bind_Some in H as (s1 & H1 & _).
  destruct s as [|c s]; [done|]. simpl in H1.
  destruct (Ascii.eqb_spec "C"%char c) as [<-|]; [done|].
  by destruct c as [[] [] [] [] [] [] [] []].
Qed.

Lemma casey_stengel_from_nonspace (s : string) (pos : nat) (m : nat * nat) :
  casey_stengel_from pos s = Some m → has_nonspace s = true.
Proof.
  revert pos. induction s as [|c s IH]; intros pos; simpl.
  - destruct (casey_stengel_at "") eqn:Hr; [|done].
    by apply casey_stengel_at_nonspace in Hr.
  - destruct (casey_stengel_at (String c s)) eqn:Hr.
    + intros _. by apply casey_stengel_at_nonspace in Hr.
    + intros H. apply IH in H. rewrite H. by rewrite orb_true_r.
Qed.

Lemma re_search_not_blank (txt : string) (m : nat * nat) :
  re_search_casey_stengel txt = Some m →
  SmartEntityExtractor.blank txt = false.
Proof.
  intros H. apply casey_stengel_from_nonspace in H.
  unfold SmartEntityExtractor.blank.
  destruct txt as [|c txt]; [done|].
  rewrite <- has_nonspace_strip in H.
  by destruct (strip (String c txt)).
Qed.
End Pattern.

Section Corrections.
Import SmartEntityExtractor Aux.

Lemma fixes_cons (x : Entity) (l : list Entity) :
  ∃ x', _fix_baseball_hall_of_fame (_fix_brooklyn_dodgers (x :: l))
        = x' :: _fix_baseball_hall_of_fame (_fix_brooklyn_dodgers l)
        ∧ start x' = start x ∧ end_ x' = end_ x.
Proof.
  unfold _fix_baseball_hall_of_fame, _fix_brooklyn_dodgers. simpl.
  eexists. split; [reflexivity|].
  destruct (PyStr.contains "Brooklyn Dodgers" (text x)); simpl;
    repeat match goal with
           | |- context [PyStr.contains ?a ?b] => destruct (PyStr.contains a b)
           end; done.
Qed.

Lemma fixes_overlapping (s e : Z) (l : list Entity) :
  Forall (fun x => overlapping s e x = false) l →
  Forall (fun x => overlapping s e x = false)
         (_fix_baseball_hall_of_fame (_fix_brooklyn_dodgers l)).
Proof.
  induction 1 as [|x l Hx Hl IH]; [constructor|].
  destruct (fixes_cons x l) as (x' & -> & Hs & He).
  constructor; [|done]. unfold overlapping in *. by rewrite Hs, He.
Qed.

Lemma fixes_casey_stengel (s e : Z) (l : list Entity) :
  _fix_baseball_hall_of_fame (_fix_brooklyn_dodgers (casey_stengel s e :: l))
  = casey_stengel s e
    :: _fix_baseball_hall_of_fame (_fix_brooklyn_dodgers l).
Proof. reflexivity. Qed.

Lemma filter_none (P : Entity → bool) (l : list Entity) :
  Forall (fun x => P x = false) l → filter P l = [].
Proof.
  induction 1 as [|x l Hx Hl IH]; [done|].
  rewrite filter_cons_False; [done|]. rewrite Hx. intros [].
Qed.

Lemma firsts_Forall (P : Entity → Prop) (l : list Entity) (seen : gset string) :
  Forall P l → Forall P (firsts seen l).
Proof.
  intros H. revert seen. induction H as [|x l Hx Hl IH]; intros seen; simpl.
  - constructor.
  - destruct (decide (text_key x ∈ seen)); [apply IH|].
    constructor; [done | apply IH].
Qed.
End Corrections.

(** C3 (as amended).  When the pattern occurs in the text, at the span
    [(s, e)] of its leftmost match, the output of [extract_entities] has
    exactly one entry whose start lies in [s, e) or whose end lies in
    (s, e]: the corrected span, which runs from [s] to [e], has the type
    PERSON and carries the fixed text "Casey Stengel". *)
Theorem casey_stengel_one_corrected_span
    (nlp : string → list Entity) (txt : string) (s e : nat) :
  PyStr.re_search_casey_stengel txt = Some (s, e) →
  (s < e)%nat
  ∧ filter (SmartEntityExtractor.overlapping (Z.of_nat s) (Z.of_nat e))
           (SmartEntityExtractor.extract_entities nlp txt)
    = [mkEntity "Casey Stengel" "PERSON" (Z.of_nat s) (Z.of_nat e)].
Proof.
  intros Hm.
  assert (Hlt : (s < e)%nat) by (eapply casey_stengel_from_span; exact Hm).
  split; [exact Hlt|].
  unfold SmartEntityExtractor.extract_entities.
  rewrite (re_search_not_blank _ _ Hm).
  unfold SmartEntityExtractor._apply_smart_corrections. rewrite Hm.
  rewrite fixes_casey_stengel, _remove_duplicates_firsts.
  set (P := SmartEntityExtractor.overlapping (Z.of_nat s) (Z.of_nat e)).
  set (rest := SmartEntityExtractor._fix_baseball_hall_of_fame _).
  assert (Hrest : Forall (fun x => P x = false) rest).
  { apply fixes_overlapping. apply Forall_forall. intros x Hx.
    apply list_elem_of_filter in Hx as [Hx _].
    unfold P. apply negb_true_iff. by apply Is_true_true. }
  apply Permutation_singleton_r.
  rewrite sort_by_start_Permutation. simpl.
  rewrite decide_False by set_solver.
  rewrite filter_cons_True.
  2:{ unfold P, SmartEntityExtractor.overlapping. simpl.
      apply Is_true_true. apply orb_true_iff. left.
      apply andb_true_iff. split; [apply Z.leb_le | apply Z.ltb_lt]; lia. }
  rewrite filter_none; [done|].
  by apply firsts_Forall.
Qed.

(** ** The temporary graph and the in-degrees *)

Section InDegree.
Import EnhancedRelationshipExtractor Aux.

Lemma incoming_not_endpoint (E : list Triplet) (n : string) :
  n ∉ endpoints E → incoming E n = [].
Proof.
  unfold endpoints, incoming. induction E as [|rel E IH]; [done|].
  intros Hn. rewrite filter_cons. case_decide as Ho.
  - exfalso. apply Hn. simpl. set_solver.
  - apply IH. simpl in Hn. set_solver.
Qed.

Lemma incoming_none (E : list Triplet) (n : string) :
  Forall (fun rel => object_qid rel ≠ n) E → incoming E n = [].
Proof.
  unfold incoming. induction 1 as [|rel E Hrel HE IH]; [done|].
  by rewrite filter_cons_False.
Qed.

Lemma incoming_snoc (E : list Triplet) (rel : Triplet) (n : string) :
  incoming (E ++ [rel]) n
  = incoming E n ++ (if decide (object_qid rel = n) then [subject_qid rel] else []).
Proof.
  unfold incoming. rewrite filter_app, map_app. f_equal.
  rewrite filter_cons, filter_nil. by case_decide.
Qed.

Lemma endpoints_snoc (E : list Triplet) (rel : Triplet) :
  endpoints (E ++ [rel]) = {[object_qid rel]} ∪ ({[subject_qid rel]} ∪ endpoints E).
Proof.
  unfold endpoints. rewrite !map_app, !list_to_set_app_L. simpl. set_solver.
Qed.

Lemma graph_is_empty : graph_is ∅ [] nx.empty.
Proof.
  split.
  - done.
  - intros n. unfold nx.has_node. simpl. rewrite lookup_empty. set_solver.
  - intros n. simpl. rewrite lookup_empty. by case_decide.
Qed.

Lemma graph_is_add_node (V : gset string) (E : list Triplet) (g : nx.DiGraph)
    (q : string) :
  graph_is V E g → graph_is ({[q]} ∪ V) E (nx.add_node q g).
Proof.
  intros [He Hn Hp]. unfold nx.add_node.
  destruct (nx.has_node g q) eqn:Hq.
  - apply Hn in Hq. replace ({[q]} ∪ V) with V by set_solver. by split.
  - assert (HqV : q ∉ V).
    { intros HqV. apply Hn in HqV. congruence. }
    split.
    + set_solver.
    + intros n. unfold nx.has_node in *. simpl.
      destruct (decide (n = q)) as [->|Hne].
      * rewrite lookup_insert_eq. set_solver.
      * rewrite lookup_insert_ne by done. rewrite Hn. set_solver.
    + intros n. simpl. destruct (decide (n = q)) as [->|Hne].
      * rewrite lookup_insert_eq. rewrite decide_True by set_solver.
        rewrite incoming_not_endpoint; [done | set_solver].
      * rewrite lookup_insert_ne by done. rewrite Hp.
        destruct (decide (n ∈ V)).
        -- by rewrite decide_True by set_solver.
        -- by rewrite decide_False by set_solver.
Qed.

Lemma graph_is_add_edge (V : gset string) (E : list Triplet) (g : nx.DiGraph)
    (rel : Triplet) :
  graph_is V E g →
  graph_is ({[object_qid rel]} ∪ ({[subject_qid rel]} ∪ V)) (E ++ [rel])
           (nx.add_edge (subject_qid rel) (object_qid rel) g).
Proof.
  intros H.
  apply (graph_is_add_node _ _ _ (subject_qid rel)) in H.
  apply (graph_is_add_node _ _ _ (object_qid rel)) in H.
  unfold nx.add_edge.
  set (g2 := nx.add_node (object_qid rel) (nx.add_node (subject_qid rel) g)) in *.
  destruct H as [He Hn Hp]. split.
  - rewrite endpoints_snoc. set_solver.
  - intros n. rewrite <- Hn. unfold nx.has_node. simpl.
    destruct (decide (n = subject_qid rel)) as [->|Hne].
    + rewrite lookup_alter_eq. by destruct (nx._succ g2 !! subject_qid rel).
    + by rewrite lookup_alter_ne.
  - intros n. simpl. rewrite incoming_snoc.
    destruct (decide (object_qid rel = n)) as [<-|Hne].
    + rewrite lookup_alter_eq, Hp. case_decide as Hv; [|set_solver].
      simpl. f_equal. rewrite list_to_set_app_L. simpl. set_solver.
    + rewrite lookup_alter_ne by done. by rewrite Hp, app_nil_r.
Qed.

Lemma graph_is_add_nodes (entities : list ProcessedEntity) (V : gset string)
    (g : nx.DiGraph) :
  graph_is V [] g →
  graph_is (V ∪ list_to_set (map qid entities)) []
           (fold_left (fun g e => nx.add_node (qid e) g) entities g).
Proof.
  revert V g. induction entities as [|e entities IH]; intros V g H; simpl.
  - by rewrite union_empty_r_L.
  - apply (graph_is_add_node _ _ _ (qid e)) in H. apply IH in H.
    replace (V ∪ ({[qid e]} ∪ list_to_set (map qid entities)))
      with ({[qid e]} ∪ V ∪ list_to_set (map qid entities)) by set_solver.
    done.
Qed.

Lemma graph_is_add_edges (rels : list Triplet) (V : gset string)
    (E : list Triplet) (g : nx.DiGraph) :
  graph_is V E g →
  graph_is (V ∪ endpoints rels) (E ++ rels)
           (fold_left (fun g rel =>
                         nx.add_edge (subject_qid rel) (object_qid rel) g)
                      rels g).
Proof.
  revert V E g. induction rels as [|rel rels IH]; intros V E g H; simpl.
  - rewrite app_nil_r. unfold endpoints. simpl.
    by replace (V ∪ (∅ ∪ ∅)) with V by set_solver.
  - apply (graph_is_add_edge _ _ _ rel) in H. apply IH in H.
    rewrite <- app_assoc in H. simpl in H.
    replace (V ∪ endpoints (rel :: rels))
      with ({[object_qid rel]} ∪ ({[subject_qid rel]} ∪ V) ∪ endpoints rels).
    + done.
    + unfold endpoints. simpl. set_solver.
Qed.

Lemma temp_graph_is (relationships : list Triplet)
    (entities : list ProcessedEntity) :
  graph_is (list_to_set (map qid entities) ∪ endpoints relationships)
           relationships (temp_graph relationships entities).
Proof.
  unfold temp_graph.
  pose proof (graph_is_add_nodes entities _ _ graph_is_empty) as H.
  apply (graph_is_add_edges relationships) in H.
  by rewrite union_empty_l_L in H.
Qed.

Lemma size_list_to_set_remove_dups (l : list string) :
  size (list_to_set l : gset string) = length (remove_dups l).
Proof.
  rewrite <- (size_list_to_set (C:=gset string) (remove_dups l))
    by apply NoDup_remove_dups.
  f_equal. apply set_eq. intros x.
  by rewrite !elem_of_list_to_set, elem_of_remove_dups.
Qed.

Lemma temp_graph_in_degree (relationships : list Triplet)
    (entities : list ProcessedEntity) (n : string) :
  n ∈ (list_to_set (map qid entities) ∪ endpoints relationships : gset string) →
  nx.in_degree (temp_graph relationships entities) n
  = Some (distinct_incoming relationships n).
Proof.
  intros Hn. destruct (temp_graph_is relationships entities) as [_ Hnodes Hp].
  unfold nx.in_degree. rewrite (proj2 (Hnodes n) Hn), Hp.
  rewrite decide_True by done. simpl.
  by rewrite size_list_to_set_remove_dups.
Qed.

Lemma _add_in_degree_info_spec (relationships : list Triplet)
    (entities : list ProcessedEntity) :
  _add_in_degree_info relationships entities
  = map (fun rel =>
           mkDegreeTriplet rel
             (Some (distinct_incoming relationships (subject_qid rel)))
             (Some (distinct_incoming relationships (object_qid rel))))
        relationships.
Proof.
  unfold _add_in_degree_info. apply map_ext_in. intros rel Hrel.
  apply list_elem_of_In in Hrel.
  assert (subject_qid rel ∈ endpoints relationships
          ∧ object_qid rel ∈ endpoints relationships) as [Hs Ho].
  { unfold endpoints. rewrite !elem_of_union, !elem_of_list_to_set.
    split; [left|right]; apply list_elem_of_In, in_map;
      by apply list_elem_of_In. }
  rewrite !temp_graph_in_degree by set_solver. done.
Qed.
End InDegree.

(** C1 (as amended).  The in-degree that [_add_in_degree_info] writes on
    a triplet for an endpoint is the number of distinct subjects among
    the triplets whose object is that endpoint: the triplets come out in
    order, each with these two numbers.  Every entity handed to the
    function is a node of the graph and its in-degree is that number as
    well; it is 0 unless some triplet has the entity as object. *)
Theorem in_degree_counts_distinct_subjects
    (relationships : list Triplet) (entities : list ProcessedEntity) :
  EnhancedRelationshipExtractor._add_in_degree_info relationships entities
  = map (fun rel =>
           mkDegreeTriplet rel
             (Some (Aux.distinct_incoming relationships (subject_qid rel)))
             (Some (Aux.distinct_incoming relationships (object_qid rel))))
        relationships
  ∧ Forall (fun e =>
              nx.in_degree
                (EnhancedRelationshipExtractor.temp_graph relationships entities)
                (qid e)
              = Some (Aux.distinct_incoming relationships (qid e))
              ∧ (Exists (fun rel => object_qid rel = qid e) relationships
                 ∨ nx.in_degree
                     (EnhancedRelationshipExtractor.temp_graph relationships
                                                               entities)
                     (qid e) = Some 0%nat))
           entities.
Proof.
  split; [apply _add_in_degree_info_spec|].
  apply Forall_forall. intros e He.
  assert (Hd : nx.in_degree
            (EnhancedRelationshipExtractor.temp_graph relationships entities)
            (qid e) = Some (Aux.distinct_incoming relationships (qid e))).
  { apply temp_graph_in_degree. apply elem_of_union_l, elem_of_list_to_set.
    apply list_elem_of_In, in_map. by apply list_elem_of_In. }
  split; [exact Hd|].
  destruct (decide (Exists (fun rel => object_qid rel = qid e) relationships))
    as [Hex|Hno]; [by left|right].
  apply not_Exists_Forall in Hno; [|apply _].
  rewrite Hd. f_equal.
  unfold Aux.distinct_incoming. by rewrite incoming_none.
Qed.

(** The pipeline hands the triplets of step 3 and the resolved entities
    to [_add_in_degree_info]. *)
Lemma extract_relationships_degrees
    (nlp : string → list Entity) (session : Session) (txt : string)
    (out : list DegreeTriplet) :
  EnhancedRelationshipExtractor.extract_relationships nlp session txt = Ok out →
  out = map (fun rel =>
               mkDegreeTriplet rel
                 (Some (Aux.distinct_incoming (map triplet out) (subject_qid rel)))
                 (Some (Aux.distinct_incoming (map triplet out) (object_qid rel))))
            (map triplet out).
Proof.
  unfold EnhancedRelationshipExtractor.extract_relationships.
  destruct (length _ <? 2)%nat; [by intros [= <-]|].
  destruct (WikidataClient.process_entities _ _) as [ps| |]; simpl; [|done|done].
  destruct (length ps <? 2)%nat; [by intros [= <-]|].
  destruct (EnhancedRelationshipExtractor.find_relationships _ _)
    as [rels| |]; simpl; [|done|done].
  intros [= <-]. rewrite _add_in_degree_info_spec.
  rewrite !map_map. simpl. by rewrite map_id.
Qed.

(** C1, counterexample.  Two mentions resolve to the same identifier
    Q7251, so that two triplets Q7251 -> Q145 are emitted; the in-degree
    written for Q145 is 1, while two triplets of the run have Q145 as
    object. *)
Lemma in_degree_parallel_edges_counterexample :
  ∃ out d,
    EnhancedRelationshipExtractor.extract_relationships
      Examples.turing_nlp Examples.turing_session Examples.turing_text = Ok out
    ∧ d ∈ out
    ∧ length (filter (fun t => object_qid (triplet t) = object_qid (triplet d)) out)
      = 2%nat
    ∧ object_in_degree d = Some 1%nat
    ∧ object_in_degree d
      ≠ Some (length (filter (fun t => object_qid (triplet t)
                                       = object_qid (triplet d)) out)).
Proof.
  eexists _, _. split; [vm_compute; reflexivity|].
  split; [apply list_elem_of_here|].
  split; [vm_compute; reflexivity|]. split; [vm_compute; reflexivity|].
  vm_compute. discriminate.
Qed.

(** C3, witness. *)
Lemma casey_stengel_one_corrected_span_witness :
  PyStr.re_search_casey_stengel Examples.casey_text = Some (0, 30)%nat
  ∧ (0 < 30)%nat
  ∧ filter (SmartEntityExtractor.overlapping (Z.of_nat 0) (Z.of_nat 30))
           (SmartEntityExtractor.extract_entities Examples.casey_nlp
                                                  Examples.casey_text)
    = [mkEntity "Casey Stengel" "PERSON" (Z.of_nat 0) (Z.of_nat 30)].
Proof.
  split; [reflexivity|].
  apply (casey_stengel_one_corrected_span
           Examples.casey_nlp Examples.casey_text 0 30).
  reflexivity.
Defined.

(** C3, counterexample.  The text begins with the pattern, matched at
    (0, 30); the output holds the corrected span and the one entity
    outside the match, and no entry of the output carries the matched
    text: the corrected span carries "Casey Stengel". *)
Lemma casey_stengel_matched_text_counterexample :
  PyStr.re_search_casey_stengel Examples.casey_text = Some (0, 30)%nat
  ∧ SmartEntityExtractor.extract_entities Examples.casey_nlp Examples.casey_text
    = [mkEntity "Casey Stengel" "PERSON" 0 30; mkEntity "Yankees" "ORG" 43 50]
  ∧ ¬ Exists (fun x => text x = substring 0 30 Examples.casey_text)
             (SmartEntityExtractor.extract_entities Examples.casey_nlp
                                                    Examples.casey_text).
Proof.
  split; [reflexivity|]. split; [vm_compute; reflexivity|].
  intros H. vm_compute in H.
  repeat match goal with
         | H : Exists _ _ |- _ => inversion H; subst; clear H
         end; discriminate.
Qed.

(** ** Step 3: the enumeration of the pairs *)

Section Loops.
Context {A B : Type}.

(** A loop whose body only appends to the accumulator. *)
Lemma foldM_append (f : list A → B → res (list A)) (g : B → list A)
    (l : list B) :
  Forall (fun x => ∀ acc, f acc x = Ok (acc ++ g x)) l →
  ∀ acc, foldM f acc l = Ok (acc ++ flat_map g l).
Proof.
  induction 1 as [|x l Hx Hl IH]; intros acc; simpl.
  - by rewrite app_nil_r.
  - rewrite Hx. simpl. rewrite IH. by rewrite app_assoc.
Qed.

Lemma flat_map_flat_map {C : Type} (f : C → list B) (g : B → list A)
    (l : list C) :
  flat_map g (flat_map f l) = flat_map (fun x => flat_map g (f x)) l.
Proof.
  induction l as [|x l IH]; simpl; [done|].
  by rewrite flat_map_app, IH.
Qed.

Lemma flat_map_map {C : Type} (h : C → B) (g : B → list A) (l : list C) :
  flat_map g (map h l) = flat_map (fun x => g (h x)) l.
Proof. induction l as [|x l IH]; simpl; [done|]. by rewrite IH. Qed.
End Loops.

Section Pairs.
Import EnhancedRelationshipExtractor WikidataClient Aux.

Lemma append_shortest_app (rels : list Relationship)
    (subj obj : ProcessedEntity) (acc : list Triplet) :
  append_shortest rels subj obj acc = acc ++ direction rels subj obj.
Proof.
  unfold direction, append_shortest.
  destruct rels as [|r rels]; [by rewrite app_nil_r|]. simpl. done.
Qed.

Lemma direction_shortest (rels : list Relationship)
    (subj obj : ProcessedEntity) :
  direction rels subj obj
  = match get_shortest_relationship rels with
    | Some r => [mkTriplet (wikidata_label subj) (qid subj)
                           (predicate r) (predicate_pid r)
                           (wikidata_label obj) (qid obj)]
    | None => []
    end.
Proof. unfold direction, append_shortest. by destruct rels. Qed.

Lemma elem_of_index_pairs (n i j : nat) :
  (i, j) ∈ index_pairs n ↔ (i < j < n)%nat.
Proof.
  unfold index_pairs. rewrite list_elem_of_In, in_flat_map. split.
  - intros (i' & Hi' & Hij). apply in_map_iff in Hij as (j' & [= <- <-] & Hj).
    apply in_seq in Hj. lia.
  - intros Hij. exists i. split; [apply in_seq; lia|].
    apply in_map, in_seq. lia.
Qed.

Lemma index_pairs_from_sorted (n k m : nat) :
  StronglySorted lex_lt
    (flat_map (fun i => map (pair i) (seq (S i) (n - S i))) (seq k m)).
Proof.
  revert k. induction m as [|m IH]; intros k; simpl; [constructor|].
  apply StronglySorted_app_2; [| | apply IH].
  - intros p q Hp Hq.
    apply list_elem_of_In, in_map_iff in Hp as (j & <- & Hj).
    apply list_elem_of_In, in_flat_map in Hq as (i' & Hi' & Hq).
    apply in_map_iff in Hq as (j' & <- & Hj').
    apply in_seq in Hi'. left. simpl. lia.
  - generalize (S k) (n - S k)%nat. intros a b. revert a.
    induction b as [|b IHb]; intros a; simpl; constructor; [apply IHb|].
    apply Forall_forall. intros p Hp. apply list_elem_of_In, in_map_iff in Hp.
    destruct Hp as (j & <- & Hj). apply in_seq in Hj. right. simpl. lia.
Qed.

Lemma index_pairs_sorted (n : nat) : StronglySorted lex_lt (index_pairs n).
Proof. apply index_pairs_from_sorted. Qed.

Context (session : Session) (discover : string → string → list Relationship).
Context (ps : list ProcessedEntity).
Hypothesis discovered :
  Forall (fun a =>
            Forall (fun b =>
                      get_relationships session (qid a) (qid b)
                      = Ok (discover (qid a) (qid b))) ps) ps.

Lemma pair_step_discovered (subj obj : ProcessedEntity) (acc : list Triplet) :
  subj ∈ ps → obj ∈ ps →
  pair_step session subj obj acc
  = Ok (acc ++ (direction (discover (qid subj) (qid obj)) subj obj
                ++ direction (discover (qid obj) (qid subj)) obj subj)).
Proof.
  intros Hs Ho. unfold pair_step.
  rewrite Forall_forall in discovered.
  pose proof (discovered subj Hs) as Hsub. rewrite Forall_forall in Hsub.
  pose proof (discovered obj Ho) as Hobj. rewrite Forall_forall in Hobj.
  rewrite (Hsub obj Ho). simpl. rewrite (Hobj subj Hs). simpl.
  by rewrite !append_shortest_app, app_assoc.
Qed.

Lemma find_relationships_discovered :
  find_relationships session ps
  = Ok (flat_map (pair_triplets discover ps) (index_pairs (length ps))).
Proof.
  unfold find_relationships, index_pairs.
  rewrite (foldM_append _
             (fun i => flat_map (pair_triplets discover ps)
                         (map (pair i) (seq (S i) (length ps - S i))))).
  - simpl. f_equal. by rewrite flat_map_flat_map.
  - apply Forall_forall. intros i Hi acc.
    apply list_elem_of_In, in_seq in Hi.
    replace (i + 1)%nat with (S i) by lia.
    rewrite (foldM_append _ (fun j => pair_triplets discover ps (i, j))).
    + by rewrite flat_map_map.
    + apply Forall_forall. intros j Hj acc'.
      apply list_elem_of_In, in_seq in Hj.
      destruct (lookup_lt_is_Some_2 ps i) as [subj Hsubj]; [lia|].
      destruct (lookup_lt_is_Some_2 ps j) as [obj Hobj]; [lia|].
      unfold index, pair_triplets. simpl. rewrite Hsubj, Hobj. simpl.
      apply pair_step_discovered; by eapply list_elem_of_lookup_2.
Qed.
End Pairs.

(** C4.  When the discovery calls for the identifiers of the resolved
    entities return the lists [discover a b], step 3 returns, for the
    pairs of positions [i < j] in the order of enumeration (each pair
    once, by increasing [i], then by increasing [j]), the triplet of the
    forward direction followed by the triplet of the backward direction;
    a direction contributes the triplet built from the result of
    [get_shortest_relationship], one triplet when its list is not empty
    and none otherwise, whatever the other direction gives; the degree
    annotation keeps the triplets and their order. *)
Theorem find_relationships_pair_enumeration
    (session : Session) (discover : string → string → list Relationship)
    (ps : list ProcessedEntity) :
  Forall (fun a =>
            Forall (fun b =>
                      WikidataClient.get_relationships session (qid a) (qid b)
                      = Ok (discover (qid a) (qid b))) ps) ps →
  EnhancedRelationshipExtractor.find_relationships session ps
  = Ok (flat_map (Aux.pair_triplets discover ps) (Aux.index_pairs (length ps)))
  ∧ (∀ i j, (i, j) ∈ Aux.index_pairs (length ps) ↔ (i < j < length ps)%nat)
  ∧ StronglySorted Aux.lex_lt (Aux.index_pairs (length ps))
  ∧ (∀ rels subj obj,
       Aux.direction rels subj obj
       = match rels with
         | [] => []
         | r :: rs =>
             [mkTriplet (wikidata_label subj) (qid subj)
                (predicate (WikidataClient.py_min
                              (fun x => String.length (predicate x)) r rs))
                (predicate_pid (WikidataClient.py_min
                                  (fun x => String.length (predicate x)) r rs))
                (wikidata_label obj) (qid obj)]
         end)
  ∧ (∀ rels, map triplet
               (EnhancedRelationshipExtractor._add_in_degree_info rels ps)
             = rels).
Proof.
  intros H. split; [by apply find_relationships_discovered|].
  split; [intros i j; apply elem_of_index_pairs|].
  split; [apply index_pairs_sorted|]. split.
  - intros rels subj obj. rewrite direction_shortest. by destruct rels.
  - intros rels. unfold EnhancedRelationshipExtractor._add_in_degree_info.
    rewrite map_map. simpl. apply map_id.
Qed.

(** C4, witness. *)
Lemma find_relationships_pair_enumeration_witness :
  EnhancedRelationshipExtractor.find_relationships
    Examples.turing_session Examples.turing_processed
  = Ok (flat_map (Aux.pair_triplets Examples.turing_discover
                                    Examples.turing_processed)
                 (Aux.index_pairs 3)).
Proof.
  refine (proj1 (find_relationships_pair_enumeration
                   Examples.turing_session Examples.turing_discover
                   Examples.turing_processed _)).
  repeat (apply Forall_cons; split); try apply Forall_nil; reflexivity.
Defined.

(** ** Failures of the transport *)

Section Transport.
Import WikidataClient Aux.

Lemma get_json_transport_failure (session : Session) (params : Request) :
  transport_failure (session params) = true →
  ∃ f, get_json session params = Raise (RequestException f).
Proof.
  unfold get_json, transport_failure.
  destruct (session params) as [| |status_code body]; [by eexists..|].
  destruct ((400 <=? status_code) && (status_code <? 600))%Z;
    [by eexists|].
  destruct body; [done | by eexists].
Qed.

Lemma except_RequestException_caught {A : Type} (body : res A) (miss : A)
    (f : request_failure) :
  except_RequestException body miss ≠ Raise (RequestException f).
Proof. by destruct body as [a|[]|]. Qed.
End Transport.

(** C6 (as amended).  A call to the knowledge base that times out, finds
    no connection, is answered with a status of the 4xx or 5xx class or
    with a body that does not decode as JSON gives the miss value of its
    function: [None] for the search and for the two label lookups, the
    empty list for the discovery.  None of the four functions ever lets
    a [RequestException] out. *)
Theorem transport_failure_is_a_miss (session : Session) :
  (∀ entity_text,
     Aux.transport_failure (session (wbsearchentities entity_text)) = true →
     WikidataClient.search_entity session entity_text = Ok None)
  ∧ (∀ id,
       Aux.transport_failure (session (wbgetentities id "labels")) = true →
       WikidataClient.get_entity_label session id = Ok None
       ∧ WikidataClient.get_property_label session id = Ok None)
  ∧ (∀ subject_qid object_qid,
       Aux.transport_failure
         (session (wbgetentities (subject_qid ++ "|" ++ object_qid) "claims"))
       = true →
       WikidataClient.get_relationships session subject_qid object_qid = Ok [])
  ∧ (∀ f a b,
       WikidataClient.search_entity session a ≠ Raise (RequestException f)
       ∧ WikidataClient.get_entity_label session a ≠ Raise (RequestException f)
       ∧ WikidataClient.get_property_label session a
         ≠ Raise (RequestException f)
       ∧ WikidataClient.get_relationships session a b
         ≠ Raise (RequestException f)).
Proof.
  split; [|split; [|split]].
  - intros entity_text H.
    apply get_json_transport_failure in H as [f H].
    unfold WikidataClient.search_entity. by rewrite H.
  - intros id H. apply get_json_transport_failure in H as [f H].
    unfold WikidataClient.get_entity_label, WikidataClient.get_property_label.
    by rewrite H.
  - intros subject_qid object_qid H.
    apply get_json_transport_failure in H as [f H].
    unfold WikidataClient.get_relationships. by rewrite H.
  - intros f a b. repeat split; apply except_RequestException_caught.
Qed.

(** C6, witness: every call times out. *)
Lemma transport_failure_is_a_miss_witness :
  WikidataClient.search_entity Examples.timeout_session "Alan Turing" = Ok None
  ∧ WikidataClient.get_entity_label Examples.timeout_session "Q7251" = Ok None
  ∧ WikidataClient.get_relationships Examples.timeout_session "Q7251" "Q145"
    = Ok [].
Proof.
  pose proof (transport_failure_is_a_miss Examples.timeout_session)
    as (Hs & Hl & Hr & _).
  split; [apply Hs; reflexivity|].
  split; [apply Hl; reflexivity | apply Hr; reflexivity].
Defined.

(** C6, counterexample.  The search is answered with status 200 and the
    payload [{"search": [{}]}]: the hit has no ['id'], the [KeyError] is
    not a [RequestException], and it leaves [search_entity],
    [process_entities] and [extract_relationships]. *)
Lemma malformed_payload_counterexample :
  WikidataClient.search_entity Examples.hit_without_id_session "Alan Turing"
  = Raise KeyError
  ∧ WikidataClient.process_entities
      Examples.hit_without_id_session
      (SmartEntityExtractor.extract_entities Examples.turing_nlp
                                             Examples.turing_text)
    = Raise KeyError
  ∧ EnhancedRelationshipExtractor.extract_relationships
      Examples.turing_nlp Examples.hit_without_id_session Examples.turing_text
    = Raise KeyError.
Proof. repeat split; vm_compute; reflexivity. Qed.

(** ** Knowledge bases that answer alike *)

Section SameAnswers.
Import WikidataClient EnhancedRelationshipExtractor.

Lemma foldM_ext {A B : Type} (f f' : A → B → res A) (l : list B) (a : A) :
  (∀ a x, f a x = f' a x) → foldM f a l = foldM f' a l.
Proof.
  intros Hf. revert a. induction l as [|x l IH]; intros a; simpl; [done|].
  rewrite Hf. destruct (f' a x); simpl; [apply IH | done | done].
Qed.

Context (session session' : Session).
Hypothesis same_answers : ∀ params, session params = session' params.

Lemma get_json_ext (params : Request) :
  get_json session params = get_json session' params.
Proof. unfold get_json. by rewrite same_answers. Qed.

Lemma search_entity_ext (entity_text : string) :
  search_entity session entity_text = search_entity session' entity_text.
Proof. unfold search_entity. by rewrite get_json_ext. Qed.

Lemma get_entity_label_ext (q : string) :
  get_entity_label session q = get_entity_label session' q.
Proof. unfold get_entity_label. by rewrite get_json_ext. Qed.

Lemma process_entities_ext (entities : list Entity) :
  process_entities session entities = process_entities session' entities.
Proof.
  unfold process_entities. apply foldM_ext. intros acc ent.
  unfold process_step. rewrite search_entity_ext.
  destruct (search_entity session' (text ent)) as [q| |]; simpl; [|done|done].
  by rewrite get_entity_label_ext.
Qed.

End SameAnswers.

(** ** Discovery over the shapes of a claims payload *)

Section Claims.
Import WikidataClient Aux.

Context (session : Session) (plabel : string → option string).
Context (object_qid : string).

Lemma claim_step_classified (pid : string) (acc : list Relationship)
    (claim : json) :
  is_Some (classify claim) →
  (wanted object_qid claim = true →
   get_property_label session pid = Ok (plabel pid)) →
  claim_step session object_qid pid acc claim
  = Ok (acc ++ claim_facts plabel object_qid pid claim).
Proof.
  intros [kind Hk] Hl. unfold claim_facts. unfold wanted in Hl.
  rewrite Hk in Hl |- *.
  unfold classify in Hk. unfold claim_step.
  destruct claim as [| | | |?|c]; try done. simpl.
  destruct (Py.lookup_key "mainsnak" c) as [m|] eqn:Hm; simpl.
  2:{ injection Hk as <-. by rewrite app_nil_r. }
  destruct m as [| | | |?|m]; try done. simpl.
  destruct (Py.lookup_key "datavalue" m) as [dv|] eqn:Hdv; simpl.
  2:{ injection Hk as <-. by rewrite app_nil_r. }
  destruct dv as [| | | |?|dv]; try done. simpl.
  destruct (Py.lookup_key "type" dv) as [ty|] eqn:Hty; simpl in *.
  2:{ injection Hk as <-. by rewrite app_nil_r. }
  destruct (Py.eq_str ty "wikibase-entityid") eqn:Hent.
  2:{ injection Hk as <-. by rewrite app_nil_r. }
  destruct (Py.lookup_key "value" dv) as [v|] eqn:Hv; [|done]. simpl.
  destruct v as [| | | |?|v]; try done. simpl.
  destruct (Py.lookup_key "id" v) as [target|] eqn:Hid; [|done]. simpl.
  injection Hk as <-.
  destruct (Py.eq_str target object_qid); simpl; [|by rewrite app_nil_r].
  rewrite (Hl eq_refl). simpl.
  destruct (Py.truthy_str (plabel pid)); [done | by rewrite app_nil_r].
Qed.

Lemma property_steps_classified (cl : list (string * json))
    (items : list (string * list json)) (acc : list Relationship) :
  arrays cl = Some items →
  Forall (fun item => Forall (fun c => is_Some (classify c)) (snd item)) items →
  Forall (fun item =>
            Exists (fun c => wanted object_qid c = true) (snd item) →
            get_property_label session (fst item) = Ok (plabel (fst item)))
         items →
  foldM (property_step session object_qid) acc cl
  = Ok (acc ++ flat_map (fun item =>
                           flat_map (claim_facts plabel object_qid (fst item))
                                    (snd item)) items).
Proof.
  revert items acc. induction cl as [|[pid v] cl IH]; intros items acc; simpl.
  - intros [= <-] _ _. by rewrite app_nil_r.
  - destruct v as [| | | |claims|]; try done.
    destruct (arrays cl) as [r|] eqn:Hr; [|done].
    intros [= <-] Hc Hl. inversion Hc as [|? ? Hc1 Hc2]; subst.
    inversion Hl as [|? ? Hl1 Hl2]; subst. simpl in *.
    change (property_step session object_qid acc (pid, JArr claims))
      with (foldM (claim_step session object_qid pid) acc claims).
    rewrite (foldM_append _ (claim_facts plabel object_qid pid)).
    + simpl. rewrite (IH r); [|done..]. by rewrite app_assoc.
    + apply Forall_forall. intros c Hin acc'.
      rewrite Forall_forall in Hc1.
      apply claim_step_classified; [by apply Hc1|].
      intros Hw. apply Hl1. apply Exists_exists. by exists c.
Qed.

End Claims.

(** C10 (as amended).  Let the claims request be answered with a
    payload in which the claims of the subject are an object of arrays
    and every claim has one of the four kinds (no main snak, no data
    value, a data value that is not an entity reference, an entity
    reference), and let the label lookup return for every property that
    has an entity reference to [object_qid].  Then [get_relationships]
    raises nothing and returns, in the order of the payload, the facts
    of the claims: a claim contributes nothing unless it is an entity
    reference whose target is [object_qid], and then it contributes the
    fact of its property when the property has a label. *)
Theorem get_relationships_over_claim_shapes
    (session : Session) (plabel : string → option string)
    (subject_qid object_qid : string) (data : json)
    (items : list (string * list json)) :
  WikidataClient.get_json session
    (wbgetentities (subject_qid ++ "|" ++ object_qid) "claims") = Ok data →
  Aux.payload_claims data subject_qid = Some items →
  Forall (fun item => Forall (fun c => is_Some (Aux.classify c)) (snd item))
         items →
  Forall (fun item =>
            Exists (fun c => Aux.wanted object_qid c = true) (snd item) →
            WikidataClient.get_property_label session (fst item)
            = Ok (plabel (fst item))) items →
  WikidataClient.get_relationships session subject_qid object_qid
  = Ok (flat_map (fun item =>
                    flat_map (Aux.claim_facts plabel object_qid (fst item))
                             (snd item)) items)
  ∧ Forall (fun item =>
              Forall (fun claim =>
                        match Aux.classify claim with
                        | Some (Aux.EntityValued target) =>
                            Aux.claim_facts plabel object_qid (fst item) claim
                            = if Py.eq_str target object_qid
                                 && Py.truthy_str (plabel (fst item))
                              then [mkRelationship
                                      (default "" (plabel (fst item)))
                                      (fst item)]
                              else []
                        | _ =>
                            Aux.claim_facts plabel object_qid (fst item) claim
                            = []
                        end) (snd item)) items.
Proof.
  intros Hdata Hshape Hkinds Hlabels. split.
  - unfold WikidataClient.get_relationships. rewrite Hdata. simpl.
    unfold Aux.payload_claims in Hshape.
    destruct data as [| | | |?|top]; try done. simpl.
    destruct (Py.lookup_key "entities" top) as [es|] eqn:Hes; simpl.
    2:{ by injection Hshape as <-. }
    destruct es as [| | | |?|es]; try done. simpl.
    destruct (Py.lookup_key subject_qid es) as [subj|] eqn:Hsubj; simpl.
    2:{ by injection Hshape as <-. }
    destruct subj as [| | | |?|subj]; try done. simpl.
    destruct (Py.lookup_key "claims" subj) as [cl|] eqn:Hcl; simpl.
    2:{ by injection Hshape as <-. }
    destruct cl as [| | | |?|cl]; try done. simpl.
    by rewrite (property_steps_classified session plabel object_qid cl items).
  - apply Forall_forall. intros item _. apply Forall_forall. intros claim _.
    unfold Aux.claim_facts.
    by destruct (Aux.classify claim) as [[| | |target]|].
Qed.

(** C10, witness: a payload with claims of the four kinds. *)
Lemma get_relationships_over_claim_shapes_witness :
  WikidataClient.get_relationships Examples.mixed_session "Q7251" "Q145"
  = Ok [mkRelationship "country of citizenship" "P27";
        mkRelationship "place of birth" "P19"].
Proof.
  refine (proj1 (get_relationships_over_claim_shapes
                   Examples.mixed_session Examples.mixed_plabel
                   "Q7251" "Q145"
                   (Examples.claims_payload "Q7251" Examples.mixed_claims)
                   [("P27", [JObj [];
                             JObj [("mainsnak",
                                    JObj [("snaktype", JStr "somevalue")])];
                             Examples.claim_to "Q30";
                             Examples.claim_to "Q145"]);
                    ("P213", [JObj [("mainsnak",
                                     JObj [("datavalue",
                                            JObj [("type", JStr "string");
                                                  ("value", JStr "0000")])])]]);
                    ("P19", [Examples.claim_to "Q145"])]
                   _ _ _ _)).
  - reflexivity.
  - reflexivity.
  - repeat (apply Forall_cons; split); try apply Forall_nil; by eexists.
  - repeat (apply Forall_cons; split); try apply Forall_nil; try done;
      intros _; reflexivity.
Defined.

(** C10, counterexample.  A claim whose data value is [null], an
    entity reference whose value has no ['id'], claims that are a list,
    and a label of the property without ['value']: each time an
    exception that is not a [RequestException] leaves
    [get_relationships]. *)
Lemma malformed_claims_counterexample :
  WikidataClient.get_relationships
    (Examples.one_claim_session Examples.null_datavalue_claim) "Q7251" "Q145"
  = Raise AttributeError
  ∧ WikidataClient.get_relationships
      (Examples.one_claim_session Examples.no_id_claim) "Q7251" "Q145"
    = Raise KeyError
  ∧ WikidataClient.get_relationships Examples.claims_list_session
                                     "Q7251" "Q145"
    = Raise AttributeError
  ∧ WikidataClient.get_relationships Examples.label_without_value_session
                                     "Q7251" "Q145"
    = Raise KeyError.
Proof. repeat split; vm_compute; reflexivity. Qed.

(** ** The dicts handed to the resolver and to the annotation *)

Section Frame.
Import Store Aux.

Context (h0 : heap).

Lemma keeps_ret {A : Type} (a : A) (Q : A → Prop) : Q a → keeps h0 (ret a) Q.
Proof.
  intros Ha h Hh. unfold ret. simpl. split; [done|].
  intros a0 Heq. inversion Heq. by subst.
Qed.

Lemma keeps_lift {A : Type} (r : res A) : keeps h0 (lift r) (fun _ => True).
Proof. intros h Hh. unfold lift. simpl. by split. Qed.

Lemma keeps_bind {A B : Type} (m : M A) (f : A → M B)
    (P : A → Prop) (Q : B → Prop) :
  keeps h0 m P → (∀ a, P a → keeps h0 (f a) Q) → keeps h0 (bind m f) Q.
Proof.
  intros Hm Hf h Hh. unfold bind.
  destruct (Hm h Hh) as [Hpre Hres].
  destruct (m h) as [[a|e|] h']; simpl in *; [|done..].
  apply Hf; [by apply Hres | done].
Qed.

Lemma keeps_weaken {A : Type} (m : M A) (P Q : A → Prop) :
  keeps h0 m P → (∀ a, P a → Q a) → keeps h0 m Q.
Proof.
  intros Hm HPQ h Hh. destruct (Hm h Hh) as [Hpre Hres].
  split; [done|]. intros a Ha. by apply HPQ, Hres.
Qed.

Lemma keeps_getitem (r : ref) (k : string) :
  keeps h0 (getitem r k) (fun _ => True).
Proof.
  intros h Hh. unfold getitem.
  repeat case_match; simpl; by split.
Qed.

Lemma keeps_as_str (v : value) : keeps h0 (as_str v) (fun _ => True).
Proof. destruct v; [by apply keeps_ret | apply keeps_lift..]. Qed.

(** A copy is a new object. *)
Lemma keeps_copy (r : ref) :
  keeps h0 (copy r) (fun r' => (length h0 ≤ r')%nat).
Proof.
  intros h Hh. unfold copy. case_match; simpl; [|by split].
  split; [by apply prefix_app_r|].
  intros a Heq. inversion Heq. subst. by apply prefix_length.
Qed.

(** A write through a reference to a new object. *)
Lemma keeps_setitem (r : ref) (k : string) (v : value) :
  (length h0 ≤ r)%nat → keeps h0 (setitem r k v) (fun _ => True).
Proof.
  intros Hr h [extra ->]. unfold setitem. simpl. split; [|done].
  rewrite alter_app_r_alt by done. by eexists.
Qed.

Lemma keeps_for {A B : Type} (l : list B) (a : A) (body : A → B → M A)
    (P : A → Prop) :
  (∀ a x, P a → keeps h0 (body a x) P) → P a → keeps h0 (for_ l a body) P.
Proof.
  intros Hbody. revert a. induction l as [|x l IH]; intros a Ha; simpl.
  - by apply keeps_ret.
  - eapply keeps_bind; [by apply Hbody|]. intros a' Ha'. by apply IH.
Qed.

Lemma process_entities_keeps (session : Session) (entities : list ref) :
  keeps h0 (process_entities session entities) (fresh_for h0).
Proof.
  apply keeps_for; [|constructor]. intros acc ent Hacc. unfold process_step.
  eapply keeps_bind; [apply keeps_getitem|]. intros v _.
  eapply keeps_bind; [apply keeps_as_str|]. intros entity_text _.
  eapply keeps_bind; [apply keeps_lift|]. intros q _.
  destruct (Py.truthy_str q); [|by apply keeps_ret].
  eapply keeps_bind; [apply keeps_lift|]. intros l _.
  destruct (Py.truthy_str l); [|by apply keeps_ret].
  eapply keeps_bind; [apply keeps_copy|]. intros processed_entity Hnew.
  eapply keeps_bind; [by apply keeps_setitem|]. intros _ _.
  eapply keeps_bind; [by apply keeps_setitem|]. intros _ _.
  apply keeps_ret. apply Forall_app. split; [done | by constructor].
Qed.

Lemma _add_in_degree_info_keeps (relationships entities : list ref) :
  keeps h0 (_add_in_degree_info relationships entities) (fresh_for h0).
Proof.
  unfold _add_in_degree_info.
  eapply keeps_bind.
  { apply (keeps_for _ _ _ (fun _ => True)); [|done]. intros g ent _.
    unfold add_node_step. eapply keeps_bind; [apply keeps_getitem|]. intros v _.
    eapply keeps_bind; [apply keeps_as_str|]. intros q _.
    by apply keeps_ret. }
  intros g _. eapply keeps_bind.
  { apply (keeps_for _ _ _ (fun _ => True)); [|done]. intros g' rel _.
    unfold add_edge_step. eapply keeps_bind; [apply keeps_getitem|]. intros v _.
    eapply keeps_bind; [apply keeps_as_str|]. intros s _.
    eapply keeps_bind; [apply keeps_getitem|]. intros v' _.
    eapply keeps_bind; [apply keeps_as_str|]. intros o _.
    by apply keeps_ret. }
  intros g' _. apply keeps_for; [|constructor]. intros acc rel Hacc.
  unfold copy_step.
  eapply keeps_bind; [apply keeps_copy|]. intros rel_copy Hnew.
  eapply keeps_bind; [apply keeps_getitem|]. intros v _.
  eapply keeps_bind; [apply keeps_as_str|]. intros s _.
  eapply keeps_bind; [by apply keeps_setitem|]. intros _ _.
  eapply keeps_bind; [apply keeps_getitem|]. intros v' _.
  eapply keeps_bind; [apply keeps_as_str|]. intros o _.
  eapply keeps_bind; [by apply keeps_setitem|]. intros _ _.
  apply keeps_ret. apply Forall_app. split; [done | by constructor].
Qed.
End Frame.

(** C8.  Whatever the store, the knowledge base and the references
    handed over, after [process_entities] and after
    [_add_in_degree_info] every dict that was in the store is the same
    dict, item for item, whether the call returns or raises; the
    references the call returns point to dicts that did not exist
    before: the copies. *)
Theorem dicts_not_mutated
    (session : Session) (h : Store.heap)
    (entities relationships processed_entities : list Store.ref) :
  (take (length h) (snd (Store.process_entities session entities h)) = h
   ∧ match fst (Store.process_entities session entities h) with
     | Ok refs => Aux.fresh_for h refs
     | _ => True
     end)
  ∧ (take (length h)
          (snd (Store._add_in_degree_info relationships processed_entities h))
     = h
     ∧ match fst (Store._add_in_degree_info relationships
                                            processed_entities h) with
       | Ok refs => Aux.fresh_for h refs
       | _ => True
       end).
Proof.
  pose proof (process_entities_keeps h session entities h
                (reflexivity h)) as [[extra He] Hr].
  pose proof (_add_in_degree_info_keeps h relationships processed_entities h
                (reflexivity h)) as [[extra' He'] Hr'].
  split; split.
  - by rewrite He, take_app_length.
  - destruct (fst (Store.process_entities _ _ _)); [by apply Hr | done..].
  - by rewrite He', take_app_length.
  - destruct (fst (Store._add_in_degree_info _ _ _)); [by apply Hr' | done..].
Qed.

(** ** The store model against the record model *)

Section Refinement.
Import Store Aux.

Lemma stored_prefix {X : Type} (dict_of : X → gmap string value)
    (h h' : heap) (refs : list ref) (xs : list X) :
  h `prefix_of` h' → stored dict_of h refs xs → stored dict_of h' refs xs.
Proof.
  intros Hh Hs. eapply Forall2_impl; [exact Hs|]. simpl.
  intros r x Hr. by eapply prefix_lookup_Some.
Qed.

Lemma stored_snoc {X : Type} (dict_of : X → gmap string value)
    (h : heap) (refs : list ref) (xs : list X) (x : X) :
  stored dict_of h refs xs →
  stored dict_of (h ++ [dict_of x]) (refs ++ [length h]) (xs ++ [x]).
Proof.
  intros Hs. apply Forall2_app.
  - eapply stored_prefix; [|exact Hs]. by apply prefix_app_r.
  - constructor; [|constructor]. by rewrite lookup_app_r, Nat.sub_diag.
Qed.

Lemma alter_new (h : heap) (d : gmap string value)
    (f : gmap string value → gmap string value) :
  alter f (length h) (h ++ [d]) = h ++ [f d].
Proof. rewrite alter_app_r_alt by done. by rewrite Nat.sub_diag. Qed.

Lemma process_step_refines (session : Session) (h : heap)
    (acc_refs : list ref) (acc : list ProcessedEntity) (r : ref) (e : Entity) :
  h !! r = Some (entity_dict e) →
  stored processed_dict h acc_refs acc →
  h `prefix_of` snd (process_step session acc_refs r h)
  ∧ same_outcome processed_dict (process_step session acc_refs r h)
                 (WikidataClient.process_step session acc e).
Proof.
  intros Hr Hacc.
  assert (Hget : getitem r "text" h = (Ok (VStr (text e)), h)).
  { unfold getitem. rewrite Hr. unfold entity_dict.
    by rewrite lookup_insert_eq. }
  assert (Hcopy : copy r h = (Ok (length h), h ++ [entity_dict e])).
  { unfold copy. by rewrite Hr. }
  unfold process_step, WikidataClient.process_step, bind.
  rewrite Hget. simpl. unfold lift.
  destruct (WikidataClient.search_entity session (text e)) as [q| |]; simpl;
    [|done..].
  destruct (Py.truthy_str q); simpl; [|split; [done | by exists acc_refs]].
  destruct (WikidataClient.get_entity_label session (default "" q))
    as [l| |]; simpl; [|done..].
  destruct (Py.truthy_str l); simpl; [|split; [done | by exists acc_refs]].
  rewrite Hcopy. simpl. rewrite !alter_new.
  split; [by apply prefix_app_r|].
  eexists. split; [reflexivity|]. simpl.
  by apply (stored_snoc processed_dict h acc_refs acc
              (mkProcessed e (default "" q) (default "" l))).
Qed.

Lemma process_loop_refines (session : Session) (refs : list ref)
    (es : list Entity) :
  ∀ (h0 h : heap) (acc_refs : list ref) (acc : list ProcessedEntity),
    h0 `prefix_of` h →
    stored entity_dict h0 refs es →
    stored processed_dict h acc_refs acc →
    same_outcome processed_dict
      (for_ refs acc_refs (process_step session) h)
      (foldM (WikidataClient.process_step session) acc es).
Proof.
  intros h0 h acc_refs acc Hh Hes. revert h acc_refs acc Hh.
  induction Hes as [|r e refs es Hr Hes IH]; intros h acc_refs acc Hh Hacc;
    simpl.
  - by exists acc_refs.
  - assert (Hr' : h !! r = Some (entity_dict e))
      by (by eapply prefix_lookup_Some).
    destruct (process_step_refines session h acc_refs acc r e Hr' Hacc)
      as [Hpre Hout].
    unfold bind at 1.
    destruct (WikidataClient.process_step session acc e) as [acc'| |];
      simpl in *.
    + destruct Hout as (refs' & Hfst & Hst).
      destruct (process_step session acc_refs r h) as [out h'].
      simpl in *. subst out.
      apply IH; [by etrans | done].
    + destruct (process_step session acc_refs r h) as [out h'].
      simpl in *. by subst out.
    + destruct (process_step session acc_refs r h) as [out h'].
      simpl in *. by subst out.
Qed.

(** The resolver on references does what the resolver on records does. *)
Lemma process_entities_refines (session : Session) (h : heap)
    (refs : list ref) (es : list Entity) :
  stored entity_dict h refs es →
  same_outcome processed_dict (process_entities session refs h)
               (WikidataClient.process_entities session es).
Proof.
  intros Hes. apply (process_loop_refines session refs es h h [] []).
  - done.
  - done.
  - constructor.
Qed.
End Refinement.

Section RefinementDegrees.
Import Store Aux.

Lemma bind_ok {A B : Type} (m : M A) (f : A → M B) (h h' : heap) (a : A) :
  m h = (Ok a, h') → bind m f h = f a h'.
Proof. intros Hm. unfold bind. by rewrite Hm. Qed.

Lemma getitem_stored (h : heap) (r : ref) (d : gmap string value)
    (k : string) (v : value) :
  h !! r = Some d → d !! k = Some v → getitem r k h = (Ok v, h).
Proof. intros Hr Hk. unfold getitem. by rewrite Hr, Hk. Qed.

Lemma add_node_step_stored (h : heap) (g : nx.DiGraph) (r : ref)
    (p : ProcessedEntity) :
  h !! r = Some (processed_dict p) →
  add_node_step g r h = (Ok (nx.add_node (qid p) g), h).
Proof.
  intros Hr. unfold add_node_step.
  rewrite (bind_ok _ _ h h (VStr (qid p)));
    [done | by apply (getitem_stored h r (processed_dict p))].
Qed.

Lemma add_edge_step_stored (h : heap) (g : nx.DiGraph) (r : ref)
    (t : Triplet) :
  h !! r = Some (triplet_dict t) →
  add_edge_step g r h
  = (Ok (nx.add_edge (subject_qid t) (object_qid t) g), h).
Proof.
  intros Hr. unfold add_edge_step.
  rewrite (bind_ok _ _ h h (VStr (subject_qid t)));
    [|by apply (getitem_stored h r (triplet_dict t))].
  rewrite (bind_ok _ _ h h (subject_qid t)); [|done].
  rewrite (bind_ok _ _ h h (VStr (object_qid t)));
    [done | by apply (getitem_stored h r (triplet_dict t))].
Qed.

Lemma copy_step_stored (h : heap) (g : nx.DiGraph) (acc : list ref) (r : ref)
    (t : Triplet) :
  h !! r = Some (triplet_dict t) →
  copy_step g acc r h
  = (Ok (acc ++ [length h]),
     h ++ [degree_triplet_dict
             (mkDegreeTriplet t (nx.in_degree g (subject_qid t))
                                (nx.in_degree g (object_qid t)))]).
Proof.
  intros Hr. unfold copy_step.
  rewrite (bind_ok _ _ h (h ++ [triplet_dict t]) (length h));
    [|unfold copy; by rewrite Hr].
  assert (Hr1 : (h ++ [triplet_dict t]) !! r = Some (triplet_dict t))
    by (by apply lookup_app_l_Some).
  rewrite (bind_ok _ _ _ _ (VStr (subject_qid t))
             (getitem_stored _ r _ "subject_qid" _ Hr1 eq_refl)).
  rewrite (bind_ok _ _ (h ++ [triplet_dict t]) (h ++ [triplet_dict t])
             (subject_qid t)); [|done].
  rewrite (bind_ok _ _ (h ++ [triplet_dict t])
             (h ++ [<["subject_in_degree" :=
                        degree_value (nx.in_degree g (subject_qid t))]>
                      (triplet_dict t)]) tt);
    [|unfold setitem; by rewrite alter_new].
  match goal with
  | |- bind _ _ (h ++ [?d]) = _ =>
      assert (Hr2 : (h ++ [d]) !! r = Some (triplet_dict t))
        by (by apply lookup_app_l_Some);
      rewrite (bind_ok _ _ _ _ (VStr (object_qid t))
                 (getitem_stored _ r _ "object_qid" _ Hr2 eq_refl));
      rewrite (bind_ok _ _ (h ++ [d]) (h ++ [d]) (object_qid t)); [|done]
  end.
  unfold bind, setitem, ret. simpl. by rewrite alter_new.
Qed.

Lemma node_loop_refines (h : heap) (refs : list ref)
    (ents : list ProcessedEntity) :
  stored processed_dict h refs ents →
  ∀ g, for_ refs g add_node_step h
       = (Ok (fold_left (fun g e => nx.add_node (qid e) g) ents g), h).
Proof.
  induction 1 as [|r p refs ents Hr Hs IH]; intros g; simpl; [done|].
  rewrite (bind_ok _ _ _ _ _ (add_node_step_stored h g r p Hr)). apply IH.
Qed.

Lemma edge_loop_refines (h : heap) (refs : list ref) (rels : list Triplet) :
  stored triplet_dict h refs rels →
  ∀ g, for_ refs g add_edge_step h
       = (Ok (fold_left (fun g rel =>
                           nx.add_edge (subject_qid rel) (object_qid rel) g)
                        rels g), h).
Proof.
  induction 1 as [|r t refs rels Hr Hs IH]; intros g; simpl; [done|].
  rewrite (bind_ok _ _ _ _ _ (add_edge_step_stored h g r t Hr)). apply IH.
Qed.

Lemma copy_loop_refines (g : nx.DiGraph) (h0 : heap) (refs : list ref)
    (rels : list Triplet) :
  stored triplet_dict h0 refs rels →
  ∀ (h : heap) (acc_refs : list ref) (acc : list DegreeTriplet),
    h0 `prefix_of` h →
    stored degree_triplet_dict h acc_refs acc →
    same_outcome degree_triplet_dict
      (for_ refs acc_refs (copy_step g) h)
      (Ok (acc ++ map (fun rel =>
                         mkDegreeTriplet rel
                           (nx.in_degree g (subject_qid rel))
                           (nx.in_degree g (object_qid rel))) rels)).
Proof.
  induction 1 as [|r t refs rels Hr Hs IH]; intros h acc_refs acc Hh Hacc;
    simpl.
  - rewrite app_nil_r. by exists acc_refs.
  - assert (Hr' : h !! r = Some (triplet_dict t))
      by (by eapply prefix_lookup_Some).
    rewrite (bind_ok _ _ _ _ _ (copy_step_stored h g acc_refs r t Hr')).
    rewrite (cons_middle _ acc), app_assoc.
    apply IH.
    + etrans; [exact Hh | by apply prefix_app_r].
    + by apply (stored_snoc degree_triplet_dict h acc_refs acc
                  (mkDegreeTriplet t (nx.in_degree g (subject_qid t))
                     (nx.in_degree g (object_qid t)))).
Qed.

(** The annotation on references does what the annotation on records
    does. *)
Lemma _add_in_degree_info_refines (h : heap) (rel_refs ent_refs : list ref)
    (rels : list Triplet) (ents : list ProcessedEntity) :
  stored triplet_dict h rel_refs rels →
  stored processed_dict h ent_refs ents →
  same_outcome degree_triplet_dict
    (_add_in_degree_info rel_refs ent_refs h)
    (Ok (EnhancedRelationshipExtractor._add_in_degree_info rels ents)).
Proof.
  intros Hrels Hents. unfold _add_in_degree_info.
  rewrite (bind_ok _ _ _ _ _ (node_loop_refines h ent_refs ents Hents _)).
  rewrite (bind_ok _ _ _ _ _ (edge_loop_refines h rel_refs rels Hrels _)).
  apply (copy_loop_refines _ h rel_refs rels Hrels h [] []); [done|].
  constructor.
Qed.
End RefinementDegrees.

(** * Further properties of the code *)

(** ** Loops that can raise *)

Section FoldM.
Context {A B : Type}.

(** What holds of the accumulator before a loop and is kept by every
    turn that returns holds of the result of the loop. *)
Lemma foldM_invariant (P : A → Prop) (f : A → B → res A) (l : list B) :
  (∀ a x a', x ∈ l → P a → f a x = Ok a' → P a') →
  ∀ a r, P a → foldM f a l = Ok r → P r.
Proof.
  induction l as [|x l IH]; intros Hf a r Ha; simpl.
  - by intros [= <-].
  - destruct (f a x) as [a'| |] eqn:Hfa; simpl; [|done..].
    apply IH.
    + intros a0 y a0' Hy. apply Hf. by right.
    + eapply Hf; [by left | exact Ha | exact Hfa].
Qed.
End FoldM.

(** Case analysis on the calls and the tests of a body in the [res]
    monad, down to the value it returns. *)
Ltac res_cases H :=
  unfold mbind, res_bind in H;
  repeat first
    [ discriminate H
    | match type of H with
      | context [match ?m with Ok _ => _ | Raise _ => _ | Unmodelled => _ end] =>
          destruct m eqn:?
      | context [if ?b then _ else _] => destruct b eqn:?
      end ].

(** ** The resolver *)

Section Resolver.
Import WikidataClient More.

Lemma truthy_str_Some (o : option string) :
  Py.truthy_str o = true → ∃ s, o = Some s ∧ s ≠ "".
Proof.
  destruct o as [s|]; [|done]. simpl. intros Hs. exists s. split; [done|].
  intros ->. done.
Qed.

Lemma process_step_cases (session : Session) (acc acc' : list ProcessedEntity)
    (e : Entity) :
  process_step session acc e = Ok acc' →
  acc' = acc
  ∨ ∃ p, acc' = acc ++ [p] ∧ entity p = e ∧ resolved_by session p.
Proof.
  unfold process_step. intros H.
  destruct (search_entity session (text e)) as [q| |] eqn:Hq; simpl in H;
    [|done..].
  destruct (Py.truthy_str q) eqn:Htq; [|left; congruence].
  destruct (get_entity_label session (default "" q)) as [l| |] eqn:Hl;
    simpl in H; [|done..].
  destruct (Py.truthy_str l) eqn:Htl; [|left; congruence].
  apply truthy_str_Some in Htq as (qs & -> & Hqs).
  apply truthy_str_Some in Htl as (ls & -> & Hls). simpl in *.
  right. eexists. split; [by injection H as <-|]. by repeat split.
Qed.

Lemma process_loop_sublist (session : Session) (es : list Entity) :
  ∀ acc r, foldM (process_step session) acc es = Ok r →
           ∃ r', r = acc ++ r'
                 ∧ map entity r' `sublist_of` es
                 ∧ Forall (resolved_by session) r'.
Proof.
  induction es as [|e es IH]; intros acc r; simpl.
  - intros [= <-]. exists []. by rewrite app_nil_r.
  - destruct (process_step session acc e) as [acc'| |] eqn:Hstep; simpl;
      [|done..].
    intros Hr. apply IH in Hr as (r' & -> & Hsub & Hres).
    apply process_step_cases in Hstep as [-> | (p & -> & <- & Hp)].
    + exists r'. split; [done|]. split; [by apply sublist_cons | done].
    + exists (p :: r'). split; [by rewrite <- app_assoc|].
      split; [by apply sublist_skip | by constructor].
Qed.

Lemma process_step_answered (session : Session) (acc : list ProcessedEntity)
    (e : Entity) :
  answered session e →
  process_step session acc e
  = Ok (acc ++ match resolve session e with Some p => [p] | None => [] end).
Proof.
  intros (q & Hq & Hl). unfold process_step, resolve. rewrite Hq.
  cbn [mbind res_bind].
  destruct q as [q|]; cbn [Py.truthy_str] in *; [|by rewrite app_nil_r].
  destruct (String.eqb q "") eqn:Hqe; cbn [negb] in *; [by rewrite app_nil_r|].
  destruct (Hl eq_refl) as [l Hl']. cbn [default from_option id] in *.
  rewrite Hl'. cbn [mbind res_bind].
  destruct l as [l|]; cbn [Py.truthy_str]; [|by rewrite app_nil_r].
  destruct (String.eqb l ""); cbn [negb]; [by rewrite app_nil_r | done].
Qed.

Lemma process_step_returns (session : Session) (acc acc' : list ProcessedEntity)
    (e : Entity) :
  process_step session acc e = Ok acc' → answered session e.
Proof.
  unfold process_step, answered. intros H.
  destruct (search_entity session (text e)) as [q| |]; [|done..].
  exists q. split; [done|]. intros Ht. cbn [mbind res_bind] in H.
  rewrite Ht in H.
  destruct (get_entity_label session (default "" q)) as [l| |]; [|done..].
  by exists l.
Qed.

(** The loop of [process_entities]: it returns exactly when every
    lookup returns, and then with the entities that resolve. *)
Lemma process_loop_resolve (session : Session) (es : list Entity) :
  ∀ acc r, foldM (process_step session) acc es = Ok r
           ↔ Forall (answered session) es
             ∧ r = acc ++ omap (resolve session) es.
Proof.
  induction es as [|e es IH]; intros acc r; cbn [foldM omap list_omap].
  - rewrite app_nil_r. split; [by intros [= <-] | by intros [_ ->]].
  - split.
    + intros H.
      destruct (process_step session acc e) as [acc'| |] eqn:Hstep;
        cbn [mbind res_bind] in H; [|done..].
      pose proof (process_step_returns _ _ _ _ Hstep) as Ha.
      rewrite (process_step_answered _ _ _ Ha) in Hstep.
      injection Hstep as <-. apply IH in H as [Hes ->].
      split; [by constructor|]. rewrite <- app_assoc.
      by destruct (resolve session e).
    + intros [Hall ->]. apply Forall_cons in Hall as [Ha Hes].
      rewrite (process_step_answered _ _ _ Ha). cbn [mbind res_bind].
      apply IH. split; [done|]. rewrite <- app_assoc.
      by destruct (resolve session e).
Qed.

Lemma resolve_entity (session : Session) (e : Entity) (p : ProcessedEntity) :
  resolve session e = Some p → entity p = e.
Proof.
  unfold resolve.
  destruct (search_entity session (text e)) as [[q|]| |]; try done.
  destruct (String.eqb q ""); [done|].
  destruct (get_entity_label session q) as [[l|]| |]; try done.
  destruct (String.eqb l ""); [done|]. by intros [= <-].
Qed.

Lemma entity_resolve (session : Session) (es : list Entity) :
  map entity (omap (resolve session) es) = filter (resolves session) es.
Proof.
  induction es as [|e es IH]; [done|].
  cbn [omap list_omap]. rewrite filter_cons.
  destruct (decide (resolves session e)) as [Hr|Hr]; unfold resolves in Hr;
    destruct (resolve session e) as [p|] eqn:Hp; try done.
  cbn [map]. f_equal; [by apply (resolve_entity session) | exact IH].
Qed.
End Resolver.

(** X1.  When [process_entities] returns, the entities it returns are
    exactly the entities of its input that resolve, in the order of the
    input: an entity that resolves is kept, every time it occurs, and
    the others are dropped; each carries the identifier the search
    returns for its text and the label the lookup returns for that
    identifier, and neither is the empty string. *)
Theorem process_entities_resolved_in_order
    (session : Session) (entities : list Entity) (ps : list ProcessedEntity) :
  WikidataClient.process_entities session entities = Ok ps →
  map entity ps = filter (More.resolves session) entities
  ∧ map entity ps `sublist_of` entities
  ∧ Forall (More.resolved_by session) ps.
Proof.
  intros H. split.
  - apply process_loop_resolve in H as [_ ->]. apply entity_resolve.
  - apply process_loop_sublist in H as (r' & -> & Hsub & Hres). done.
Qed.

Lemma process_entities_resolved_in_order_witness :
  map entity Examples.turing_processed
  = filter (More.resolves Examples.turing_session)
           (SmartEntityExtractor.extract_entities Examples.turing_nlp
                                                  Examples.turing_text)
  ∧ map entity Examples.turing_processed
      `sublist_of` SmartEntityExtractor.extract_entities Examples.turing_nlp
                                                         Examples.turing_text
  ∧ Forall (More.resolved_by Examples.turing_session) Examples.turing_processed.
Proof.
  apply (process_entities_resolved_in_order Examples.turing_session).
  reflexivity.
Defined.

(** ** Early returns *)

(** C7 (as amended).  When fewer than two entities are extracted, or
    when every lookup made for the extracted entities returns and fewer
    than two of them resolve, [extract_relationships] returns the empty
    list; no exception is raised. *)
Theorem extract_relationships_too_few_entities
    (nlp : string → list Entity) (session : Session) (txt : string) :
  (length (SmartEntityExtractor.extract_entities nlp txt) < 2)%nat
  ∨ (Forall (More.answered session)
            (SmartEntityExtractor.extract_entities nlp txt)
     ∧ (length (filter (More.resolves session)
                       (SmartEntityExtractor.extract_entities nlp txt))
        < 2)%nat) →
  EnhancedRelationshipExtractor.extract_relationships nlp session txt = Ok [].
Proof.
  unfold EnhancedRelationshipExtractor.extract_relationships.
  intros [Hfew | [Hall Hfew]].
  - apply Nat.ltb_lt in Hfew. by rewrite Hfew.
  - destruct (length _ <? 2)%nat; [done|].
    rewrite <- entity_resolve, length_map in Hfew.
    unfold WikidataClient.process_entities.
    rewrite (proj2 (process_loop_resolve session _ [] _) (conj Hall eq_refl)).
    cbn [mbind res_bind app]. apply Nat.ltb_lt in Hfew. by rewrite Hfew.
Qed.

(** C7, witness: three entities are extracted, every call to the
    knowledge base times out, so that every lookup returns a miss and
    no entity resolves. *)
Lemma extract_relationships_too_few_entities_witness :
  EnhancedRelationshipExtractor.extract_relationships
    Examples.turing_nlp Examples.timeout_session Examples.turing_text = Ok [].
Proof.
  apply (extract_relationships_too_few_entities
           Examples.turing_nlp Examples.timeout_session Examples.turing_text).
  right. split.
  - assert (SmartEntityExtractor.extract_entities Examples.turing_nlp
                                                  Examples.turing_text
            = [mkEntity "Alan Turing" "PERSON" 0 11;
               mkEntity "Turing" "PERSON" 25 31;
               mkEntity "UK" "GPE" 48 50]) as ->
      by (vm_compute; reflexivity).
    repeat (apply Forall_cons; split); try apply Forall_nil; try done;
      (exists None; split; [reflexivity | discriminate]).
  - vm_compute. lia.
Defined.

(** C7, counterexample.  Three entities are extracted; the search is
    answered with a hit that has no ['id'], so that no entity resolves
    (fewer than two do), and the run ends with the [KeyError]. *)
Lemma too_few_resolved_counterexample :
  (length (filter (More.resolves Examples.hit_without_id_session)
                  (SmartEntityExtractor.extract_entities
                     Examples.turing_nlp Examples.turing_text))
   < 2)%nat
  ∧ EnhancedRelationshipExtractor.extract_relationships
      Examples.turing_nlp Examples.hit_without_id_session Examples.turing_text
    = Raise KeyError
  ∧ EnhancedRelationshipExtractor.extract_relationships
      Examples.turing_nlp Examples.hit_without_id_session Examples.turing_text
    ≠ Ok [].
Proof.
  split; [vm_compute; lia|].
  assert (EnhancedRelationshipExtractor.extract_relationships
            Examples.turing_nlp Examples.hit_without_id_session
            Examples.turing_text = Raise KeyError) as ->
    by (vm_compute; reflexivity).
  by split.
Qed.

(** ** The facts of a discovery *)

Section Facts.
Import WikidataClient More.

Lemma claim_step_cases (session : Session) (object_qid pid : string)
    (acc acc' : list Relationship) (claim : json) :
  claim_step session object_qid pid acc claim = Ok acc' →
  acc' = acc
  ∨ ∃ r, acc' = acc ++ [r] ∧ predicate_pid r = pid ∧ labelled_by session r.
Proof.
  unfold claim_step. intros H. res_cases H; injection H as <-;
    try (by left).
  match goal with
  | Ht : Py.truthy_str ?l = true |- _ =>
      apply truthy_str_Some in Ht as (ls & -> & Hls)
  end.
  right. eexists. split; [done|]. simpl. by repeat split.
Qed.

Lemma get_relationships_loop (session : Session) (object_qid : string)
    (its : list (string * json)) (acc r : list Relationship) :
  Forall (labelled_by session) acc →
  foldM (property_step session object_qid) acc its = Ok r →
  Forall (labelled_by session) r.
Proof.
  apply (foldM_invariant (Forall (labelled_by session))).
  intros a item a' _ Ha. unfold property_step.
  destruct (Py.iter (snd item)) as [claims| |]; simpl; [|done..].
  revert Ha. apply foldM_invariant.
  intros b claim b' _ Hb Hstep.
  apply claim_step_cases in Hstep as [-> | (r0 & -> & _ & Hr0)]; [done|].
  apply Forall_app. split; [done | by constructor].
Qed.
End Facts.

Lemma get_relationships_labelled
    (session : Session) (subject_qid object_qid : string)
    (facts : list Relationship) :
  WikidataClient.get_relationships session subject_qid object_qid = Ok facts →
  Forall (More.labelled_by session) facts.
Proof.
  unfold WikidataClient.get_relationships, except_RequestException.
  intros H.
  match type of H with
  | match ?body with _ => _ end = _ => destruct body as [r|[]|] eqn:Hbody
  end; try discriminate H; injection H as <-; try constructor.
  unfold mbind, res_bind in Hbody.
  repeat match type of Hbody with
         | match ?m with Ok _ => _ | Raise _ => _ | Unmodelled => _ end = _ =>
             destruct m eqn:?; try discriminate Hbody
         | (if ?b then _ else _) = _ =>
             destruct b eqn:?; [|injection Hbody as <-; constructor]
         end.
  by eapply get_relationships_loop; [constructor|exact Hbody].
Qed.

(** X2.  When [get_relationships] returns, every fact of the list has
    as predicate the label that [get_property_label] returns for the
    property of the fact, and this label is not the empty string. *)
Theorem get_relationships_facts_labelled
    (session : Session) (subject_qid object_qid : string)
    (facts : list Relationship) :
  WikidataClient.get_relationships session subject_qid object_qid = Ok facts →
  Forall (More.labelled_by session) facts.
Proof. apply get_relationships_labelled. Qed.

Lemma get_relationships_facts_labelled_witness :
  Forall (More.labelled_by Examples.mixed_session)
         [mkRelationship "country of citizenship" "P27";
          mkRelationship "place of birth" "P19"].
Proof.
  apply (get_relationships_facts_labelled Examples.mixed_session
           "Q7251" "Q145").
  reflexivity.
Defined.

(** ** The triplets of a run *)

Section Triplets.
Import WikidataClient EnhancedRelationshipExtractor Aux More.

Lemma get_shortest_relationship_elem (rels : list Relationship)
    (r : Relationship) :
  get_shortest_relationship rels = Some r → r ∈ rels.
Proof.
  destruct rels as [|r0 rels]; [done|]. simpl. intros [= <-].
  destruct (py_min_first_minimum (fun x => String.length (predicate x)) r0 rels)
    as (before & after & Heq & _).
  rewrite Heq. apply elem_of_app. right. by left.
Qed.

Lemma direction_cases (rels : list Relationship) (subj obj : ProcessedEntity) :
  direction rels subj obj = []
  ∨ ∃ r, r ∈ rels
         ∧ direction rels subj obj
           = [mkTriplet (wikidata_label subj) (qid subj)
                        (predicate r) (predicate_pid r)
                        (wikidata_label obj) (qid obj)].
Proof.
  rewrite direction_shortest.
  destruct (get_shortest_relationship rels) as [r|] eqn:Hr; [|by left].
  right. exists r. split; [by apply get_shortest_relationship_elem | done].
Qed.

Lemma direction_length (rels : list Relationship) (subj obj : ProcessedEntity) :
  (length (direction rels subj obj) ≤ 1)%nat.
Proof.
  destruct (direction_cases rels subj obj) as [-> | (r & _ & ->)]; simpl; lia.
Qed.

Lemma pair_step_cases (session : Session) (subj obj : ProcessedEntity)
    (acc acc' : list Triplet) :
  pair_step session subj obj acc = Ok acc' →
  ∃ fwd bwd,
    get_relationships session (qid subj) (qid obj) = Ok fwd
    ∧ get_relationships session (qid obj) (qid subj) = Ok bwd
    ∧ acc' = acc ++ direction fwd subj obj ++ direction bwd obj subj.
Proof.
  unfold pair_step. intros H.
  destruct (get_relationships session (qid subj) (qid obj)) as [fwd| |];
    simpl in H; [|done..].
  destruct (get_relationships session (qid obj) (qid subj)) as [bwd| |];
    simpl in H; [|done..].
  exists fwd, bwd. split; [done|]. split; [done|].
  injection H as <-. by rewrite !append_shortest_app, app_assoc.
Qed.

Lemma direction_sound (session : Session) (ps : list ProcessedEntity)
    (rels : list Relationship) (subj obj : ProcessedEntity) :
  subj ∈ ps → obj ∈ ps →
  get_relationships session (qid subj) (qid obj) = Ok rels →
  Forall (fun t => between ps t ∧ backed_by session t)
         (direction rels subj obj).
Proof.
  intros Hs Ho Hrels.
  destruct (direction_cases rels subj obj) as [-> | (r & Hr & ->)];
    [constructor|].
  constructor; [|constructor]. split.
  - by exists subj, obj.
  - exists rels. split; [done|]. simpl. by destruct r.
Qed.

(** The body of the inner loop, with the two index lookups. *)
Lemma index_pair_step_cases (session : Session) (ps : list ProcessedEntity)
    (i j : nat) (acc acc' : list Triplet) :
  (subj ← index ps i; object_entity ← index ps j;
   pair_step session subj object_entity acc) = Ok acc' →
  ∃ subj obj fwd bwd,
    ps !! i = Some subj ∧ ps !! j = Some obj
    ∧ get_relationships session (qid subj) (qid obj) = Ok fwd
    ∧ get_relationships session (qid obj) (qid subj) = Ok bwd
    ∧ acc' = acc ++ direction fwd subj obj ++ direction bwd obj subj.
Proof.
  unfold index. intros H.
  destruct (ps !! i) as [subj|]; simpl in H; [|done].
  destruct (ps !! j) as [obj|]; simpl in H; [|done].
  apply pair_step_cases in H as (fwd & bwd & Hf & Hb & ->).
  by exists subj, obj, fwd, bwd.
Qed.

Lemma find_relationships_sound (session : Session) (ps : list ProcessedEntity)
    (rels : list Triplet) :
  find_relationships session ps = Ok rels →
  Forall (fun t => between ps t ∧ backed_by session t) rels.
Proof.
  unfold find_relationships.
  apply (foldM_invariant (Forall (fun t => between ps t ∧ backed_by session t)));
    [|constructor].
  intros acc i acc' _ Hacc. revert Hacc. apply foldM_invariant.
  intros a j a' _ Ha Hstep.
  apply index_pair_step_cases in Hstep
    as (subj & obj & fwd & bwd & Hi & Hj & Hf & Hb & ->).
  apply list_elem_of_lookup_2 in Hi, Hj.
  rewrite !Forall_app. split; [done|].
  split; by eapply direction_sound.
Qed.

(** A loop that adds at most [bound x] elements in the turn of [x]. *)
Lemma foldM_length_le {X B : Type} (f : list X → B → res (list X))
    (bound : B → nat) (l : list B) :
  (∀ a x a', x ∈ l → f a x = Ok a' →
             (length a' ≤ length a + bound x)%nat) →
  ∀ a r, foldM f a l = Ok r →
         (length r ≤ length a + sum_list (map bound l))%nat.
Proof.
  induction l as [|x l IH]; intros Hf a r; simpl.
  - intros [= <-]. lia.
  - destruct (f a x) as [a'| |] eqn:Hfa; simpl; [|done..].
    intros Hr. apply IH in Hr.
    + pose proof (Hf a x a' ltac:(by left) Hfa). lia.
    + intros a0 y a0' Hy. apply Hf. by right.
Qed.

Lemma sum_list_const (k : nat) (l : list nat) :
  sum_list (map (fun _ => k) l) = (k * length l)%nat.
Proof. induction l as [|x l IH]; simpl; lia. Qed.

Lemma sum_pairs_from (n a m : nat) :
  n = (a + m)%nat →
  sum_list (map (fun i => 2 * (n - (i + 1)))%nat (seq a m))
  = (m * (m - 1))%nat.
Proof.
  revert a. induction m as [|m IH]; intros a Hn; [done|].
  rewrite <- cons_seq, map_cons.
  change (sum_list (?x :: ?l)) with (x + sum_list l)%nat.
  rewrite (IH (S a)) by lia. nia.
Qed.

Lemma find_relationships_length (session : Session)
    (ps : list ProcessedEntity) (rels : list Triplet) :
  find_relationships session ps = Ok rels →
  (length rels ≤ length ps * (length ps - 1))%nat.
Proof.
  unfold find_relationships. intros H.
  apply (foldM_length_le _
           (fun i => 2 * (length ps - (i + 1)))%nat) in H.
  - rewrite (sum_pairs_from (length ps) 0 (length ps)) in H by done.
    simpl in H. lia.
  - intros acc i acc' _ Hi.
    apply (foldM_length_le _ (fun _ => 2%nat)) in Hi.
    + rewrite sum_list_const, length_seq in Hi. simpl. lia.
    + intros a j a' _ Hstep.
      apply index_pair_step_cases in Hstep
        as (subj & obj & fwd & bwd & _ & _ & _ & _ & ->).
      rewrite !length_app.
      pose proof (direction_length fwd subj obj).
      pose proof (direction_length bwd obj subj). lia.
Qed.
End Triplets.

(** X3.  When step 3 returns, every triplet has as subject and as object
    two of the resolved entities, with their identifiers and labels, and
    it states a fact that [get_relationships] returns for the direction
    from its subject to its object. *)
Theorem find_relationships_triplets_backed
    (session : Session) (ps : list ProcessedEntity) (rels : list Triplet) :
  EnhancedRelationshipExtractor.find_relationships session ps = Ok rels →
  Forall (fun t => More.between ps t ∧ More.backed_by session t) rels.
Proof. apply find_relationships_sound. Qed.

Lemma find_relationships_triplets_backed_witness :
  Forall (fun t => More.between Examples.turing_processed t
                   ∧ More.backed_by Examples.turing_session t)
         (flat_map (Aux.pair_triplets Examples.turing_discover
                                      Examples.turing_processed)
                   (Aux.index_pairs 3)).
Proof.
  apply (find_relationships_triplets_backed Examples.turing_session).
  reflexivity.
Defined.

Section Run.
Import WikidataClient EnhancedRelationshipExtractor Aux More.

(** What a run that returns is made of. *)
Lemma extract_relationships_cases
    (nlp : string → list Entity) (session : Session) (txt : string)
    (out : list DegreeTriplet) :
  extract_relationships nlp session txt = Ok out →
  out = []
  ∨ ∃ ps rels,
      process_entities session (SmartEntityExtractor.extract_entities nlp txt)
      = Ok ps
      ∧ find_relationships session ps = Ok rels
      ∧ out = _add_in_degree_info rels ps.
Proof.
  unfold extract_relationships. intros H.
  destruct (length _ <? 2)%nat; [left; congruence|].
  destruct (process_entities session _) as [ps| |]; simpl in H; [|done..].
  destruct (length ps <? 2)%nat; [left; congruence|].
  destruct (find_relationships session ps) as [rels| |] eqn:Hrels;
    simpl in H; [|done..].
  right. exists ps, rels. split; [done|]. split; [done | congruence].
Qed.

Lemma triplet_populated (session : Session) (ps : list ProcessedEntity)
    (rels : list Triplet) (t : Triplet) :
  Forall (resolved_by session) ps →
  between ps t → backed_by session t →
  populated (mkDegreeTriplet t
               (Some (distinct_incoming rels (subject_qid t)))
               (Some (distinct_incoming rels (object_qid t)))).
Proof.
  intros Hps (a & b & Ha & Hb & Hs & Hsq & Ho & Hoq) (facts & Hfacts & Hin).
  rewrite Forall_forall in Hps.
  destruct (Hps a Ha) as (_ & _ & Haq & Hal).
  destruct (Hps b Hb) as (_ & _ & Hbq & Hbl).
  apply get_relationships_labelled in Hfacts.
  rewrite Forall_forall in Hfacts. destruct (Hfacts _ Hin) as [_ Hp].
  unfold populated. simpl in *.
  rewrite Hs, Hsq, Ho, Hoq. by repeat split.
Qed.
End Run.

(** X4.  Every triplet of a run that returns is filled: the labels and
    the identifiers of its subject and of its object and its predicate
    are not the empty string, and its two degrees are numbers. *)
Theorem extract_relationships_triplets_populated
    (nlp : string → list Entity) (session : Session) (txt : string)
    (out : list DegreeTriplet) :
  EnhancedRelationshipExtractor.extract_relationships nlp session txt = Ok out →
  Forall More.populated out.
Proof.
  intros H.
  apply extract_relationships_cases in H
    as [-> | (ps & rels & Hps & Hrels & ->)]; [constructor|].
  apply process_loop_sublist in Hps as (ps' & Heq & _ & Hres).
  simpl in Heq. subst ps'.
  apply find_relationships_sound in Hrels.
  rewrite _add_in_degree_info_spec. apply Forall_map.
  eapply Forall_impl; [exact Hrels|]. simpl. intros t [Hb Hk].
  by eapply triplet_populated.
Qed.

Lemma extract_relationships_triplets_populated_witness :
  Forall More.populated
    [mkDegreeTriplet
       (mkTriplet "Alan Turing" "Q7251" "country of citizenship" "P27"
                  "United Kingdom" "Q145") (Some 0%nat) (Some 1%nat);
     mkDegreeTriplet
       (mkTriplet "Alan Turing" "Q7251" "country of citizenship" "P27"
                  "United Kingdom" "Q145") (Some 0%nat) (Some 1%nat)].
Proof.
  apply (extract_relationships_triplets_populated
           Examples.turing_nlp Examples.turing_session Examples.turing_text).
  vm_compute. reflexivity.
Defined.

(** X5.  A run that returns gives at most [k * (k - 1)] triplets, where
    [k] is the number of entities extracted from the text: at most one
    triplet for each ordered pair of two of them. *)
Theorem extract_relationships_count
    (nlp : string → list Entity) (session : Session) (txt : string)
    (out : list DegreeTriplet) :
  EnhancedRelationshipExtractor.extract_relationships nlp session txt = Ok out →
  (length out
   ≤ length (SmartEntityExtractor.extract_entities nlp txt)
     * (length (SmartEntityExtractor.extract_entities nlp txt) - 1))%nat.
Proof.
  intros H.
  apply extract_relationships_cases in H
    as [-> | (ps & rels & Hps & Hrels & ->)]; [simpl; lia|].
  apply process_loop_sublist in Hps as (ps' & Heq & Hsub & _).
  simpl in Heq. subst ps'.
  apply sublist_length in Hsub. rewrite length_map in Hsub.
  apply find_relationships_length in Hrels.
  unfold EnhancedRelationshipExtractor._add_in_degree_info.
  rewrite length_map. nia.
Qed.

Lemma extract_relationships_count_witness :
  (length
     [mkDegreeTriplet
        (mkTriplet "Alan Turing" "Q7251" "country of citizenship" "P27"
                   "United Kingdom" "Q145") (Some 0%nat) (Some 1%nat);
      mkDegreeTriplet
        (mkTriplet "Alan Turing" "Q7251" "country of citizenship" "P27"
                   "United Kingdom" "Q145") (Some 0%nat) (Some 1%nat)]
   ≤ length (SmartEntityExtractor.extract_entities
               Examples.turing_nlp Examples.turing_text)
     * (length (SmartEntityExtractor.extract_entities
                  Examples.turing_nlp Examples.turing_text) - 1))%nat.
Proof.
  apply (extract_relationships_count
           Examples.turing_nlp Examples.turing_session Examples.turing_text
           [mkDegreeTriplet
              (mkTriplet "Alan Turing" "Q7251" "country of citizenship" "P27"
                         "United Kingdom" "Q145") (Some 0%nat) (Some 1%nat);
            mkDegreeTriplet
              (mkTriplet "Alan Turing" "Q7251" "country of citizenship" "P27"
                         "United Kingdom" "Q145") (Some 0%nat) (Some 1%nat)]).
  vm_compute. reflexivity.
Defined.

(** ** The two extractors *)

Section Extractors.
Import PyStr SmartEntityExtractor Aux More.

Lemma lstrip_all_space (s : string) : has_nonspace s = false → lstrip s = "".
Proof.
  induction s as [|c s IH]; simpl; [done|].
  destruct (isspace c); simpl; [exact IH | done].
Qed.

Lemma blank_has_nonspace (txt : string) :
  blank txt = negb (has_nonspace txt).
Proof.
  unfold blank. destruct txt as [|c s]; [done|].
  destruct (has_nonspace (String c s)) eqn:Hn.
  - rewrite <- has_nonspace_strip in Hn.
    destruct (strip (String c s)); [discriminate Hn | reflexivity].
  - unfold strip. rewrite (lstrip_all_space _ Hn). reflexivity.
Qed.
End Extractors.

Section AliasCorrections.
Import PyStr SmartEntityExtractor Aux More.

Local Opaque PyStr.contains.

(** What the two alias corrections make of one entity. *)
Lemma fixes_one (x : Entity) :
  ∃ e, _fix_baseball_hall_of_fame (_fix_brooklyn_dodgers [x]) = [e]
       ∧ comes_from x e
       ∧ contains "Brooklyn Dodgers" (text e) = false
       ∧ (label e = "FAC"
          ∨ contains "Baseball Hall of Fame" (text e) = false)
       ∧ (no_alias x → e = x).
Proof.
  assert (Hlad1 : contains "Brooklyn Dodgers" "Los Angeles Dodgers" = false)
    by (vm_compute; reflexivity).
  assert (Hlad2 : contains "Baseball Hall of Fame" "Los Angeles Dodgers" = false)
    by (vm_compute; reflexivity).
  unfold _fix_baseball_hall_of_fame, _fix_brooklyn_dodgers, comes_from, no_alias.
  cbn [map].
  destruct (contains "Brooklyn Dodgers" (text x)) eqn:Hbd; cbn [text].
  - rewrite Hlad2. eexists. split; [reflexivity|]. cbn [text label start end_].
    split; [by auto|]. split; [done|]. split; [by right|].
    intros [Hx _]. congruence.
  - destruct (contains "Baseball Hall of Fame" (text x)) eqn:Hhof.
    + eexists. split; [reflexivity|]. cbn [text label start end_].
      split; [by auto|]. split; [done|]. split; [by left|].
      intros [_ Hx]. congruence.
    + eexists. split; [reflexivity|].
      split; [by auto|]. split; [done|]. split; [by right | done].
Qed.

Lemma fixes_cons_one (x : Entity) (l : list Entity) :
  _fix_baseball_hall_of_fame (_fix_brooklyn_dodgers (x :: l))
  = _fix_baseball_hall_of_fame (_fix_brooklyn_dodgers [x])
    ++ _fix_baseball_hall_of_fame (_fix_brooklyn_dodgers l).
Proof. reflexivity. Qed.

Lemma fixes_elem (l : list Entity) :
  Forall (fun e => ∃ x, x ∈ l ∧ comes_from x e
                        ∧ contains "Brooklyn Dodgers" (text e) = false
                        ∧ (label e = "FAC"
                           ∨ contains "Baseball Hall of Fame" (text e) = false))
         (_fix_baseball_hall_of_fame (_fix_brooklyn_dodgers l)).
Proof.
  induction l as [|x l IH]; [constructor|].
  rewrite fixes_cons_one.
  destruct (fixes_one x) as (e & -> & Hc & Hbd & Hhof & _).
  constructor.
  - exists x. split; [by left | done].
  - eapply Forall_impl; [exact IH|]. cbv beta.
    intros e' (x' & Hx' & H'). exists x'. split; [by right | done].
Qed.

Lemma fixes_id (l : list Entity) :
  Forall no_alias l →
  _fix_baseball_hall_of_fame (_fix_brooklyn_dodgers l) = l.
Proof.
  induction 1 as [|x l Hx Hl IH]; [done|].
  rewrite fixes_cons_one, IH.
  destruct (fixes_one x) as (e & -> & _ & _ & _ & Hid).
  by rewrite (Hid Hx).
Qed.
End AliasCorrections.

Section ExtractorLists.
Import PyStr SmartEntityExtractor Aux More.

Lemma extract_entities_elem (nlp : string → list Entity) (txt : string) :
  Forall (fun e => e ∈ _apply_smart_corrections txt (nlp txt))
         (extract_entities nlp txt).
Proof.
  unfold extract_entities. destruct (blank txt); [constructor|].
  rewrite sort_by_start_Permutation, _remove_duplicates_firsts.
  apply firsts_Forall. by apply Forall_forall.
Qed.

Lemma firsts_all (l : list Entity) (seen : gset string) :
  NoDup (map text_key l) →
  Forall (fun e => text_key e ∉ seen) l →
  firsts seen l = l.
Proof.
  revert seen. induction l as [|x l IH]; intros seen Hnd Hseen; [done|].
  cbn [firsts]. cbn [map] in Hnd.
  apply NoDup_cons in Hnd as [Hx Hnd'].
  apply Forall_cons in Hseen as [Hxs Hseen'].
  rewrite decide_False by done. f_equal. apply IH; [done|].
  apply Forall_forall. intros e He Hin.
  apply elem_of_union in Hin as [Hin|Hin].
  - apply elem_of_singleton in Hin. apply Hx. rewrite <- Hin.
    apply list_elem_of_In, in_map. by apply list_elem_of_In.
  - rewrite Forall_forall in Hseen'. by apply (Hseen' e He).
Qed.

Lemma sort_by_start_sorted_id (l : list Entity) :
  StronglySorted by_start l → sort_by_start l = l.
Proof.
  induction 1 as [|x l Hs IH Hx]; [done|].
  cbn [sort_by_start fold_right]. fold (sort_by_start l). rewrite IH.
  destruct l as [|y l]; [done|]. cbn [insert_by_start].
  apply Forall_cons in Hx as [Hxy _]. unfold by_start in Hxy.
  by rewrite (proj2 (Z.leb_le _ _) Hxy).
Qed.

Lemma firsts_length (l : list Entity) (seen : gset string) :
  (length (firsts seen l) ≤ length l)%nat.
Proof.
  revert seen. induction l as [|x l IH]; intros seen; [done|].
  cbn [firsts]. destruct (decide (text_key x ∈ seen)); cbn [length].
  - pose proof (IH seen). lia.
  - pose proof (IH ({[text_key x]} ∪ seen)). lia.
Qed.

Lemma corrections_length (txt : string) (l : list Entity) :
  (length (_apply_smart_corrections txt l) ≤ S (length l))%nat.
Proof.
  unfold _apply_smart_corrections, _fix_baseball_hall_of_fame,
    _fix_brooklyn_dodgers.
  rewrite !length_map.
  destruct (re_search_casey_stengel txt) as [[s e]|]; cbn [length]; [|lia].
  pose proof (length_filter
                (fun entity => negb (overlapping (Z.of_nat s) (Z.of_nat e) entity))
                l). lia.
Qed.
End ExtractorLists.

(** X6.  For a text without a character that is not white space (the
    empty text among them) both extractors return the empty list,
    whatever the NLP model would find. *)
Theorem extract_entities_blank_text
    (nlp : string → list Entity) (txt : string) :
  Aux.has_nonspace txt = false →
  SmartEntityExtractor.extract_entities nlp txt = []
  ∧ EntityExtractor.extract_entities nlp txt = [].
Proof.
  intros H.
  unfold SmartEntityExtractor.extract_entities, EntityExtractor.extract_entities.
  by rewrite blank_has_nonspace, H.
Qed.

Lemma extract_entities_blank_text_witness :
  SmartEntityExtractor.extract_entities Examples.turing_nlp
    (String " " (String "010" (String "009" ""))) = []
  ∧ EntityExtractor.extract_entities Examples.turing_nlp
      (String " " (String "010" (String "009" ""))) = [].
Proof.
  apply (extract_entities_blank_text Examples.turing_nlp). reflexivity.
Defined.

(** X7.  No entity of the output of the smart extractor has a text in
    which "Brooklyn Dodgers" occurs (such a text has been replaced by
    "Los Angeles Dodgers"), and every entity of the output in whose text
    "Baseball Hall of Fame" occurs has the type FAC. *)
Theorem extract_entities_aliases_applied
    (nlp : string → list Entity) (txt : string) :
  Forall (fun e => PyStr.contains "Brooklyn Dodgers" (text e) = false
                   ∧ (label e = "FAC"
                      ∨ PyStr.contains "Baseball Hall of Fame" (text e) = false))
         (SmartEntityExtractor.extract_entities nlp txt).
Proof.
  eapply Forall_impl; [apply extract_entities_elem|]. cbv beta. intros e He.
  unfold SmartEntityExtractor._apply_smart_corrections in He.
  match type of He with
  | e ∈ SmartEntityExtractor._fix_baseball_hall_of_fame
          (SmartEntityExtractor._fix_brooklyn_dodgers ?l) =>
      pose proof (fixes_elem l) as Hf
  end.
  rewrite Forall_forall in Hf. by destruct (Hf e He) as (x & _ & _ & Hbd & Hh).
Qed.

Section FromModel.
Import PyStr SmartEntityExtractor Aux More.
Local Opaque PyStr.contains.

Lemma fixes_elem_id (l : list Entity) :
  Forall (fun e => ∃ x, x ∈ l ∧ comes_from x e ∧ (no_alias x → e = x))
         (_fix_baseball_hall_of_fame (_fix_brooklyn_dodgers l)).
Proof.
  induction l as [|x l IH]; [constructor|].
  rewrite fixes_cons_one.
  destruct (fixes_one x) as (e & -> & Hc & _ & _ & Hid).
  constructor.
  - exists x. split; [by left | done].
  - eapply Forall_impl; [exact IH|]. cbv beta.
    intros e' (x' & Hx' & H'). exists x'. split; [by right | done].
Qed.

Lemma casey_stengel_no_alias (s e : Z) : no_alias (casey_stengel s e).
Proof. split; vm_compute; reflexivity. Qed.
End FromModel.

(** X8.  When the pattern of the personal name does not occur in the
    text, no entity of the NLP model mentions one of the two aliases, no
    two of them have the same lowercased, trimmed text and they come in
    the order of their start offsets, the smart extractor returns what
    the plain extractor returns: the entities of the model, as they
    are. *)
Theorem smart_extractor_agrees_with_plain
    (nlp : string → list Entity) (txt : string) :
  PyStr.re_search_casey_stengel txt = None →
  Forall More.no_alias (nlp txt) →
  NoDup (map SmartEntityExtractor.text_key (nlp txt)) →
  StronglySorted Aux.by_start (nlp txt) →
  SmartEntityExtractor.extract_entities nlp txt
  = EntityExtractor.extract_entities nlp txt.
Proof.
  intros Hm Ha Hnd Hs.
  unfold SmartEntityExtractor.extract_entities, EntityExtractor.extract_entities.
  destruct (SmartEntityExtractor.blank txt); [done|].
  unfold SmartEntityExtractor._apply_smart_corrections. rewrite Hm.
  rewrite fixes_id by done. rewrite _remove_duplicates_firsts.
  rewrite firsts_all; [by apply sort_by_start_sorted_id | done |].
  apply Forall_forall. intros e _. apply not_elem_of_empty.
Qed.

Lemma smart_extractor_agrees_with_plain_witness :
  SmartEntityExtractor.extract_entities Examples.turing_nlp Examples.turing_text
  = EntityExtractor.extract_entities Examples.turing_nlp Examples.turing_text.
Proof.
  apply (smart_extractor_agrees_with_plain
           Examples.turing_nlp Examples.turing_text).
  - vm_compute. reflexivity.
  - unfold Examples.turing_nlp.
    repeat match goal with
           | |- Forall _ [] => apply Forall_nil_2
           | |- Forall _ (_ :: _) => apply Forall_cons_2
           | |- More.no_alias _ => split; vm_compute; reflexivity
           end.
  - apply (bool_decide_unpack _). vm_compute. exact I.
  - unfold Examples.turing_nlp.
    repeat match goal with
           | |- StronglySorted _ [] => apply SSorted_nil
           | |- StronglySorted _ (_ :: _) => apply SSorted_cons
           | |- Forall _ [] => apply Forall_nil_2
           | |- Forall _ (_ :: _) => apply Forall_cons_2
           | |- Aux.by_start _ _ => unfold Aux.by_start; cbn; lia
           end.
Defined.

(** X9.  The smart extractor makes up no span but the one of the
    personal name: every entity of its output is the corrected name span
    (text "Casey Stengel", type PERSON) or has the offsets of an entity
    of the NLP model, with the text of that entity or the alias and with
    its type or FAC; and the output has at most one entity more than
    the model returned. *)
Theorem extract_entities_from_model
    (nlp : string → list Entity) (txt : string) :
  Forall (fun e => (text e = "Casey Stengel" ∧ label e = "PERSON")
                   ∨ Exists (fun x => More.comes_from x e) (nlp txt))
         (SmartEntityExtractor.extract_entities nlp txt)
  ∧ (length (SmartEntityExtractor.extract_entities nlp txt)
     ≤ S (length (nlp txt)))%nat.
Proof.
  split.
  - eapply Forall_impl; [apply extract_entities_elem|]. cbv beta.
    intros e He.
    unfold SmartEntityExtractor._apply_smart_corrections in He.
    match type of He with
    | e ∈ SmartEntityExtractor._fix_baseball_hall_of_fame
            (SmartEntityExtractor._fix_brooklyn_dodgers ?l) =>
        pose proof (fixes_elem_id l) as Hf
    end.
    rewrite Forall_forall in Hf. destruct (Hf e He) as (x & Hx & Hc & Hid).
    destruct (PyStr.re_search_casey_stengel txt) as [[s e0]|].
    + apply elem_of_cons in Hx as [-> | Hx].
      * left. rewrite (Hid (casey_stengel_no_alias _ _)). by split.
      * right. apply list_elem_of_filter in Hx as [_ Hx].
        apply Exists_exists. by exists x.
    + right. apply Exists_exists. by exists x.
  - unfold SmartEntityExtractor.extract_entities.
    destruct (SmartEntityExtractor.blank txt); [cbn [length]; lia|].
    rewrite sort_by_start_Permutation, _remove_duplicates_firsts.
    pose proof (firsts_length
                  (SmartEntityExtractor._apply_smart_corrections txt (nlp txt))
                  ∅).
    pose proof (corrections_length txt (nlp txt)). lia.
Qed.

(** ** The visualizer *)

Section VisualizerNodes.
Import GraphVisualizer VizAux.

Lemma last_entity_snoc (q : string) (ps : list ProcessedEntity)
    (p : ProcessedEntity) :
  last_entity q (ps ++ [p])
  = if decide (qid p = q) then Some p else last_entity q ps.
Proof.
  unfold last_entity. rewrite filter_app, filter_cons, filter_nil.
  destruct (decide (qid p = q)).
  - by rewrite last_snoc.
  - by rewrite app_nil_r.
Qed.

Lemma node_attrs_union (l t q l' t' q' : string) :
  node_attrs l t q ∪ node_attrs l' t' q' = node_attrs l t q.
Proof.
  apply map_eq. intros k. rewrite lookup_union. unfold node_attrs.
  cbn [list_to_map foldr fst snd uncurry].
  destruct (decide (k = "label")) as [->|].
  { by rewrite !lookup_insert_eq. }
  rewrite !(lookup_insert_ne _ "label") by done.
  destruct (decide (k = "entity_type")) as [->|].
  { by rewrite !lookup_insert_eq. }
  rewrite !(lookup_insert_ne _ "entity_type") by done.
  destruct (decide (k = "qid")) as [->|].
  { by rewrite !lookup_insert_eq. }
  rewrite !(lookup_insert_ne _ "qid") by done.
  by rewrite !lookup_empty.
Qed.

Lemma last_entity_Some (q : string) (ps : list ProcessedEntity) :
  is_Some (last_entity q ps) ↔ q ∈ map qid ps.
Proof.
  induction ps as [|p ps IH] using rev_ind.
  - split; [by intros [? ?] | by intros ?%elem_of_nil].
  - rewrite last_entity_snoc, map_app, elem_of_app. cbn [map].
    rewrite list_elem_of_singleton. destruct (decide (qid p = q)) as [->|Hne].
    + split; [by right | by eexists].
    + rewrite IH. split; [by left | by intros [? | ?]; [|congruence]].
Qed.

Lemma last_entity_elem (q : string) (ps : list ProcessedEntity)
    (p : ProcessedEntity) :
  last_entity q ps = Some p → p ∈ ps ∧ qid p = q.
Proof.
  unfold last_entity. intros H%last_Some_elem_of.
  by apply list_elem_of_filter in H as [? ?].
Qed.

(** The loop of [add_entities], from any visualizer. *)
Lemma add_entities_from (self : Visualizer) (ps : list ProcessedEntity) :
  (∀ q, nx_attrs.nodes (graph (add_entities self ps)) !! q
        = match last_entity q ps with
          | Some p =>
              Some (attrs_of p
                    ∪ default ∅ (nx_attrs.nodes (graph self) !! q))
          | None => nx_attrs.nodes (graph self) !! q
          end)
  ∧ (∀ q, node_colors (add_entities self ps) !! q
          = match last_entity q ps with
            | Some p => Some (colour_of p)
            | None => node_colors self !! q
            end)
  ∧ nx_attrs.edges (graph (add_entities self ps)) = nx_attrs.edges (graph self)
  ∧ edge_colors (add_entities self ps) = edge_colors self.
Proof.
  unfold add_entities.
  induction ps as [|p ps (IHn & IHc & IHe & IHec)] using rev_ind; [done|].
  rewrite fold_left_app. cbn [fold_left].
  set (r := fold_left add_entity ps self) in *.
  split; [|split; [|done]].
  - intros q. rewrite last_entity_snoc.
    cbn [add_entity graph nx_attrs.add_node nx_attrs.nodes].
    destruct (decide (qid p = q)) as [<-|Hne].
    + rewrite lookup_insert_eq. unfold nx_attrs.update.
      rewrite IHn. destruct (last_entity (qid p) ps) as [p'|]; [|done].
      cbn [from_option id]. rewrite (assoc_L (∪)). unfold attrs_of.
      by rewrite node_attrs_union.
    + rewrite lookup_insert_ne by done. apply IHn.
  - intros q. rewrite last_entity_snoc. cbn [add_entity node_colors].
    destruct (decide (qid p = q)) as [<-|Hne].
    + by rewrite lookup_insert_eq.
    + rewrite lookup_insert_ne by done. apply IHc.
Qed.
End VisualizerNodes.

Section VisualizerEdges.
Import GraphVisualizer VizAux Aux.

Lemma last_triplet_snoc (u v : string) (rels : list Triplet) (t : Triplet) :
  last_triplet u v (rels ++ [t])
  = if decide (subject_qid t = u ∧ object_qid t = v) then Some t
    else last_triplet u v rels.
Proof.
  unfold last_triplet. rewrite filter_app, filter_cons, filter_nil.
  destruct (decide (subject_qid t = u ∧ object_qid t = v)).
  - by rewrite last_snoc.
  - by rewrite app_nil_r.
Qed.

Lemma last_triplet_elem (u v : string) (rels : list Triplet) (t : Triplet) :
  last_triplet u v rels = Some t →
  t ∈ rels ∧ subject_qid t = u ∧ object_qid t = v.
Proof.
  unfold last_triplet. intros H%last_Some_elem_of.
  by apply list_elem_of_filter in H as [? ?].
Qed.

Lemma last_triplet_Some (u v : string) (rels : list Triplet) :
  is_Some (last_triplet u v rels) ↔ (u, v) ∈ map ends rels.
Proof.
  induction rels as [|t rels IH] using rev_ind.
  - split; [by intros [? ?] | by intros ?%elem_of_nil].
  - rewrite last_triplet_snoc, map_app, elem_of_app. cbn [map].
    rewrite list_elem_of_singleton.
    destruct (decide (subject_qid t = u ∧ object_qid t = v)) as [[<- <-]|Hne].
    + split; [by right | by eexists].
    + rewrite IH. split; [by left|]. intros [? | [= -> ->]]; [done|].
      by destruct Hne.
Qed.

Lemma edge_attrs_union (p i p' i' : string) :
  edge_attrs p i ∪ edge_attrs p' i' = edge_attrs p i.
Proof.
  apply map_eq. intros k. rewrite lookup_union. unfold edge_attrs.
  cbn [list_to_map foldr fst snd uncurry].
  destruct (decide (k = "predicate")) as [->|].
  { by rewrite !lookup_insert_eq. }
  rewrite !(lookup_insert_ne _ "predicate") by done.
  destruct (decide (k = "predicate_pid")) as [->|].
  { by rewrite !lookup_insert_eq. }
  rewrite !(lookup_insert_ne _ "predicate_pid") by done.
  destruct (decide (k = "label")) as [->|].
  { by rewrite !lookup_insert_eq. }
  rewrite !(lookup_insert_ne _ "label") by done.
  by rewrite !lookup_empty.
Qed.

(** The nodes of a graph after [add_edge]. *)
Lemma add_edge_nodes (u v : string) (attr : gmap string string)
    (g : nx_attrs.DiGraph) (q : string) :
  nx_attrs.nodes (nx_attrs.add_edge u v attr g) !! q
  = match nx_attrs.nodes g !! q with
    | Some a => Some a
    | None => if decide (q = u ∨ q = v) then Some ∅ else None
    end.
Proof.
  unfold nx_attrs.add_edge.
  destruct (nx_attrs.nodes g !! u) as [au|] eqn:Hu; cbn [nx_attrs.nodes].
  - destruct (nx_attrs.nodes g !! v) as [av|] eqn:Hv; cbn [nx_attrs.nodes].
    + destruct (nx_attrs.nodes g !! q) eqn:Hq; [done|].
      case_decide as Hd; [|done]. destruct Hd; congruence.
    + destruct (decide (q = v)) as [->|Hqv].
      * rewrite lookup_insert_eq, Hv. by rewrite decide_True by auto.
      * rewrite lookup_insert_ne by done.
        destruct (nx_attrs.nodes g !! q) eqn:Hq; [done|].
        case_decide as Hd; [|done]. destruct Hd; congruence.
  - destruct (decide (v = u)) as [->|Hvu].
    + rewrite lookup_insert_eq. cbn [nx_attrs.nodes].
      destruct (decide (q = u)) as [->|Hqu].
      * rewrite lookup_insert_eq, Hu. by rewrite decide_True by auto.
      * rewrite lookup_insert_ne by done.
        destruct (nx_attrs.nodes g !! q) eqn:Hq; [done|].
        case_decide as Hd; [|done]. destruct Hd; congruence.
    + rewrite lookup_insert_ne by done.
      destruct (nx_attrs.nodes g !! v) as [av|] eqn:Hv; cbn [nx_attrs.nodes].
      * destruct (decide (q = u)) as [->|Hqu].
        -- rewrite lookup_insert_eq, Hu. by rewrite decide_True by auto.
        -- rewrite lookup_insert_ne by done.
           destruct (nx_attrs.nodes g !! q) eqn:Hq; [done|].
           case_decide as Hd; [|done]. destruct Hd; congruence.
      * destruct (decide (q = v)) as [->|Hqv].
        -- rewrite lookup_insert_eq, Hv. by rewrite decide_True by auto.
        -- rewrite lookup_insert_ne by done.
           destruct (decide (q = u)) as [->|Hqu].
           ++ rewrite lookup_insert_eq, Hu. by rewrite decide_True by auto.
           ++ rewrite lookup_insert_ne by done.
              destruct (nx_attrs.nodes g !! q) eqn:Hq; [done|].
              case_decide as Hd; [|done]. destruct Hd; congruence.
Qed.

(** The edges of a graph after [add_edge]. *)
Lemma add_edge_edges (u v : string) (attr : gmap string string)
    (g : nx_attrs.DiGraph) :
  nx_attrs.edges (nx_attrs.add_edge u v attr g)
  = <[(u, v) := attr ∪ default ∅ (nx_attrs.edges g !! (u, v))]>
      (nx_attrs.edges g).
Proof.
  unfold nx_attrs.add_edge, nx_attrs.update.
  by destruct (nx_attrs.nodes g !! u), (nx_attrs.nodes g !! v);
    cbn [nx_attrs.nodes nx_attrs.edges];
    repeat match goal with
           | |- context [match ?x with Some _ => _ | None => _ end] =>
               destruct x
           end.
Qed.
(** The loop of [add_relationships], from any visualizer. *)
Lemma add_relationships_from (self : Visualizer) (rels : list Triplet) :
  (∀ q, nx_attrs.nodes (graph (add_relationships self rels)) !! q
        = match nx_attrs.nodes (graph self) !! q with
          | Some a => Some a
          | None => if decide (q ∈ endpoints rels) then Some ∅ else None
          end)
  ∧ (∀ u v, nx_attrs.edges (graph (add_relationships self rels)) !! (u, v)
            = match last_triplet u v rels with
              | Some t =>
                  Some (edge_attrs (triplet_predicate t)
                                   (triplet_predicate_pid t)
                        ∪ default ∅ (nx_attrs.edges (graph self) !! (u, v)))
              | None => nx_attrs.edges (graph self) !! (u, v)
              end)
  ∧ node_colors (add_relationships self rels) = node_colors self
  ∧ (∀ u v, edge_colors (add_relationships self rels) !! (u, v)
            = match last_triplet u v rels with
              | Some _ => Some "#333333"
              | None => edge_colors self !! (u, v)
              end).
Proof.
  unfold add_relationships.
  induction rels as [|t rels (IHn & IHe & IHc & IHec)] using rev_ind.
  { split; [|done]. intros q. cbn [fold_left].
    destruct (nx_attrs.nodes (graph self) !! q); [done|].
    rewrite decide_False; [done|]. unfold endpoints. set_solver. }
  rewrite fold_left_app. cbn [fold_left].
  set (r := fold_left add_relationship rels self) in *.
  split; [|split; [|split; [done|]]].
  - intros q. cbn [add_relationship graph]. rewrite add_edge_nodes, IHn.
    destruct (nx_attrs.nodes (graph self) !! q); [done|].
    rewrite endpoints_snoc.
    destruct (decide (q ∈ endpoints rels)) as [Hin|Hin].
    + rewrite decide_True; [done|]. set_solver.
    + destruct (decide (q = subject_qid t ∨ q = object_qid t)) as [Hd|Hd].
      * rewrite decide_True; [done|]. set_solver.
      * rewrite decide_False; [done|]. set_solver.
  - intros u v. rewrite last_triplet_snoc.
    cbn [add_relationship graph]. rewrite add_edge_edges.
    destruct (decide (subject_qid t = u ∧ object_qid t = v)) as [[<- <-]|Hne].
    + rewrite lookup_insert_eq, IHe.
      destruct (last_triplet (subject_qid t) (object_qid t) rels) as [t'|];
        [|done].
      cbn [from_option id]. rewrite (assoc_L (∪)).
      by rewrite edge_attrs_union.
    + rewrite lookup_insert_ne; [apply IHe|].
      intros [= Hu Hv]. by destruct Hne.
  - intros u v. rewrite last_triplet_snoc. cbn [add_relationship edge_colors].
    destruct (decide (subject_qid t = u ∧ object_qid t = v)) as [[<- <-]|Hne].
    + by rewrite lookup_insert_eq.
    + rewrite lookup_insert_ne; [apply IHec|].
      intros [= Hu Hv]. by destruct Hne.
Qed.
End VisualizerEdges.

Section VisualizerLabels.
Import GraphVisualizer VizAux Aux.

(** The comprehension over a view: the labels, when every dict of the
    view has one, and a [KeyError] otherwise. *)
Lemma labels_of_spec {K : Type} `{Countable K}
    (view : gmap K (gmap string string)) :
  (map_Forall (fun _ data => is_Some (data !! "label")) view →
   labels_of view = Ok (omap (fun data => data !! "label") view))
  ∧ (¬ map_Forall (fun _ data => is_Some (data !! "label")) view →
     labels_of view = Raise KeyError).
Proof.
  unfold labels_of.
  apply (map_fold_weak_ind
           (fun r m =>
              (map_Forall (fun _ data => is_Some (data !! "label")) m →
               r = Ok (omap (fun data => data !! "label") m))
              ∧ (¬ map_Forall (fun _ data => is_Some (data !! "label")) m →
                 r = Raise KeyError))).
  { split; [by rewrite omap_empty|]. intros []. apply map_Forall_empty. }
  intros i x m r Hi [IHok IHno]. rewrite map_Forall_insert by done.
  destruct (decide (map_Forall (fun _ data => is_Some (data !! "label")) m))
    as [Hm|Hm].
  - rewrite (IHok Hm). cbn. destruct (x !! "label") as [l|] eqn:Hx.
    + split; [|by intros []]. intros _. by rewrite (omap_insert_Some _ _ _ _ l).
    + split; [|done]. by intros [[? ?] _].
  - rewrite (IHno Hm). cbn. split; [by intros [_ ?]|done].
Qed.

Lemma node_attrs_label (l t q : string) : node_attrs l t q !! "label" = Some l.
Proof. unfold node_attrs. cbn [list_to_map foldr fst snd uncurry]. by rewrite lookup_insert_eq. Qed.

Lemma edge_attrs_label (p i : string) : edge_attrs p i !! "label" = Some p.
Proof.
  unfold edge_attrs. cbn [list_to_map foldr fst snd uncurry].
  by rewrite !lookup_insert_ne, lookup_insert_eq by done.
Qed.

(** The graph that [clear], [add_entities] and [add_relationships]
    build. *)
Lemma built_graph (self : Visualizer) (ps : list ProcessedEntity)
    (rels : list Triplet) :
  let viz := built self ps rels in
  (∀ q, nx_attrs.nodes (graph viz) !! q
        = match last_entity q ps with
          | Some p => Some (attrs_of p)
          | None => if decide (q ∈ endpoints rels) then Some ∅ else None
          end)
  ∧ (∀ u v, nx_attrs.edges (graph viz) !! (u, v)
            = edge_attrs_of <$> last_triplet u v rels)
  ∧ (∀ q, node_colors viz !! q = colour_of <$> last_entity q ps)
  ∧ (∀ u v, edge_colors viz !! (u, v)
            = (fun _ => "#333333") <$> last_triplet u v rels).
Proof.
  cbv zeta. unfold built.
  destruct (add_relationships_from (add_entities (clear self) ps) rels)
    as (Hn & He & Hc & Hec).
  destruct (add_entities_from (clear self) ps) as (Hn' & Hc' & He' & Hec').
  split; [|split; [|split]].
  - intros q. rewrite Hn, Hn'. cbn [clear graph nx_attrs.clear nx_attrs.empty nx_attrs.nodes].
    rewrite lookup_empty. cbn [from_option id].
    destruct (last_entity q ps); [|done]. by rewrite (right_id_L ∅ (∪)).
  - intros u v. rewrite He, He'. cbn [clear graph nx_attrs.clear nx_attrs.empty nx_attrs.edges].
    rewrite lookup_empty. cbn [from_option id].
    destruct (last_triplet u v rels); [|done]. cbn. by rewrite (right_id_L ∅ (∪)).
  - intros q. rewrite Hc, Hc'. cbn [clear node_colors].
    rewrite lookup_empty. by destruct (last_entity q ps).
  - intros u v. rewrite Hec, Hec'. cbn [clear edge_colors].
    rewrite lookup_empty. by destruct (last_triplet u v rels).
Qed.
End VisualizerLabels.

Section VisualizerCounts.
Import GraphVisualizer VizAux Aux.

Lemma size_list_to_set_distinct {A : Type} `{Countable A} (l : list A) :
  size (list_to_set l : gset A) = length (remove_dups l).
Proof.
  rewrite <- (size_list_to_set (C:=gset A) (remove_dups l))
    by apply NoDup_remove_dups.
  f_equal. apply set_eq. intros x.
  by rewrite !elem_of_list_to_set, elem_of_remove_dups.
Qed.

Lemma built_nodes_dom (self : Visualizer) (ps : list ProcessedEntity)
    (rels : list Triplet) :
  dom (nx_attrs.nodes (graph (built self ps rels)))
  = (list_to_set (map qid ps) ∪ endpoints rels : gset string).
Proof.
  destruct (built_graph self ps rels) as (Hn & _).
  apply set_eq. intros q.
  rewrite elem_of_dom, Hn, elem_of_union, elem_of_list_to_set.
  rewrite <- last_entity_Some.
  destruct (last_entity q ps) as [p|].
  - split; [by left; eexists | by eexists].
  - case_decide as Hq.
    + split; [by right | by eexists].
    + split; [by intros [? ?] | by intros [[? ?] | ?]].
Qed.

Lemma built_edges_dom (self : Visualizer) (ps : list ProcessedEntity)
    (rels : list Triplet) :
  dom (nx_attrs.edges (graph (built self ps rels)))
  = (list_to_set (map ends rels) : gset (string * string)).
Proof.
  destruct (built_graph self ps rels) as (_ & He & _).
  apply set_eq. intros [u v].
  rewrite elem_of_dom, He, elem_of_list_to_set, <- last_triplet_Some.
  by rewrite fmap_is_Some.
Qed.
End VisualizerCounts.

(** X10.  After [clear], [add_entities] and [add_relationships] the
    graph has one node for every identifier of an entity or of an end
    of a triplet and one edge for every pair (subject, object) of
    identifiers, however often the pair occurs.  A node has the
    attributes of the last entity with its identifier, or none when no
    entity has it; an edge has the predicate of the last triplet
    between its ends. *)
Theorem get_graph_info_counts_distinct
    (self : GraphVisualizer.Visualizer) (ps : list ProcessedEntity)
    (rels : list Triplet) :
  let info := GraphVisualizer.get_graph_info (VizAux.built self ps rels) in
  GraphVisualizer.num_nodes info
  = size (list_to_set (map qid ps) ∪ Aux.endpoints rels : gset string)
  ∧ GraphVisualizer.num_edges info
    = length (remove_dups (map VizAux.ends rels))
  ∧ (∀ q, GraphVisualizer.info_nodes info !! q
          = match VizAux.last_entity q ps with
            | Some p => Some (VizAux.attrs_of p)
            | None => if decide (q ∈ Aux.endpoints rels) then Some ∅ else None
            end)
  ∧ (∀ u v, GraphVisualizer.info_edges info !! (u, v)
            = VizAux.edge_attrs_of <$> VizAux.last_triplet u v rels).
Proof.
  cbv zeta.
  unfold GraphVisualizer.get_graph_info.
  cbn [GraphVisualizer.num_nodes GraphVisualizer.num_edges
       GraphVisualizer.info_nodes GraphVisualizer.info_edges].
  unfold nx_attrs.number_of_nodes, nx_attrs.number_of_edges.
  destruct (built_graph self ps rels) as (Hn & He & _).
  split; [|split; [|split; [exact Hn | exact He]]].
  - by rewrite <- (size_dom (D:=gset string)), built_nodes_dom.
  - rewrite <- (size_dom (D:=gset (string * string))), built_edges_dom.
    apply size_list_to_set_distinct.
Qed.

Section VisualizerDrawing.
Import GraphVisualizer VizAux Aux.

Lemma elem_of_endpoints (q : string) (rels : list Triplet) :
  q ∈ endpoints rels ↔ ∃ t, t ∈ rels ∧ (q = subject_qid t ∨ q = object_qid t).
Proof.
  unfold endpoints. rewrite elem_of_union, !elem_of_list_to_set, !list_elem_of_fmap.
  split.
  - intros [(t & -> & Ht) | (t & -> & Ht)]; exists t; auto.
  - intros (t & Ht & [-> | ->]); [left | right]; by exists t.
Qed.

Lemma built_nodes_labelled (self : Visualizer) (ps : list ProcessedEntity)
    (rels : list Triplet) :
  map_Forall (fun _ data => is_Some (data !! "label"))
             (nx_attrs.nodes (graph (built self ps rels)))
  ↔ Forall (known ps) rels.
Proof.
  destruct (built_graph self ps rels) as (Hn & _).
  rewrite map_Forall_lookup, Forall_forall. split.
  - intros Hall t Ht.
    assert (∀ q, q ∈ endpoints rels → q ∈ map qid ps) as Hq.
    { intros q Hq. apply last_entity_Some.
      destruct (last_entity q ps) as [p|] eqn:Hl; [by eexists|].
      specialize (Hall q ∅). rewrite Hn, Hl, decide_True in Hall by done.
      destruct (Hall eq_refl) as [? Hx]. by rewrite lookup_empty in Hx. }
    split; apply Hq, elem_of_endpoints; exists t; auto.
  - intros Hall q d. rewrite Hn.
    destruct (last_entity q ps) as [p|] eqn:Hl.
    + intros [= <-]. unfold attrs_of. by rewrite node_attrs_label.
    + case_decide as Hq; [|done]. intros _.
      apply elem_of_endpoints in Hq as (t & Ht & Hq).
      destruct (Hall t Ht) as [Hs Ho].
      assert (q ∈ map qid ps) as Hin by (by destruct Hq as [-> | ->]).
      apply last_entity_Some in Hin as [? Hin]. congruence.
Qed.

Lemma built_edges_labelled (self : Visualizer) (ps : list ProcessedEntity)
    (rels : list Triplet) :
  map_Forall (fun _ data => is_Some (data !! "label"))
             (nx_attrs.edges (graph (built self ps rels))).
Proof.
  destruct (built_graph self ps rels) as (_ & He & _).
  apply map_Forall_lookup. intros [u v] d. rewrite He.
  destruct (last_triplet u v rels) as [t|]; [|done].
  intros [= <-]. unfold edge_attrs_of. by rewrite edge_attrs_label.
Qed.

Lemma built_no_nodes (self : Visualizer) (ps : list ProcessedEntity)
    (rels : list Triplet) :
  nx_attrs.number_of_nodes (graph (built self ps rels)) = 0%nat
  ↔ ps = [] ∧ rels = [].
Proof.
  unfold nx_attrs.number_of_nodes.
  rewrite <- (size_dom (D:=gset string)), built_nodes_dom, size_empty_iff.
  split.
  - intros Hempty. split.
    + destruct ps as [|p ps]; [done|]. exfalso.
      apply (not_elem_of_empty (C:=gset string) (qid p)).
      apply Hempty. cbn [map]. set_solver.
    + destruct rels as [|t rels]; [done|]. exfalso.
      apply (not_elem_of_empty (C:=gset string) (subject_qid t)).
      apply Hempty. unfold endpoints. cbn [map]. set_solver.
  - intros [-> ->]. unfold endpoints. cbn [map]. set_solver.
Qed.

(** The three outcomes of [visualize] on the graph that [clear],
    [add_entities] and [add_relationships] build. *)
Lemma visualize_built (self : Visualizer) (ps : list ProcessedEntity)
    (rels : list Triplet) (title : string) :
  (ps = [] ∧ rels = [] → visualize (built self ps rels) title = Ok None)
  ∧ (¬ Forall (known ps) rels →
     visualize (built self ps rels) title = Raise KeyError)
  ∧ (¬ (ps = [] ∧ rels = []) → Forall (known ps) rels →
     ∃ d, visualize (built self ps rels) title = Ok (Some d)
          ∧ (∀ q, node_labels d !! q = wikidata_label <$> last_entity q ps)
          ∧ (∀ q, node_colors_list d !! q = colour_of <$> last_entity q ps)
          ∧ (∀ u v, edge_labels d !! (u, v)
                    = triplet_predicate <$> last_triplet u v rels)
          ∧ (∀ u v, edge_colors_list d !! (u, v)
                    = (fun _ => "#333333") <$> last_triplet u v rels)
          ∧ drawing_title d = title).
Proof.
  pose proof (built_no_nodes self ps rels) as H0.
  pose proof (built_nodes_labelled self ps rels) as Hl.
  pose proof (built_edges_labelled self ps rels) as Hel.
  destruct (built_graph self ps rels) as (Hn & He & Hc & Hec).
  unfold visualize.
  split; [|split].
  - intros Hnil. apply H0 in Hnil. by rewrite Hnil.
  - intros Hbad.
    destruct (Nat.eqb_spec
                (nx_attrs.number_of_nodes (graph (built self ps rels))) 0)
      as [Hz|Hz].
    { apply H0 in Hz as [-> ->]. destruct Hbad. constructor. }
    rewrite <- Hl in Hbad.
    by rewrite (proj2 (labels_of_spec _) Hbad).
  - intros Hsome Hgood.
    destruct (Nat.eqb_spec
                (nx_attrs.number_of_nodes (graph (built self ps rels))) 0)
      as [Hz|Hz].
    { by apply H0 in Hz. }
    rewrite (proj1 (labels_of_spec _) (proj2 Hl Hgood)).
    rewrite (proj1 (labels_of_spec _) Hel).
    eexists. split; [reflexivity|].
    cbn [node_labels node_colors_list edge_labels edge_colors_list
         drawing_title].
    split; [|split; [|split; [|split; [|done]]]].
    + intros q. rewrite lookup_omap, Hn.
      destruct (last_entity q ps) as [p|]; cbn [mbind option_bind fmap option_fmap option_map].
      * unfold attrs_of. by rewrite node_attrs_label.
      * case_decide; [|done]. cbn [mbind option_bind]. by rewrite lookup_empty.
    + intros q. rewrite map_lookup_imap, Hn, Hc.
      destruct (last_entity q ps) as [p|] eqn:Hq; cbn [mbind option_bind fmap option_fmap option_map from_option id]; [done|].
      case_decide as Hin; [|done]. exfalso.
      apply elem_of_endpoints in Hin as (t & Ht & Hin).
      rewrite Forall_forall in Hgood. destruct (Hgood t Ht) as [Hs Ho].
      assert (q ∈ map qid ps) as Hq' by (by destruct Hin as [-> | ->]).
      apply last_entity_Some in Hq' as [? Hq']. congruence.
    + intros u v. rewrite lookup_omap, He.
      destruct (last_triplet u v rels) as [t|]; cbn [mbind option_bind fmap option_fmap option_map]; [|done].
      unfold edge_attrs_of. by rewrite edge_attrs_label.
    + intros u v. rewrite map_lookup_imap, He, Hec.
      by destruct (last_triplet u v rels) as [t|].
Qed.
End VisualizerDrawing.

(** X11.  On the graph that [clear], [add_entities] and
    [add_relationships] build, [visualize] raises a [KeyError] exactly
    when a triplet has a subject or an object whose identifier is not
    the identifier of one of the entities: the node of such an end has
    no label. *)
Theorem visualize_KeyError_iff_unknown_end
    (self : GraphVisualizer.Visualizer) (ps : list ProcessedEntity)
    (rels : list Triplet) (title : string) :
  GraphVisualizer.visualize (VizAux.built self ps rels) title = Raise KeyError
  ↔ ∃ t, t ∈ rels ∧ ¬ VizAux.known ps t.
Proof.
  destruct (visualize_built self ps rels title) as (Hnone & Hbad & Hgood).
  assert (Decision (Forall (VizAux.known ps) rels)) as [Hall|Hall].
  { apply Forall_dec. intros t. unfold VizAux.known. apply _. }
  - split.
    + intros Hraise. exfalso.
      destruct rels as [|t rels], ps as [|p ps].
      * by rewrite Hnone in Hraise.
      * destruct Hgood as (d & Hd & _); [by intros [? _] | done |].
        by rewrite Hd in Hraise.
      * destruct Hgood as (d & Hd & _); [by intros [_ ?] | done |].
        by rewrite Hd in Hraise.
      * destruct Hgood as (d & Hd & _); [by intros [? _] | done |].
        by rewrite Hd in Hraise.
    + intros (t & Ht & Hk). rewrite Forall_forall in Hall.
      by destruct Hk; apply Hall.
  - split; [|by intros _; apply Hbad].
    intros _. apply not_Forall_Exists in Hall.
    + apply Exists_exists in Hall as (t & Ht & Hk). by exists t.
    + intros t. unfold VizAux.known. apply _.
Qed.

(** X12.  When there is an entity and the subject and the object of
    every triplet are identifiers of entities, [visualize] draws the
    graph that [clear], [add_entities] and [add_relationships] build:
    one node for every identifier, with the Wikidata label and the
    colour of the type of the last entity that has the identifier (gray
    for a type without a colour), and one edge for every pair of
    identifiers with a triplet, labelled with the predicate of the last
    such triplet. *)
Theorem visualize_draws_last_labels
    (self : GraphVisualizer.Visualizer) (ps : list ProcessedEntity)
    (rels : list Triplet) (title : string) :
  ps ≠ [] →
  Forall (VizAux.known ps) rels →
  ∃ d, GraphVisualizer.visualize (VizAux.built self ps rels) title
       = Ok (Some d)
       ∧ (∀ q, GraphVisualizer.node_labels d !! q
               = wikidata_label <$> VizAux.last_entity q ps)
       ∧ (∀ q, GraphVisualizer.node_colors_list d !! q
               = VizAux.colour_of <$> VizAux.last_entity q ps)
       ∧ (∀ u v, GraphVisualizer.edge_labels d !! (u, v)
                 = triplet_predicate <$> VizAux.last_triplet u v rels)
       ∧ GraphVisualizer.drawing_title d = title.
Proof.
  intros Hps Hknown.
  destruct (visualize_built self ps rels title) as (_ & _ & Hgood).
  destruct Hgood as (d & Hd & Hl & Hc & Hel & _ & Ht);
    [by intros [? _] | done |].
  by exists d.
Qed.

Lemma visualize_draws_last_labels_witness :
  ∃ d, GraphVisualizer.visualize
         (VizAux.built GraphVisualizer.__init__ Examples.turing_processed
            [mkTriplet "Alan Turing" "Q7251" "country of citizenship" "P27"
                       "United Kingdom" "Q145"])
         "Turing"
       = Ok (Some d)
       ∧ (∀ q, GraphVisualizer.node_labels d !! q
               = wikidata_label <$> VizAux.last_entity q Examples.turing_processed)
       ∧ (∀ q, GraphVisualizer.node_colors_list d !! q
               = VizAux.colour_of
                   <$> VizAux.last_entity q Examples.turing_processed)
       ∧ (∀ u v, GraphVisualizer.edge_labels d !! (u, v)
                 = triplet_predicate
                     <$> VizAux.last_triplet u v
                           [mkTriplet "Alan Turing" "Q7251"
                                      "country of citizenship" "P27"
                                      "United Kingdom" "Q145"])
       ∧ GraphVisualizer.drawing_title d = "Turing".
Proof.
  apply (visualize_draws_last_labels GraphVisualizer.__init__
           Examples.turing_processed).
  - discriminate.
  - repeat constructor; apply list_elem_of_In; cbn; tauto.
Defined.

Section CreateVisualization.
Import WikidataClient EnhancedRelationshipExtractor GraphVisualizer.
Import VizAux Aux More Visualization.

Lemma between_known (ps : list ProcessedEntity) (t : Triplet) :
  between ps t → known ps t.
Proof.
  intros (a & b & Ha & Hb & _ & Hsq & _ & Hoq). unfold known.
  rewrite Hsq, Hoq. split; apply list_elem_of_fmap; eauto.
Qed.

Lemma triplet_add_in_degree_info (rels : list Triplet)
    (ps : list ProcessedEntity) :
  map triplet (_add_in_degree_info rels ps) = rels.
Proof.
  unfold _add_in_degree_info. rewrite map_map. cbn [triplet]. apply map_id.
Qed.

(** The triplets of a run are between entities that [process_entities]
    returns for the entities of the text. *)
Lemma extract_relationships_known
    (nlp : string → list Entity) (session : Session) (txt : string)
    (ps : list ProcessedEntity) (out : list DegreeTriplet) :
  process_entities session (SmartEntityExtractor.extract_entities nlp txt)
  = Ok ps →
  extract_relationships nlp session txt = Ok out →
  Forall (known ps) (map triplet out).
Proof.
  intros Hps Hout.
  apply extract_relationships_cases in Hout
    as [-> | (ps' & rels & Hps' & Hrels & ->)]; [constructor|].
  rewrite Hps in Hps'. injection Hps' as <-.
  rewrite triplet_add_in_degree_info.
  apply find_relationships_sound in Hrels.
  eapply Forall_impl; [exact Hrels|]. cbv beta.
  intros t [Hb _]. by apply between_known.
Qed.
End CreateVisualization.

(** X13.  [create_visualization] resolves the entities twice.  When
    the two calls return, it does one of three things.  With no entity
    resolved in the first pass it leaves the visualizer as it is and
    draws nothing.  Otherwise it raises a [KeyError] when a triplet of
    the second pass has a subject or an object whose identifier no
    entity of the first pass has; and else it draws, whatever the
    visualizer held before, one node for every identifier of a
    resolved entity, with the Wikidata label of the last entity that
    has it, and one edge for every pair of identifiers with a triplet,
    with the predicate of the last such triplet.  When the knowledge
    base answers the two passes alike, no triplet has such an end. *)
Theorem create_visualization_draws
    (nlp : string → list Entity) (first_pass second_pass : Session)
    (viz : GraphVisualizer.Visualizer) (txt : string)
    (ps : list ProcessedEntity) (out : list DegreeTriplet) :
  WikidataClient.process_entities first_pass
    (SmartEntityExtractor.extract_entities nlp txt) = Ok ps →
  EnhancedRelationshipExtractor.extract_relationships nlp second_pass txt
  = Ok out →
  ((ps = []
    ∧ Visualization.create_visualization nlp first_pass second_pass viz txt
      = Ok (viz, None))
   ∨ (ps ≠ []
      ∧ (∃ t, t ∈ map triplet out ∧ ¬ VizAux.known ps t)
      ∧ Visualization.create_visualization nlp first_pass second_pass viz txt
        = Raise KeyError)
   ∨ (ps ≠ []
      ∧ Forall (VizAux.known ps) (map triplet out)
      ∧ ∃ d, Visualization.create_visualization
               nlp first_pass second_pass viz txt
             = Ok (VizAux.built viz ps (map triplet out), Some d)
             ∧ (∀ q, GraphVisualizer.node_labels d !! q
                     = wikidata_label <$> VizAux.last_entity q ps)
             ∧ (∀ u v, GraphVisualizer.edge_labels d !! (u, v)
                       = triplet_predicate
                           <$> VizAux.last_triplet u v (map triplet out))
             ∧ GraphVisualizer.drawing_title d = Visualization.title txt))
  ∧ ((∀ params, first_pass params = second_pass params) →
     Forall (VizAux.known ps) (map triplet out)).
Proof.
  intros Hps Hout. split.
  - unfold Visualization.create_visualization. rewrite Hps, Hout.
    cbn [mbind res_bind].
    destruct ps as [|p ps]; [by left|]. right.
    destruct (visualize_built viz (p :: ps) (map triplet out)
                (Visualization.title txt)) as (_ & Hbad & Hgood).
    assert (Decision (Forall (VizAux.known (p :: ps)) (map triplet out)))
      as [Hall|Hall].
    { apply Forall_dec. intros t. unfold VizAux.known. apply _. }
    + right. split; [done|]. split; [done|].
      destruct Hgood as (d & Hd & Hl & _ & Hel & _ & Ht);
        [by intros [? _] | done |].
      exists d. unfold VizAux.built in Hd |- *. rewrite Hd.
      by cbn [mbind res_bind].
    + left. split; [done|]. split.
      * apply not_Forall_Exists in Hall.
        -- apply Exists_exists in Hall as (t & Ht & Hk). by exists t.
        -- intros t. unfold VizAux.known. apply _.
      * unfold VizAux.built in Hbad. by rewrite (Hbad Hall).
  - intros Hsame.
    rewrite (process_entities_ext first_pass second_pass Hsame) in Hps.
    by eapply extract_relationships_known.
Qed.

(** The search for "UK" times out in the first pass only: the node of
    Q145 has no label. *)
Lemma create_visualization_draws_witness :
  (([mkProcessed (mkEntity "Alan Turing" "PERSON" 0 11) "Q7251" "Alan Turing";
     mkProcessed (mkEntity "Turing" "PERSON" 25 31) "Q7251" "Alan Turing"]
    = []
    ∧ Visualization.create_visualization Examples.turing_nlp
        Visualization.uk_timeout_session Examples.turing_session
        GraphVisualizer.__init__ Examples.turing_text
      = Ok (GraphVisualizer.__init__, None))
   ∨ ([mkProcessed (mkEntity "Alan Turing" "PERSON" 0 11) "Q7251" "Alan Turing";
       mkProcessed (mkEntity "Turing" "PERSON" 25 31) "Q7251" "Alan Turing"]
      ≠ []
      ∧ (∃ t, t ∈ map triplet
                    [mkDegreeTriplet
                       (mkTriplet "Alan Turing" "Q7251"
                                  "country of citizenship" "P27"
                                  "United Kingdom" "Q145")
                       (Some 0%nat) (Some 1%nat);
                     mkDegreeTriplet
                       (mkTriplet "Alan Turing" "Q7251"
                                  "country of citizenship" "P27"
                                  "United Kingdom" "Q145")
                       (Some 0%nat) (Some 1%nat)]
              ∧ ¬ VizAux.known
                    [mkProcessed (mkEntity "Alan Turing" "PERSON" 0 11)
                                 "Q7251" "Alan Turing";
                     mkProcessed (mkEntity "Turing" "PERSON" 25 31)
                                 "Q7251" "Alan Turing"] t)
      ∧ Visualization.create_visualization Examples.turing_nlp
          Visualization.uk_timeout_session Examples.turing_session
          GraphVisualizer.__init__ Examples.turing_text
        = Raise KeyError)
   ∨ ([mkProcessed (mkEntity "Alan Turing" "PERSON" 0 11) "Q7251" "Alan Turing";
       mkProcessed (mkEntity "Turing" "PERSON" 25 31) "Q7251" "Alan Turing"]
      ≠ []
      ∧ Forall (VizAux.known
                  [mkProcessed (mkEntity "Alan Turing" "PERSON" 0 11)
                               "Q7251" "Alan Turing";
                   mkProcessed (mkEntity "Turing" "PERSON" 25 31)
                               "Q7251" "Alan Turing"])
               (map triplet
                  [mkDegreeTriplet
                     (mkTriplet "Alan Turing" "Q7251"
                                "country of citizenship" "P27"
                                "United Kingdom" "Q145")
                     (Some 0%nat) (Some 1%nat);
                   mkDegreeTriplet
                     (mkTriplet "Alan Turing" "Q7251"
                                "country of citizenship" "P27"
                                "United Kingdom" "Q145")
                     (Some 0%nat) (Some 1%nat)])
      ∧ ∃ d, Visualization.create_visualization Examples.turing_nlp
               Visualization.uk_timeout_session Examples.turing_session
               GraphVisualizer.__init__ Examples.turing_text
             = Ok (VizAux.built GraphVisualizer.__init__
                     [mkProcessed (mkEntity "Alan Turing" "PERSON" 0 11)
                                  "Q7251" "Alan Turing";
                      mkProcessed (mkEntity "Turing" "PERSON" 25 31)
                                  "Q7251" "Alan Turing"]
                     (map triplet
                        [mkDegreeTriplet
                           (mkTriplet "Alan Turing" "Q7251"
                                      "country of citizenship" "P27"
                                      "United Kingdom" "Q145")
                           (Some 0%nat) (Some 1%nat);
                         mkDegreeTriplet
                           (mkTriplet "Alan Turing" "Q7251"
                                      "country of citizenship" "P27"
                                      "United Kingdom" "Q145")
                           (Some 0%nat) (Some 1%nat)]),
                   Some d)
             ∧ (∀ q, GraphVisualizer.node_labels d !! q
                     = wikidata_label
                         <$> VizAux.last_entity q
                               [mkProcessed (mkEntity "Alan Turing" "PERSON" 0 11)
                                            "Q7251" "Alan Turing";
                                mkProcessed (mkEntity "Turing" "PERSON" 25 31)
                                            "Q7251" "Alan Turing"])
             ∧ (∀ u v, GraphVisualizer.edge_labels d !! (u, v)
                       = triplet_predicate
                           <$> VizAux.last_triplet u v
                                 (map triplet
                                    [mkDegreeTriplet
                                       (mkTriplet "Alan Turing" "Q7251"
                                                  "country of citizenship" "P27"
                                                  "United Kingdom" "Q145")
                                       (Some 0%nat) (Some 1%nat);
                                     mkDegreeTriplet
                                       (mkTriplet "Alan Turing" "Q7251"
                                                  "country of citizenship" "P27"
                                                  "United Kingdom" "Q145")
                                       (Some 0%nat) (Some 1%nat)]))
             ∧ GraphVisualizer.drawing_title d
               = Visualization.title Examples.turing_text)).
Proof.
  apply (create_visualization_draws Examples.turing_nlp
           Visualization.uk_timeout_session Examples.turing_session).
  - vm_compute. reflexivity.
  - vm_compute. reflexivity.
Defined.

Example create_visualization_timeout_in_first_pass :
  Visualization.create_visualization Examples.turing_nlp
    Visualization.uk_timeout_session Examples.turing_session
    GraphVisualizer.__init__ Examples.turing_text
  = Raise KeyError.
Proof. vm_compute. reflexivity. Qed.

Example visualize_unknown_end :
  GraphVisualizer.visualize
    (VizAux.built GraphVisualizer.__init__
       [mkProcessed (mkEntity "UK" "GPE" 48 50) "Q145" "United Kingdom"]
       [mkTriplet "Alan Turing" "Q7251" "country of citizenship" "P27"
                  "United Kingdom" "Q145"])
    "t"
  = Raise KeyError.
Proof. vm_compute. reflexivity. Qed.

Example get_graph_info_counts :
  let info :=
    GraphVisualizer.get_graph_info
      (VizAux.built GraphVisualizer.__init__ Examples.turing_processed
         [mkTriplet "Alan Turing" "Q7251" "country of citizenship" "P27"
                    "United Kingdom" "Q145";
          mkTriplet "Alan Turing" "Q7251" "place of birth" "P19"
                    "United Kingdom" "Q145"]) in
  GraphVisualizer.num_nodes info = 2%nat
  ∧ GraphVisualizer.num_edges info = 1%nat
  ∧ (GraphVisualizer.info_edges info !! ("Q7251", "Q145")) ≫= (.!! "label")
    = Some "place of birth"
  ∧ (GraphVisualizer.info_nodes info !! "Q7251") ≫= (.!! "entity_type")
    = Some "PERSON".
Proof. vm_compute. repeat split. Qed.

Section DrawnDegrees.
Import GraphVisualizer VizAux Aux DegAux.

Lemma built_edges_into (self : Visualizer) (ps : list ProcessedEntity)
    (rels : list Triplet) (n : string) :
  edges_into (graph (built self ps rels)) n = distinct_incoming rels n.
Proof.
  unfold edges_into, distinct_incoming. rewrite built_edges_dom.
  rewrite <- (length_fmap (fun u => (u, n)) (remove_dups (incoming rels n))).
  unfold size, set_size. cbn [mbind]. apply Permutation_length.
  apply NoDup_Permutation.
  - apply NoDup_elements.
  - apply (NoDup_fmap_2 _). apply NoDup_remove_dups.
  - intros [u v].
    rewrite elem_of_elements, elem_of_filter, elem_of_list_to_set.
    rewrite !list_elem_of_fmap. unfold incoming. cbn [snd]. split.
    + intros [-> (t & [= -> Hv] & Ht)].
      exists (subject_qid t). split; [by rewrite Hv|].
      apply elem_of_remove_dups, list_elem_of_fmap. exists t.
      split; [done|]. by apply list_elem_of_filter.
    + intros (u' & [= -> ->] & Hu).
      apply elem_of_remove_dups, list_elem_of_fmap in Hu as (t & -> & Ht).
      apply list_elem_of_filter in Ht as [Ho Ht].
      split; [done|]. exists t. unfold ends. by rewrite Ho.
Qed.
End DrawnDegrees.

(** X14.  The degrees that [_add_in_degree_info] writes into the
    triplets are the degrees of the graph that the visualizer draws:
    for the subject and for the object of every triplet, the number is
    the number of edges that point to its node in the graph that
    [clear], [add_entities] and [add_relationships] build from the same
    triplets, whatever the entities. *)
Theorem in_degree_info_matches_drawn_graph
    (self : GraphVisualizer.Visualizer) (ps ps' : list ProcessedEntity)
    (rels : list Triplet) :
  Forall (fun d =>
            subject_in_degree d
            = Some (DegAux.edges_into
                      (GraphVisualizer.graph (VizAux.built self ps rels))
                      (subject_qid (triplet d)))
            ∧ object_in_degree d
              = Some (DegAux.edges_into
                        (GraphVisualizer.graph (VizAux.built self ps rels))
                        (object_qid (triplet d))))
         (EnhancedRelationshipExtractor._add_in_degree_info rels ps').
Proof.
  rewrite _add_in_degree_info_spec. apply Forall_fmap, Forall_forall.
  intros t _. cbn [subject_in_degree object_in_degree triplet compose].
  by rewrite !built_edges_into.
Qed.

(** ** The web handler *)

Section Handler.
Import EnhancedRelationshipExtractor App.

(** The outcomes of the handler when the extractor is there and the
    request has a body. *)
Lemma analyze_text_cases (nlp : string → list Entity) (session : Session)
    (data : json) (r : res reply) :
  analyze_text (Some (nlp, session)) (Returns data) = r →
  (Py.truthy data = false
   ∧ r = Ok (mkReply (Error (Message "No JSON data provided")) 400))
  ∨ (Py.truthy data = true
     ∧ ((∃ e, (Py.get data "text" (JStr "") = Raise e
               ∨ ∃ v, Py.get data "text" (JStr "") = Ok v
                      ∧ strip v = Raise e)
              ∧ r = Ok (mkReply (Error (AnalysisFailed (Exception e))) 500))
        ∨ ∃ s, Py.get data "text" (JStr "") = Ok (JStr s)
               ∧ ((PyStr.strip s = ""
                   ∧ r = Ok (mkReply (Error (Message "No text provided")) 400))
                  ∨ (PyStr.strip s ≠ ""
                     ∧ (10000 < Z.of_nat (String.length (PyStr.strip s)))%Z
                     ∧ r = Ok (mkReply
                                 (Error (Message
                                           "Text too long (maximum 10,000 characters)"))
                                 400))
                  ∨ (PyStr.strip s ≠ ""
                     ∧ (Z.of_nat (String.length (PyStr.strip s)) ≤ 10000)%Z
                     ∧ r = except_Exception
                             (relationships ←
                                extract_relationships nlp session (PyStr.strip s);
                              Ok (mkReply
                                    (Success (PyStr.strip s) relationships
                                             (length relationships))
                                    200)))))).
Proof.
  intros <-. cbn [analyze_text].
  destruct (Py.truthy data) eqn:Ht; cbn [negb]; [right; split; [done|] | by left].
  destruct (Py.get data "text" (JStr "")) as [v| e |] eqn:Hget.
  - destruct v as [| b | n | s | l | its];
      try (left; exists AttributeError; split; [right; eexists; by split | done]).
    right. exists s. split; [done|]. cbn [mbind res_bind strip].
    destruct (String.eqb_spec (PyStr.strip s) "") as [Hs|Hs]; [by left|].
    right. destruct (Z.ltb_spec 10000 (Z.of_nat (String.length (PyStr.strip s)))).
    + by left.
    + right. split; [done|]. split; [lia|done].
  - left. exists e. by split; [left|].
  - exfalso. by destruct data.
Qed.

Lemma strip_nonempty_has_nonspace (s : string) :
  PyStr.strip s ≠ "" → Aux.has_nonspace (PyStr.strip s) = true.
Proof.
  intros Hs. rewrite has_nonspace_strip.
  destruct (Aux.has_nonspace s) eqn:Hn; [done|]. destruct Hs.
  unfold PyStr.strip. by rewrite (lstrip_all_space s Hn).
Qed.
End Handler.

(** X15.  The handler of [POST /api/analyze] never raises: whatever the
    request and whatever the pipeline does, an exception ends in a
    reply.  A reply with the analysis has the status 200, a reply with
    one of the fixed messages the status 400 (500 when there is no
    extractor), and a reply for a caught exception the status 500. *)
Theorem analyze_text_never_raises
    (relationship_extractor : option ((string → list Entity) * Session))
    (request : App.get_json_outcome) :
  (∀ e, App.analyze_text relationship_extractor request ≠ Raise e)
  ∧ ∀ r, App.analyze_text relationship_extractor request = Ok r →
         match App.reply_payload r with
         | App.Success _ _ _ => App.reply_status r = 200%Z
         | App.Error (App.Message _) =>
             App.reply_status r = 400%Z
             ∨ (relationship_extractor = None ∧ App.reply_status r = 500%Z)
         | App.Error (App.AnalysisFailed _) => App.reply_status r = 500%Z
         end.
Proof.
  destruct relationship_extractor as [[nlp session]|].
  2: { split; [done|]. intros r [= <-]. cbn. by right. }
  destruct request as [data|].
  2: { split; [done|]. by intros r [= <-]. }
  destruct (analyze_text_cases nlp session data _ eq_refl)
    as [[_ ->] | [_ [(e & _ & ->) | (s & _ & [[_ ->] | [(_ & _ & ->) | (_ & _ & ->)]])]]].
  - split; [done|]. intros r [= <-]. cbn. by left.
  - split; [done|]. by intros r [= <-].
  - split; [done|]. intros r [= <-]. cbn. by left.
  - split; [done|]. intros r [= <-]. cbn. by left.
  - destruct (EnhancedRelationshipExtractor.extract_relationships
                nlp session (PyStr.strip s)) as [rels| e |].
    + split; [done|]. by intros r [= <-].
    + split; [done|]. by intros r [= <-].
    + split; done.
Qed.

(** X16.  A reply with the analysis is made of the request and of the
    pipeline only: its text is the stripped text of the request, which
    has a character that is not white space and at most 10000
    characters; its relationships are what [extract_relationships]
    returns for the stripped text, and its count is their number. *)
Theorem analyze_text_success
    (relationship_extractor : option ((string → list Entity) * Session))
    (request : App.get_json_outcome) (text : string)
    (relationships : list DegreeTriplet) (count : nat) (status : Z) :
  App.analyze_text relationship_extractor request
  = Ok (App.mkReply (App.Success text relationships count) status) →
  status = 200%Z
  ∧ count = length relationships
  ∧ Aux.has_nonspace text = true
  ∧ (Z.of_nat (String.length text) ≤ 10000)%Z
  ∧ ∃ nlp session data s,
      relationship_extractor = Some (nlp, session)
      ∧ request = App.Returns data
      ∧ Py.get data "text" (JStr "") = Ok (JStr s)
      ∧ text = PyStr.strip s
      ∧ EnhancedRelationshipExtractor.extract_relationships nlp session text
        = Ok relationships.
Proof.
  intros H.
  destruct relationship_extractor as [[nlp session]|]; [|done].
  destruct request as [data|]; [|done].
  destruct (analyze_text_cases nlp session data _ H)
    as [[_ [=]] | [_ [(e & _ & [=]) | (s & Hs & [[_ [=]] | [(_ & _ & [=]) | (Hne & Hlen & Hr)]])]]].
  destruct (EnhancedRelationshipExtractor.extract_relationships
              nlp session (PyStr.strip s)) as [rels| e |] eqn:Hrels;
    cbn in Hr; [|done..].
  injection Hr as -> -> -> ->.
  split; [done|]. split; [done|].
  split; [by apply strip_nonempty_has_nonspace|]. split; [done|].
  by exists nlp, session, data, s.
Qed.

Lemma analyze_text_success_witness :
  200%Z = 200%Z
  ∧ 2%nat
    = length
        [mkDegreeTriplet
           (mkTriplet "Alan Turing" "Q7251" "country of citizenship" "P27"
                      "United Kingdom" "Q145") (Some 0%nat) (Some 1%nat);
         mkDegreeTriplet
           (mkTriplet "Alan Turing" "Q7251" "country of citizenship" "P27"
                      "United Kingdom" "Q145") (Some 0%nat) (Some 1%nat)]
  ∧ Aux.has_nonspace Examples.turing_text = true
  ∧ (Z.of_nat (String.length Examples.turing_text) ≤ 10000)%Z
  ∧ ∃ nlp session data s,
      Some (Examples.turing_nlp, Examples.turing_session) = Some (nlp, session)
      ∧ App.Returns
          (JObj [("text", JStr (" " ++ Examples.turing_text ++ " "))])
        = App.Returns data
      ∧ Py.get data "text" (JStr "") = Ok (JStr s)
      ∧ Examples.turing_text = PyStr.strip s
      ∧ EnhancedRelationshipExtractor.extract_relationships nlp session
          Examples.turing_text
        = Ok [mkDegreeTriplet
                (mkTriplet "Alan Turing" "Q7251" "country of citizenship"
                           "P27" "United Kingdom" "Q145")
                (Some 0%nat) (Some 1%nat);
              mkDegreeTriplet
                (mkTriplet "Alan Turing" "Q7251" "country of citizenship"
                           "P27" "United Kingdom" "Q145")
                (Some 0%nat) (Some 1%nat)].
Proof.
  apply (analyze_text_success
           (Some (Examples.turing_nlp, Examples.turing_session))
           (App.Returns
              (JObj [("text", JStr (" " ++ Examples.turing_text ++ " "))]))).
  vm_compute. reflexivity.
Defined.

(** X17.  With an extractor, the handler answers 400 exactly when the
    request has a body that is false as a condition ([None], an empty
    object or list, zero, the empty string), or an object whose text
    (the empty string when it has none) is a string that is empty
    after stripping or has more than 10000 characters after stripping.
    The knowledge base has no part in it. *)
Theorem analyze_text_bad_request_iff
    (nlp : string → list Entity) (session : Session)
    (request : App.get_json_outcome) :
  (∃ r, App.analyze_text (Some (nlp, session)) request = Ok r
        ∧ App.reply_status r = 400%Z)
  ↔ ∃ data, request = App.Returns data
            ∧ (Py.truthy data = false
               ∨ (Py.truthy data = true
                  ∧ ∃ s, Py.get data "text" (JStr "") = Ok (JStr s)
                         ∧ (PyStr.strip s = ""
                            ∨ (10000 < Z.of_nat (String.length (PyStr.strip s)))%Z))).
Proof.
  destruct request as [data|].
  2: { split; [by intros (r & [= <-] & ?) | by intros (? & ? & _)]. }
  destruct (analyze_text_cases nlp session data _ eq_refl)
    as [[Ht ->] | [Ht [(e & He & ->) | (s & Hs & [[Hb ->] | [(Hne & Hlong & ->) | (Hne & Hlen & ->)]])]]].
  - split; [|by eexists]. intros _. exists data. split; [done | by left].
  - split; [by intros (r & [= <-] & ?)|].
    intros (? & [= <-] & [? | (_ & s & Hs & _)]); [congruence|].
    destruct He as [He | (v & Hv & He)]; [congruence|].
    rewrite Hs in Hv. injection Hv as <-. done.
  - split; [|by eexists]. intros _. exists data. split; [done|].
    right. split; [done|]. exists s. by split; [|left].
  - split; [|by eexists]. intros _. exists data. split; [done|].
    right. split; [done|]. exists s. by split; [|right].
  - split.
    + intros (r & Hr & H400). exfalso.
      destruct (EnhancedRelationshipExtractor.extract_relationships
                  nlp session (PyStr.strip s)) as [rels| e |];
        cbn in Hr; [| |done]; by injection Hr as <-.
    + intros (? & [= <-] & [? | (_ & s' & Hs' & Hbad)]); [congruence|].
      rewrite Hs in Hs'. injection Hs' as <-.
      destruct Hbad as [? | ?]; [done | lia].
Qed.

Example analyze_text_malformed_payload :
  App.analyze_text (Some (Examples.turing_nlp, Examples.hit_without_id_session))
                   (App.Returns (JObj [("text", JStr Examples.turing_text)]))
  = Ok (App.mkReply (App.Error (App.AnalysisFailed (App.Exception KeyError)))
                    500).
Proof. vm_compute. reflexivity. Qed.

Example analyze_text_number_as_text :
  App.analyze_text (Some (Examples.turing_nlp, Examples.turing_session))
                   (App.Returns (JObj [("text", JNum 5)]))
  = Ok (App.mkReply
          (App.Error (App.AnalysisFailed (App.Exception AttributeError))) 500).
Proof. vm_compute. reflexivity. Qed.
